(** * cifsd VFS helpers: a shallow embedding of [vfs.c]

    The file embeds the VFS helper layer of the CIFS server
    ([smb_vfs_read], [smb_vfs_write], [smb_check_attrs], [smb_vfs_setattr],
    [smb_vfs_rename], [smb_vfs_truncate], [smb_vfs_getxattr] and the lock
    gate [smb_vfs_locks_mandatory_area]) and proves properties of the
    order in which these helpers call into the kernel.

    Modelling conventions.
    - Kernel objects ([struct file *], [struct dentry *], [struct inode *],
      [struct cifssrv_file *]) are addresses, written as [Z]; [NULL] is [0]
      and an [ERR_PTR] is a negative address in the errno range.
    - The Linux kernel itself (VFS primitives, the fid table, the oplock
      machinery) is not part of the helper layer.  It is an interface,
      [kernel], whose persistent content is an abstract world [W]; every
      primitive is a field of that interface.  Primitives that only look
      things up are functions of the world, primitives that change the
      backend return a new world.
    - Every call a helper makes is appended to a trace, in program order,
      so that "A happens before B" and "B is never called" are statements
      about lists of events.  Reference counts, write-access counts and
      lock holdings are bookkeeping outside the persistent content: they
      are followed through the trace.
    - [cifssrv_err]/[cifssrv_debug] only print and are left out.
    - Where the source has two branches on [LINUX_VERSION_CODE] the branch
      for kernels newer than 3.10.30 is embedded; the two differ only in
      the arity of the primitive called. *)

From Stdlib Require Import ZArith List String Ascii Bool Lia.
Import ListNotations.
Local Open Scope Z_scope.

(** ** C integer types *)

Definition wrap_signed (bits x : Z) : Z :=
  let m := 2 ^ bits in
  let y := x mod m in
  if y <? m / 2 then y else y - m.

(** [int], [loff_t] and [ssize_t] of a 64-bit kernel. *)
Definition to_int (x : Z) : Z := wrap_signed 32 x.
Definition to_loff (x : Z) : Z := wrap_signed 64 x.

(** ** Constants of the kernel headers

    The mode bits are octal in the headers: [S_IFMT = 0170000],
    [S_IFLNK = 0120000], [S_IFDIR = 0040000], [S_ISUID = 04000],
    [S_ISGID = 02000], [S_IXGRP = 010], [S_IALLUGO = 07777] and
    [O_DIRECT = 040000]. *)

Definition ENOENT : Z := 2.
Definition E2BIG : Z := 7.
Definition EAGAIN : Z := 11.
Definition ENOMEM : Z := 12.
Definition EEXIST : Z := 17.
Definition EXDEV : Z := 18.
Definition EISDIR : Z := 21.
Definition EINVAL : Z := 22.
Definition ENOSPC : Z := 28.
Definition ERANGE : Z := 34.
Definition ENAMETOOLONG : Z := 36.
Definition ENOTEMPTY : Z := 39.
Definition MAX_ERRNO : Z := 4095.

Definition S_IFMT : Z := 0xF000.
Definition S_IFLNK : Z := 0xA000.
Definition S_IFDIR : Z := 0x4000.
Definition S_ISUID : Z := 0x800.
Definition S_ISGID : Z := 0x400.
Definition S_IXGRP : Z := 0x8.
Definition S_IALLUGO : Z := 0xFFF.

Definition S_ISDIR (m : Z) : bool := Z.land m S_IFMT =? S_IFDIR.
Definition S_ISLNK (m : Z) : bool := Z.land m S_IFMT =? S_IFLNK.

Definition ATTR_MODE : Z := 1.
Definition ATTR_UID : Z := 2.
Definition ATTR_GID : Z := 4.
Definition ATTR_SIZE : Z := 8.
Definition ATTR_CTIME : Z := 64.
Definition ATTR_KILL_SUID : Z := 2048.
Definition ATTR_KILL_SGID : Z := 4096.
Definition ATTR_KILL_PRIV : Z := 16384.

Definition O_DIRECT : Z := 0x4000.
Definition LOOKUP_PARENT : Z := 16.
Definition KERNEL_DS : Z := -1.

Definition F_RDLCK : Z := 0.
Definition F_WRLCK : Z := 1.
Definition FL_POSIX : Z := 1.
Definition FL_ACCESS : Z := 8.

(** [IS_ERR] and [PTR_ERR] of [linux/err.h], on addresses read as [long]. *)
Definition IS_ERR (p : Z) : bool := (- MAX_ERRNO <=? p) && (p <? 0).
Definition PTR_ERR (p : Z) : Z := p.

(** [uid_eq] and [gid_eq] of compat.h. *)
Definition uid_eq (l r : Z) : bool := l =? r.
Definition gid_eq (l r : Z) : bool := l =? r.

(** ** Structures *)

Record path := { mnt : Z; dentry : Z }.

Record file_lock := {
  fl_owner : Z;
  fl_pid : Z;
  fl_file : Z;
  fl_flags : Z;
  fl_type : Z;
  fl_start : Z;
  fl_end : Z
}.

Record iattr := {
  ia_valid : Z;
  ia_mode : Z;
  ia_uid : Z;
  ia_gid : Z;
  ia_size : Z
}.

Definition set_ia_valid (a : iattr) (v : Z) : iattr :=
  {| ia_valid := v; ia_mode := ia_mode a; ia_uid := ia_uid a;
     ia_gid := ia_gid a; ia_size := ia_size a |}.

Definition set_ia_mode (a : iattr) (m : Z) : iattr :=
  {| ia_valid := ia_valid a; ia_mode := m; ia_uid := ia_uid a;
     ia_gid := ia_gid a; ia_size := ia_size a |}.

Inductive mutex :=
| ofile_list_lock
| i_mutex (inode : Z).

(** ** Calls observed in a run *)

Inductive event :=
| EvGetId (server fid : Z)
| EvLocksMandatoryArea (filp start end_ type : Z)
| EvPosixLockFile (filp : Z) (fl : file_lock)
| EvPosixUnblockLock (fl : file_lock)
| EvVmalloc (size : Z)
| EvVfree (p : Z)
| EvSetFs (seg : Z)
| EvVfsRead (filp count pos : Z)
| EvDPath (filp : Z)
| EvMutexLock (m : mutex)
| EvMutexUnlock (m : mutex)
| EvBreakIIOplock (server fp : Z)
| EvVfsWrite (filp : Z) (buf : list Z) (count pos : Z)
| EvVfsFsyncRange (filp start end_ datasync : Z)
| EvKernPath (name : string) (flags err : Z) (p : path)
| EvPathPut (p : path)
| EvGetWriteAccess (inode : Z)
| EvPutWriteAccess (inode : Z)
| EvLocksVerifyTruncate (inode size : Z)
| EvNotifyChange (d : Z) (attrs : iattr)
| EvSyncInodeMetadata (inode wait : Z)
| EvLockRename (p1 p2 : Z)
| EvUnlockRename (p1 p2 : Z)
| EvLookupOneLen (name : string) (base len d : Z)
| EvDget (d : Z)
| EvDput (d : Z)
| EvVfsRename (old_dir old_dentry new_dir new_dentry : Z)
| EvVfsTruncate (p : path) (size : Z)
| EvVfsGetxattr (d : Z) (name : string) (size : Z).

(** ** The kernel as an interface

    Bytes are [Z] in [0, 255].  [vfs_getxattr] is called with a buffer
    capacity: capacity [0] asks for the length of the stored value and
    writes nothing; otherwise the value is returned next to the length. *)

Record kernel := {
  W : Type;
  (* the handle table and the objects behind a handle *)
  get_id_from_fidtable : W -> Z -> Z -> Z;
  fp_filp : W -> Z -> Z;
  f_path : W -> Z -> path;
  d_inode : W -> Z -> Z;
  d_parent : W -> Z -> Z;
  i_mode : W -> Z -> Z;
  i_uid : W -> Z -> Z;
  i_gid : W -> Z -> Z;
  i_size : W -> Z -> Z;
  (* byte-range locks *)
  flc_posix_empty : W -> Z -> bool;
  current_tgid : W -> Z;
  posix_lock_file : W -> Z -> file_lock -> Z;
  (* leases *)
  oplocks_enable : W -> Z;
  smb_breakII_oplock : W -> Z -> Z -> W;
  (* memory *)
  vmalloc : W -> Z -> Z;
  (* file I/O: result, data or position, new world *)
  vfs_read : W -> Z -> Z -> Z -> Z * list Z * Z * W;
  vfs_write : W -> Z -> list Z -> Z -> Z -> Z * Z * W;
  vfs_fsync_range : W -> Z -> Z -> Z -> Z -> Z * W;
  (* name space *)
  kern_path : W -> string -> Z -> Z * path;
  lock_rename : W -> Z -> Z -> Z;
  lookup_one_len : W -> string -> Z -> Z -> Z;
  vfs_rename : W -> Z -> Z -> Z -> Z -> Z * W;
  vfs_truncate : W -> path -> Z -> Z * W;
  (* attributes *)
  get_write_access : W -> Z -> Z;
  locks_verify_truncate : W -> Z -> Z -> Z;
  notify_change : W -> Z -> iattr -> Z * W;
  sync_inode_metadata : W -> Z -> Z -> W;
  vfs_getxattr : W -> Z -> string -> Z -> Z * list Z
}.

(** ** State and the monad of a helper

    A helper runs in a state made of the kernel's world, the [f_flags]
    word of every open file, the address limit set by [set_fs], and the
    trace.  A computation either goes on with a value or leaves the
    function with its return value, as a C [return] does. *)

Inductive step (R A : Type) :=
| Next (a : A)
| Return (r : R).
Arguments Next {R A} a.
Arguments Return {R A} r.

Section Vfs.

Context (K : kernel).

Record kstate := {
  world : W K;
  f_flags : Z -> Z;
  addr_limit : Z;
  trace : list event
}.

Definition M (R A : Type) : Type := kstate -> step R A * kstate.

Definition ret {R A} (a : A) : M R A := fun s => (Next a, s).

Definition bind {R A B} (m : M R A) (f : A -> M R B) : M R B :=
  fun s =>
    match m s with
    | (Next a, s') => f a s'
    | (Return r, s') => (Return r, s')
    end.

Definition return_ {R A} (r : R) : M R A := fun s => (Return r, s).

Definition run {R} (m : M R R) (s : kstate) : R * kstate :=
  match m s with
  | (Next r, s') => (r, s')
  | (Return r, s') => (r, s')
  end.

Notation "x <- m ;; k" := (bind m (fun x => k))
  (at level 61, m at next level, right associativity).
Notation "m ;; k" := (bind m (fun _ => k))
  (at level 61, right associativity).
Notation "' pat <- m ;; k" := (bind m (fun x => match x with pat => k end))
  (at level 61, pat pattern, m at next level, right associativity).

Definition emit {R} (e : event) : M R unit :=
  fun s => (Next tt,
            {| world := world s; f_flags := f_flags s;
               addr_limit := addr_limit s; trace := trace s ++ [e] |}).

(** Look something up in the world. *)
Definition look {R A} (f : W K -> A) : M R A :=
  fun s => (Next (f (world s)), s).

(** Call a primitive that changes the world. *)
Definition call {R A} (f : W K -> A * W K) : M R A :=
  fun s =>
    let (a, w) := f (world s) in
    (Next a,
     {| world := w; f_flags := f_flags s;
        addr_limit := addr_limit s; trace := trace s |}).

Definition get_fs {R} : M R Z := fun s => (Next (addr_limit s), s).

Definition set_fs {R} (seg : Z) : M R unit :=
  fun s => (Next tt,
            {| world := world s; f_flags := f_flags s;
               addr_limit := seg; trace := trace s ++ [EvSetFs seg] |}).

Definition clear_f_flags {R} (filp mask : Z) : M R unit :=
  fun s => (Next tt,
            {| world := world s;
               f_flags := fun f => if f =? filp
                                   then Z.land (f_flags s f) (Z.lnot mask)
                                   else f_flags s f;
               addr_limit := addr_limit s; trace := trace s |}).

(** [file_inode] of compat.h. *)
Definition file_inode (w : W K) (filp : Z) : Z :=
  d_inode K w (dentry (f_path K w filp)).

(** ** smb_vfs_locks_mandatory_area *)

Definition smb_vfs_locks_mandatory_area (filp start end_ type : Z) : M Z Z :=
  emit (EvLocksMandatoryArea filp start end_ type) ;;
  empty <- look (fun w => flc_posix_empty K w (file_inode w filp)) ;;
  if (empty : bool) then return_ 0 else
  tgid <- look (current_tgid K) ;;
  let fl := {| fl_owner := filp; fl_pid := tgid; fl_file := filp;
               fl_flags := Z.lor FL_POSIX FL_ACCESS; fl_type := type;
               fl_start := start; fl_end := end_ |} in
  emit (EvPosixLockFile filp fl) ;;
  error <- look (fun w => posix_lock_file K w filp fl) ;;
  emit (EvPosixUnblockLock fl) ;;
  ret error.

(** A helper called from another helper: its [return] ends the callee
    only. *)
Definition sub {R A} (m : M A A) : M R A :=
  fun s => let (a, s') := run m s in (Next a, s').

(** ** smb_vfs_read *)

Record read_result := {
  rd_ret : Z;
  rd_buf : option (Z * list Z);
  rd_pos : Z
}.

Definition smb_vfs_read (server fid count pos : Z) : M read_result read_result :=
  let leave r := return_ {| rd_ret := r; rd_buf := None; rd_pos := pos |} in
  if count =? 0 then leave 0 else
  emit (EvGetId server fid) ;;
  fp <- look (fun w => get_id_from_fidtable K w server fid) ;;
  if fp =? 0 then leave (- ENOENT) else
  filp <- look (fun w => fp_filp K w fp) ;;
  inode <- look (fun w => d_inode K w (dentry (f_path K w filp))) ;;
  mode <- look (fun w => i_mode K w inode) ;;
  if S_ISDIR mode then leave (- EISDIR) else
  r <- sub (smb_vfs_locks_mandatory_area filp pos
              (to_loff (pos + count - 1)) F_RDLCK) ;;
  let r := to_int r in
  if r =? - EAGAIN then leave r else
  emit (EvVmalloc count) ;;
  rbuf <- look (fun w => vmalloc K w count) ;;
  if rbuf =? 0 then leave (- ENOENT) else
  old_fs <- get_fs ;;
  set_fs KERNEL_DS ;;
  clear_f_flags filp O_DIRECT ;;
  emit (EvVfsRead filp count pos) ;;
  '(nbytes, data, pos') <- call (fun w => vfs_read K w filp count pos) ;;
  set_fs old_fs ;;
  (if nbytes <? 0
   then emit (EvDPath filp) ;; emit (EvVfree rbuf) ;;
        ret {| rd_ret := to_int nbytes; rd_buf := None; rd_pos := pos' |}
   else ret {| rd_ret := to_int nbytes; rd_buf := Some (rbuf, data);
               rd_pos := pos' |}).

(** ** smb_vfs_write *)

Record write_result := {
  wr_ret : Z;
  wr_written : option Z;
  wr_pos : Z
}.

(** The lease revocation of the write and truncate paths: the call to
    [smb_breakII_oplock] under [ofile_list_lock]. *)
Definition break_levelII {R} (server fp : Z) : M R unit :=
  emit (EvMutexLock ofile_list_lock) ;;
  emit (EvBreakIIOplock server fp) ;;
  call (fun w => (tt, smb_breakII_oplock K w server fp)) ;;
  emit (EvMutexUnlock ofile_list_lock).

Definition smb_vfs_write (server fid : Z) (buf : list Z) (count pos : Z)
    (sync : bool) : M write_result write_result :=
  let leave r := return_ {| wr_ret := r; wr_written := None; wr_pos := pos |} in
  let offset := pos in
  emit (EvGetId server fid) ;;
  fp <- look (fun w => get_id_from_fidtable K w server fid) ;;
  if fp =? 0 then leave (- ENOENT) else
  filp <- look (fun w => fp_filp K w fp) ;;
  err <- sub (smb_vfs_locks_mandatory_area filp pos
                (to_loff (pos + count - 1)) F_WRLCK) ;;
  let err := to_int err in
  if err =? - EAGAIN then leave err else
  old_fs <- get_fs ;;
  set_fs KERNEL_DS ;;
  oplocks <- look (oplocks_enable K) ;;
  (if oplocks =? 0 then ret tt else break_levelII server fp) ;;
  emit (EvVfsWrite filp buf count pos) ;;
  '(n, pos') <- call (fun w => vfs_write K w filp buf count pos) ;;
  let err := to_int n in
  set_fs old_fs ;;
  if err <? 0
  then return_ {| wr_ret := err; wr_written := None; wr_pos := pos' |}
  else
  let written := err in
  if sync
  then emit (EvVfsFsyncRange filp offset (to_loff (offset + written)) 0) ;;
       err <- call (fun w => vfs_fsync_range K w filp offset
                               (to_loff (offset + written)) 0) ;;
       ret {| wr_ret := to_int err; wr_written := Some written;
              wr_pos := pos' |}
  else ret {| wr_ret := 0; wr_written := Some written; wr_pos := pos' |}.

(** ** smb_check_attrs *)

Definition smb_check_attrs (w : W K) (inode : Z) (attrs : iattr) : iattr :=
  let attrs :=
    if Z.land (ia_valid attrs) ATTR_MODE =? 0 then attrs else
    let attrs := set_ia_mode attrs (Z.land (ia_mode attrs) S_IALLUGO) in
    set_ia_mode attrs
      (Z.lor (ia_mode attrs) (Z.land (i_mode K w inode) (Z.lnot S_IALLUGO))) in
  if negb (S_ISDIR (i_mode K w inode)) &&
     ((negb (Z.land (ia_valid attrs) ATTR_UID =? 0) &&
       negb (uid_eq (ia_uid attrs) (i_uid K w inode))) ||
      (negb (Z.land (ia_valid attrs) ATTR_GID =? 0) &&
       negb (gid_eq (ia_gid attrs) (i_gid K w inode))))
  then
    let attrs := set_ia_valid attrs (Z.lor (ia_valid attrs) ATTR_KILL_PRIV) in
    if Z.land (ia_valid attrs) ATTR_MODE =? 0
    then set_ia_valid attrs
           (Z.lor (ia_valid attrs) (Z.lor ATTR_KILL_SUID ATTR_KILL_SGID))
    else
      let attrs := set_ia_mode attrs (Z.land (ia_mode attrs) (Z.lnot S_ISUID)) in
      if Z.land (ia_mode attrs) S_IXGRP =? 0 then attrs
      else set_ia_mode attrs (Z.land (ia_mode attrs) (Z.lnot S_ISGID))
  else attrs.

(** ** smb_vfs_setattr

    [attrs] is changed in place by the source, so the helper returns it
    next to the error code. *)

Record setattr_result := {
  sa_ret : Z;
  sa_attrs : iattr
}.

Definition smb_vfs_setattr (server : Z) (name : option string) (fid : Z)
    (attrs : iattr) : M setattr_result setattr_result :=
  '(pth, d) <-
    match name with
    | Some nm =>
        '(err, pth) <- look (fun w => kern_path K w nm 0) ;;
        emit (EvKernPath nm 0 err pth) ;;
        if err =? 0 then ret (Some pth, dentry pth)
        else return_ {| sa_ret := - ENOENT; sa_attrs := attrs |}
    | None =>
        emit (EvGetId server fid) ;;
        fp <- look (fun w => get_id_from_fidtable K w server fid) ;;
        if fp =? 0 then return_ {| sa_ret := - ENOENT; sa_attrs := attrs |} else
        filp <- look (fun w => fp_filp K w fp) ;;
        d <- look (fun w => dentry (f_path K w filp)) ;;
        ret (None, d)
    end ;;
  inode <- look (fun w => d_inode K w d) ;;
  let out (A : Type) (err : Z) (attrs : iattr) : M setattr_result A :=
    match pth with
    | Some p => emit (EvPathPut p)
    | None => ret tt
    end ;;
    return_ {| sa_ret := err; sa_attrs := attrs |} in
  mode <- look (fun w => i_mode K w inode) ;;
  let attrs :=
    if S_ISLNK mode
    then set_ia_valid attrs (Z.land (ia_valid attrs) (Z.lnot ATTR_MODE))
    else attrs in
  if ia_valid attrs =? 0 then out _ 0 attrs else
  attrs <- look (fun w => smb_check_attrs w inode attrs) ;;
  update_size <-
    (if Z.land (ia_valid attrs) ATTR_SIZE =? 0 then ret false else
     emit (EvGetWriteAccess inode) ;;
     err <- look (fun w => get_write_access K w inode) ;;
     if negb (err =? 0) then out _ err attrs else
     emit (EvLocksVerifyTruncate inode (ia_size attrs)) ;;
     err <- look (fun w => locks_verify_truncate K w inode (ia_size attrs)) ;;
     if negb (err =? 0)
     then emit (EvPutWriteAccess inode) ;; out _ err attrs
     else ret true) ;;
  let attrs := set_ia_valid attrs (Z.lor (ia_valid attrs) ATTR_CTIME) in
  emit (EvMutexLock (i_mutex inode)) ;;
  emit (EvNotifyChange d attrs) ;;
  err <- call (fun w => notify_change K w d attrs) ;;
  emit (EvMutexUnlock (i_mutex inode)) ;;
  (if (update_size : bool) then emit (EvPutWriteAccess inode) else ret tt) ;;
  (if err =? 0
   then emit (EvSyncInodeMetadata inode 1) ;;
        call (fun w => (tt, sync_inode_metadata K w inode 1))
   else ret tt) ;;
  out _ err attrs.

(** ** smb_vfs_rename *)

(** [strrchr]: the suffix of [s] that starts at the last [c]. *)
Fixpoint strrchr (s : string) (c : ascii) : option string :=
  match s with
  | EmptyString => None
  | String a s' =>
      match strrchr s' c with
      | Some r => Some r
      | None => if Ascii.eqb a c then Some s else None
      end
  end.

(** The idiom the source repeats for each path:
    [p = strrchr(abs, '/'); if (p && p[1] != '\0') p++; else fail]. *)
Definition last_component (abs : string) : option string :=
  match strrchr abs "/"%char with
  | Some (String _ (String a rest)) => Some (String a rest)
  | _ => None
  end.

Definition strlen (s : string) : Z := Z.of_nat (String.length s).

(** What the first half of the helper resolves: the two parent
    directories and the two leaf names, with the references the exit
    labels have to drop ([oldpath_p] only when the source came as a
    name, [filp] only when it came as a fid). *)
Record rename_txn := {
  oldname : option string;
  oldpath_p : option path;
  filp : Z;
  dold_p : Z;
  newname : string;
  newpath_p : path;
  dnew_p : Z
}.

(** Lines 621-683: everything before [lock_rename]. *)
Definition rename_resolve (server : Z) (abs_oldname : option string)
    (abs_newname : string) (oldfid : Z) : M Z rename_txn :=
  match abs_oldname with
  | Some abs_old =>
      match last_component abs_old with
      | None => return_ (- ENOENT)
      | Some oldname =>
          '(err, oldpath_p) <-
            look (fun w => kern_path K w abs_old LOOKUP_PARENT) ;;
          emit (EvKernPath abs_old LOOKUP_PARENT err oldpath_p) ;;
          if negb (err =? 0) then return_ (- ENOENT) else
          let out1 (A : Type) (err : Z) : M Z A :=
            emit (EvPathPut oldpath_p) ;; return_ err in
          match last_component abs_newname with
          | None => out1 _ (- ENOMEM)
          | Some newname =>
              '(err, newpath_p) <-
                look (fun w => kern_path K w abs_newname LOOKUP_PARENT) ;;
              emit (EvKernPath abs_newname LOOKUP_PARENT err newpath_p) ;;
              if negb (err =? 0) then out1 _ err else
              ret {| oldname := Some oldname; oldpath_p := Some oldpath_p;
                     filp := 0; dold_p := dentry oldpath_p;
                     newname := newname; newpath_p := newpath_p;
                     dnew_p := dentry newpath_p |}
          end
      end
  | None =>
      emit (EvGetId server oldfid) ;;
      fp <- look (fun w => get_id_from_fidtable K w server oldfid) ;;
      if fp =? 0 then return_ (- ENOENT) else
      filp <- look (fun w => fp_filp K w fp) ;;
      dold_p <- look (fun w => d_parent K w (dentry (f_path K w filp))) ;;
      match last_component abs_newname with
      | None => return_ (- ENOMEM)
      | Some newname =>
          '(err, newpath_p) <-
            look (fun w => kern_path K w abs_newname LOOKUP_PARENT) ;;
          emit (EvKernPath abs_newname LOOKUP_PARENT err newpath_p) ;;
          if negb (err =? 0) then return_ err else
          ret {| oldname := None; oldpath_p := None;
                 filp := filp; dold_p := dold_p;
                 newname := newname; newpath_p := newpath_p;
                 dnew_p := dentry newpath_p |}
      end
  end.

(** The source dentry: looked up under its parent, or taken from the
    open file. *)
Definition rename_source (t : rename_txn) (w : W K) : Z :=
  match oldname t with
  | Some nm => lookup_one_len K w nm (dold_p t) (strlen nm)
  | None => dentry (f_path K w (filp t))
  end.

Definition rename_target (t : rename_txn) (w : W K) : Z :=
  lookup_one_len K w (newname t) (dnew_p t) (strlen (newname t)).

(** Lines 686-737: from [lock_rename] to the exit labels. *)
Definition rename_locked (t : rename_txn) : M Z Z :=
  let out1 (A : Type) (err : Z) : M Z A :=
    match oldpath_p t with
    | Some p => emit (EvPathPut p)
    | None => ret tt
    end ;;
    return_ err in
  let out2 (A : Type) (err : Z) : M Z A :=
    emit (EvUnlockRename (dold_p t) (dnew_p t)) ;;
    emit (EvPathPut (newpath_p t)) ;;
    out1 A err in
  let out3 (A : Type) (dold err : Z) : M Z A :=
    emit (EvDput dold) ;; out2 A err in
  let out4 (A : Type) (dnew dold err : Z) : M Z A :=
    emit (EvDput dnew) ;; out3 A dold err in
  emit (EvLockRename (dold_p t) (dnew_p t)) ;;
  trap <- look (fun w => lock_rename K w (dold_p t) (dnew_p t)) ;;
  dold <- look (rename_source t) ;;
  match oldname t with
  | Some nm =>
      emit (EvLookupOneLen nm (dold_p t) (strlen nm) dold) ;;
      if IS_ERR dold then out2 _ (to_int (PTR_ERR dold)) else ret tt
  | None => emit (EvDget dold)
  end ;;
  dold_inode <- look (fun w => d_inode K w dold) ;;
  if dold_inode =? 0 then out3 _ dold (- ENOENT) else
  if dold =? trap then out3 _ dold (- EINVAL) else
  dnew <- look (rename_target t) ;;
  emit (EvLookupOneLen (newname t) (dnew_p t) (strlen (newname t)) dnew) ;;
  if IS_ERR dnew then out3 _ dold (to_int (PTR_ERR dnew)) else
  if dnew =? trap then out4 _ dnew dold (- ENOTEMPTY) else
  old_dir <- look (fun w => d_inode K w (dold_p t)) ;;
  new_dir <- look (fun w => d_inode K w (dnew_p t)) ;;
  emit (EvVfsRename old_dir dold new_dir dnew) ;;
  err <- call (fun w => vfs_rename K w old_dir dold new_dir dnew) ;;
  out4 _ dnew dold err.

Definition smb_vfs_rename (server : Z) (abs_oldname : option string)
    (abs_newname : string) (oldfid : Z) : M Z Z :=
  t <- rename_resolve server abs_oldname abs_newname oldfid ;;
  rename_locked t.

(** ** smb_vfs_truncate *)

Definition smb_vfs_truncate (server : Z) (name : option string)
    (fid size : Z) : M Z Z :=
  match name with
  | Some nm =>
      '(err, pth) <- look (fun w => kern_path K w nm 0) ;;
      emit (EvKernPath nm 0 err pth) ;;
      if negb (err =? 0) then return_ err else
      emit (EvVfsTruncate pth size) ;;
      err <- call (fun w => vfs_truncate K w pth size) ;;
      emit (EvPathPut pth) ;;
      ret err
  | None =>
      emit (EvGetId server fid) ;;
      fp <- look (fun w => get_id_from_fidtable K w server fid) ;;
      if fp =? 0 then return_ (- ENOENT) else
      filp <- look (fun w => fp_filp K w fp) ;;
      oplocks <- look (oplocks_enable K) ;;
      (if negb (oplocks =? 0) then break_levelII server fp else
       inode <- look (fun w => file_inode w filp) ;;
       isize <- look (fun w => i_size K w inode) ;;
       err <- (if size <? isize
               then sub (smb_vfs_locks_mandatory_area filp size
                           (to_loff (isize - 1)) F_WRLCK)
               else sub (smb_vfs_locks_mandatory_area filp isize
                           (to_loff (size - 1)) F_WRLCK)) ;;
       if to_int err =? - EAGAIN then return_ (to_int err) else ret tt) ;;
      pth <- look (fun w => f_path K w filp) ;;
      emit (EvVfsTruncate pth size) ;;
      err <- call (fun w => vfs_truncate K w pth size) ;;
      ret err
  end.

(** ** smb_vfs_getxattr

    The caller's buffer is its content; what the kernel writes replaces
    a prefix of it. *)

Definition overlay (data buf : list Z) : list Z :=
  data ++ skipn (List.length data) buf.

Record getxattr_result := {
  gx_ret : Z;
  gx_buf : list Z
}.

Definition smb_vfs_getxattr (d : Z) (xattr_name : string)
    (xattr_buf : list Z) (buf_len : Z) : M getxattr_result getxattr_result :=
  let leave r := return_ {| gx_ret := r; gx_buf := xattr_buf |} in
  emit (EvVfsGetxattr d xattr_name 0) ;;
  '(xattr_len, _) <- look (fun w => vfs_getxattr K w d xattr_name 0) ;;
  if xattr_len <=? 0 then leave (to_int xattr_len) else
  if xattr_len >? buf_len then leave (- ENOMEM) else
  emit (EvVfsGetxattr d xattr_name xattr_len) ;;
  '(r, data) <- look (fun w => vfs_getxattr K w d xattr_name xattr_len) ;;
  ret {| gx_ret := to_int r; gx_buf := overlay data xattr_buf |}.

End Vfs.

Arguments run {K R} m s.

(** The state [s] after the calls [l] were added to its trace. *)
Definition logged {K} (s : kstate K) (l : list event) : kstate K :=
  {| world := world K s; f_flags := f_flags K s;
     addr_limit := addr_limit K s; trace := trace K s ++ l |}.

(** The calls made between [s] and a later state [s']. *)
Definition emitted {K} (s s' : kstate K) : list event :=
  skipn (List.length (trace K s)) (trace K s').

(** ** Reading a trace *)

(** Every event of [l] that satisfies [q] comes after one that
    satisfies [p]. *)
Fixpoint precedes (p q : event -> bool) (l : list event) : bool :=
  match l with
  | [] => true
  | e :: l' =>
      if p e then true
      else if q e then false
      else precedes p q l'
  end.

Definition never (q : event -> bool) (l : list event) : bool :=
  forallb (fun e => negb (q e)) l.

Definition is_lock_check (type : Z) (e : event) : bool :=
  match e with
  | EvLocksMandatoryArea _ _ _ t => t =? type
  | _ => false
  end.

Definition is_any_lock_check (e : event) : bool :=
  match e with
  | EvLocksMandatoryArea _ _ _ _ | EvPosixLockFile _ _ => true
  | _ => false
  end.

Definition is_lease_break (e : event) : bool :=
  match e with
  | EvBreakIIOplock _ _ => true
  | _ => false
  end.

Definition is_backend_write (e : event) : bool :=
  match e with
  | EvVfsWrite _ _ _ _ => true
  | _ => false
  end.

Definition is_backend_read (e : event) : bool :=
  match e with
  | EvVfsRead _ _ _ => true
  | _ => false
  end.

Definition is_alloc (e : event) : bool :=
  match e with
  | EvVmalloc _ => true
  | _ => false
  end.


Definition is_backend_rename (e : event) : bool :=
  match e with
  | EvVfsRename _ _ _ _ => true
  | _ => false
  end.

Definition is_lock_rename (e : event) : bool :=
  match e with
  | EvLockRename _ _ => true
  | _ => false
  end.

Definition is_unlock_rename (e : event) : bool :=
  match e with
  | EvUnlockRename _ _ => true
  | _ => false
  end.

Definition is_notify_change (e : event) : bool :=
  match e with
  | EvNotifyChange _ _ => true
  | _ => false
  end.

(** ** A reference kernel

    A small executable instance of [kernel], used to run the helpers on
    concrete requests.  Dentries and inodes share addresses (a dentry
    without an entry in [inodes] is negative); byte-range locks conflict
    when they overlap, belong to another owner and one of the two is a
    write lock; [lock_rename] returns the trap of the two directories as
    [d_ancestor] of the kernel computes it. *)

Module RefKernel.

Record rinode := {
  r_mode : Z;
  r_uid : Z;
  r_gid : Z;
  r_data : list Z;
  r_xattrs : list (string * list Z)
}.

Record rlock := {
  l_inode : Z;
  l_owner : Z;
  l_type : Z;
  l_start : Z;
  l_end : Z
}.

Record rworld := {
  fids : list (Z * Z);
  files : list (Z * Z);
  inodes : list (Z * rinode);
  parents : list (Z * Z);
  names : list (string * Z);
  children : list (Z * string * Z);
  locks : list rlock;
  deny_write : list Z;
  oplocks : Z;
  breaks : Z
}.

Fixpoint assoc {A} (k : Z) (l : list (Z * A)) : option A :=
  match l with
  | [] => None
  | (k', a) :: l' => if k =? k' then Some a else assoc k l'
  end.

Fixpoint assoc_str {A} (k : string) (l : list (string * A)) : option A :=
  match l with
  | [] => None
  | (k', a) :: l' => if String.eqb k k' then Some a else assoc_str k l'
  end.

Fixpoint child_of (dir : Z) (leaf : string) (l : list (Z * string * Z))
    : option Z :=
  match l with
  | [] => None
  | (d, n, c) :: l' =>
      if (d =? dir) && String.eqb n leaf then Some c else child_of dir leaf l'
  end.

Definition or0 (o : option Z) : Z :=
  match o with Some z => z | None => 0 end.

Definition inode_field (f : rinode -> Z) (w : rworld) (i : Z) : Z :=
  match assoc i (inodes w) with Some n => f n | None => 0 end.

Definition set_inode (w : rworld) (i : Z) (n : rinode) : rworld :=
  {| fids := fids w; files := files w;
     inodes := (i, n) :: inodes w;
     parents := parents w; names := names w; children := children w;
     locks := locks w; deny_write := deny_write w; oplocks := oplocks w;
     breaks := breaks w |}.

Definition conflicts (fl : file_lock) (i : Z) (l : rlock) : bool :=
  (l_inode l =? i) && negb (l_owner l =? fl_owner fl)
  && (l_start l <=? fl_end fl) && (fl_start fl <=? l_end l)
  && ((fl_type fl =? F_WRLCK) || (l_type l =? F_WRLCK)).

Definition parent_of (w : rworld) (d : Z) : Z :=
  match assoc d (parents w) with Some p => p | None => d end.

(** [d_ancestor p1 p2]: the child of [p1] that is [p2] or above it. *)
Fixpoint d_ancestor (fuel : nat) (w : rworld) (p1 p : Z) : Z :=
  match fuel with
  | O => 0
  | S fuel' =>
      if parent_of w p =? p then 0
      else if parent_of w p =? p1 then p
      else d_ancestor fuel' w p1 (parent_of w p)
  end.

Definition ref_lock_rename (w : rworld) (p1 p2 : Z) : Z :=
  if p1 =? p2 then 0 else
  let fuel := S (List.length (parents w)) in
  let p := d_ancestor fuel w p2 p1 in
  if negb (p =? 0) then p else d_ancestor fuel w p1 p2.

Definition dirname (s : string) : string :=
  match strrchr s "/"%char with
  | Some suffix => substring 0 (String.length s - String.length suffix) s
  | None => EmptyString
  end.

Definition ref_kern_path (w : rworld) (name : string) (flags : Z)
    : Z * path :=
  let target :=
    if Z.land flags LOOKUP_PARENT =? 0 then name else dirname name in
  match assoc_str target (names w) with
  | Some d => (0, {| mnt := 1; dentry := d |})
  | None => (- ENOENT, {| mnt := 0; dentry := 0 |})
  end.

Definition negative_dentry : Z := 4096.

Definition ref_lookup_one_len (w : rworld) (name : string) (base len : Z)
    : Z :=
  if len >? 255 then - ENAMETOOLONG else
  match child_of base name (children w) with
  | Some c => c
  | None => negative_dentry
  end.

Definition file_dentry (w : rworld) (filp : Z) : Z := or0 (assoc filp (files w)).

Definition pad (n : nat) (l : list Z) : list Z :=
  firstn n l ++ repeat 0 (n - List.length l).

Definition ref_vfs_read (w : rworld) (filp count pos : Z)
    : Z * list Z * Z * rworld :=
  match assoc (file_dentry w filp) (inodes w) with
  | None => (- EINVAL, [], pos, w)
  | Some n =>
      let data := firstn (Z.to_nat count) (skipn (Z.to_nat pos) (r_data n)) in
      let len := Z.of_nat (List.length data) in
      (len, data, pos + len, w)
  end.

Definition ref_vfs_write (w : rworld) (filp : Z) (buf : list Z)
    (count pos : Z) : Z * Z * rworld :=
  let i := file_dentry w filp in
  match assoc i (inodes w) with
  | None => (- EINVAL, pos, w)
  | Some n =>
      let data := pad (Z.to_nat pos) (r_data n)
                  ++ firstn (Z.to_nat count) buf
                  ++ skipn (Z.to_nat (pos + count)) (r_data n) in
      (count, pos + count,
       set_inode w i {| r_mode := r_mode n; r_uid := r_uid n;
                        r_gid := r_gid n; r_data := data;
                        r_xattrs := r_xattrs n |})
  end.

Definition ref_vfs_truncate (w : rworld) (p : path) (size : Z) : Z * rworld :=
  let i := dentry p in
  match assoc i (inodes w) with
  | None => (- ENOENT, w)
  | Some n =>
      if S_ISDIR (r_mode n) then (- EISDIR, w) else
      (0, set_inode w i {| r_mode := r_mode n; r_uid := r_uid n;
                           r_gid := r_gid n;
                           r_data := pad (Z.to_nat size) (r_data n);
                           r_xattrs := r_xattrs n |})
  end.

Definition ref_notify_change (w : rworld) (d : Z) (a : iattr) : Z * rworld :=
  match assoc d (inodes w) with
  | None => (- ENOENT, w)
  | Some n =>
      let has bit := negb (Z.land (ia_valid a) bit =? 0) in
      (0, set_inode w d
            {| r_mode := if has ATTR_MODE then ia_mode a else r_mode n;
               r_uid := if has ATTR_UID then ia_uid a else r_uid n;
               r_gid := if has ATTR_GID then ia_gid a else r_gid n;
               r_data := if has ATTR_SIZE
                         then pad (Z.to_nat (ia_size a)) (r_data n)
                         else r_data n;
               r_xattrs := r_xattrs n |})
  end.

Definition ref_vfs_rename (w : rworld) (old_dir dold new_dir dnew : Z)
    : Z * rworld :=
  match List.find (fun '(d, _, c) => (d =? new_dir) && (c =? dnew))
                  (children w) with
  | Some _ => (- EEXIST, w)
  | None =>
      (0, {| fids := fids w; files := files w; inodes := inodes w;
             parents := (dold, new_dir) :: parents w; names := names w;
             children :=
               List.map (fun '(d, n, c) =>
                           if (d =? old_dir) && (c =? dold)
                           then (new_dir, n, c) else (d, n, c))
                        (children w);
             locks := locks w; deny_write := deny_write w;
             oplocks := oplocks w; breaks := breaks w |})
  end.

Definition ref_vfs_getxattr (w : rworld) (d : Z) (name : string) (size : Z)
    : Z * list Z :=
  match assoc d (inodes w) with
  | None => (- ENOENT, [])
  | Some n =>
      match assoc_str name (r_xattrs n) with
      | None => (- 61, [])
      | Some v =>
          let len := Z.of_nat (List.length v) in
          if size =? 0 then (len, [])
          else if size <? len then (- ERANGE, [])
          else (len, v)
      end
  end.

Definition refk : kernel := {|
  W := rworld;
  get_id_from_fidtable := fun w _ fid => or0 (assoc fid (fids w));
  fp_filp := fun _ fp => fp;
  f_path := fun w filp => {| mnt := 1; dentry := file_dentry w filp |};
  d_inode := fun w d => match assoc d (inodes w) with
                        | Some _ => d
                        | None => 0
                        end;
  d_parent := parent_of;
  i_mode := inode_field r_mode;
  i_uid := inode_field r_uid;
  i_gid := inode_field r_gid;
  i_size := inode_field (fun n => Z.of_nat (List.length (r_data n)));
  flc_posix_empty := fun w i =>
    negb (existsb (fun l => l_inode l =? i) (locks w));
  current_tgid := fun _ => 1;
  posix_lock_file := fun w filp fl =>
    if existsb (conflicts fl (file_dentry w filp)) (locks w)
    then - EAGAIN else 0;
  oplocks_enable := oplocks;
  smb_breakII_oplock := fun w _ _ =>
    {| fids := fids w; files := files w; inodes := inodes w;
       parents := parents w; names := names w; children := children w;
       locks := locks w; deny_write := deny_write w; oplocks := oplocks w;
       breaks := breaks w + 1 |};
  vmalloc := fun _ n => if n <=? 1048576 then 8192 else 0;
  vfs_read := ref_vfs_read;
  vfs_write := ref_vfs_write;
  vfs_fsync_range := fun w _ _ _ _ => (0, w);
  kern_path := ref_kern_path;
  lock_rename := ref_lock_rename;
  lookup_one_len := ref_lookup_one_len;
  vfs_rename := ref_vfs_rename;
  vfs_truncate := ref_vfs_truncate;
  get_write_access := fun w i =>
    if existsb (Z.eqb i) (deny_write w) then - 26 else 0;
  locks_verify_truncate := fun w i _ =>
    if existsb (fun l => l_inode l =? i) (locks w) then - EAGAIN else 0;
  notify_change := ref_notify_change;
  sync_inode_metadata := fun w _ _ => w;
  vfs_getxattr := ref_vfs_getxattr
|}.

(** A share with a directory [/share/a], its subdirectory [/share/a/b],
    a setuid, setgid, group-executable file [/share/a.txt] open as fid 7
    (and, by another client, as fid 8), and [/share] itself open as
    fid 3.  The client behind fid 8 holds a read lock on bytes 0..99 of
    the file. *)

Definition share : Z := 10.
Definition dir_a : Z := 11.
Definition dir_b : Z := 12.
Definition a_txt : Z := 13.
Definition file_x : Z := 14.

Definition regular (data : list Z) : rinode :=
  {| r_mode := 0x8000 + 0xDF8; r_uid := 1000; r_gid := 1000; r_data := data;
     r_xattrs := [("user.tag"%string, [1; 2; 3; 4; 5; 6; 7; 8])] |}.

Definition directory : rinode :=
  {| r_mode := S_IFDIR + 0x1ED; r_uid := 1000; r_gid := 1000; r_data := [];
     r_xattrs := [] |}.

Definition w0 : rworld := {|
  fids := [(7, 107); (8, 108); (3, 103)];
  files := [(107, a_txt); (108, a_txt); (103, share)];
  inodes := [(share, directory); (dir_a, directory); (dir_b, directory);
             (a_txt, regular (repeat 65 200)); (file_x, regular [1; 2; 3])];
  parents := [(dir_a, share); (dir_b, dir_a); (a_txt, share);
              (file_x, dir_b)];
  names := [("/share"%string, share); ("/share/a"%string, dir_a);
            ("/share/a/b"%string, dir_b); ("/share/a.txt"%string, a_txt);
            ("/share/a/b/x"%string, file_x)];
  children := [(share, "a"%string, dir_a); (dir_a, "b"%string, dir_b);
               (share, "a.txt"%string, a_txt); (dir_b, "x"%string, file_x)];
  locks := [{| l_inode := a_txt; l_owner := 108; l_type := F_RDLCK;
               l_start := 0; l_end := 99 |}];
  deny_write := [];
  oplocks := 1;
  breaks := 0
|}.


(** The same world with the lock of fid 8 turned into a write lock. *)
Definition set_locks_to_write (w : rworld) : rworld :=
  {| fids := fids w; files := files w; inodes := inodes w;
     parents := parents w; names := names w; children := children w;
     locks := List.map (fun l => {| l_inode := l_inode l;
                                    l_owner := l_owner l;
                                    l_type := F_WRLCK;
                                    l_start := l_start l;
                                    l_end := l_end l |}) (locks w);
     deny_write := deny_write w; oplocks := oplocks w;
     breaks := breaks w |}.

Definition boot (w : rworld) : kstate refk :=
  {| world := (w : W refk); f_flags := fun _ => 0; addr_limit := 0;
     trace := [] |}.

Definition s0 : kstate refk := boot w0.

End RefKernel.

(** ** Vocabulary of the statements *)

(** The ownership test of [smb_check_attrs]. *)
Definition changes_ownership K (w : W K) (inode : Z) (attrs : iattr) : bool :=
  (negb (Z.land (ia_valid attrs) ATTR_UID =? 0) &&
   negb (uid_eq (ia_uid attrs) (i_uid K w inode))) ||
  (negb (Z.land (ia_valid attrs) ATTR_GID =? 0) &&
   negb (gid_eq (ia_gid attrs) (i_gid K w inode))).

(** The mode a request asks for, once masked to the permission bits and
    completed with the file type of the inode. *)
Definition sanitized_mode K (w : W K) (inode : Z) (attrs : iattr) : Z :=
  Z.lor (Z.land (ia_mode attrs) S_IALLUGO)
        (Z.land (i_mode K w inode) (Z.lnot S_IALLUGO)).

(** The dentry a setattr request is about: the one the name resolves
    to, or the one of the open file. *)
Definition setattr_target K (w : W K) (server : Z) (name : option string)
    (fid : Z) : option Z :=
  match name with
  | Some nm =>
      let '(err, pth) := kern_path K w nm 0 in
      if err =? 0 then Some (dentry pth) else None
  | None =>
      let fp := get_id_from_fidtable K w server fid in
      if fp =? 0 then None
      else Some (dentry (f_path K w (fp_filp K w fp)))
  end.

(** The error of the size validation of [smb_vfs_setattr]: write access
    first, the mandatory-lock check of the truncation second. *)
Definition size_validation K (w : W K) (inode size : Z) : Z :=
  let err := get_write_access K w inode in
  if negb (err =? 0) then err else locks_verify_truncate K w inode size.

(** What a helper holds while it runs: references on paths and
    dentries, and the pair of directory locks of [lock_rename]. *)
Inductive resource :=
| RPath (p : path)
| RRenameLocks (p1 p2 : Z)
| RDentry (d : Z).

Definition path_eqb (p q : path) : bool :=
  (mnt p =? mnt q) && (dentry p =? dentry q).

Definition resource_eqb (a b : resource) : bool :=
  match a, b with
  | RPath p, RPath q => path_eqb p q
  | RRenameLocks p1 p2, RRenameLocks q1 q2 => (p1 =? q1) && (p2 =? q2)
  | RDentry d, RDentry e => d =? e
  | _, _ => false
  end.

Definition acquired (e : event) : option resource :=
  match e with
  | EvKernPath _ _ err p => if err =? 0 then Some (RPath p) else None
  | EvLockRename p1 p2 => Some (RRenameLocks p1 p2)
  | EvLookupOneLen _ _ _ d => if IS_ERR d then None else Some (RDentry d)
  | EvDget d => Some (RDentry d)
  | _ => None
  end.

Definition released (e : event) : option resource :=
  match e with
  | EvPathPut p => Some (RPath p)
  | EvUnlockRename p1 p2 => Some (RRenameLocks p1 p2)
  | EvDput d => Some (RDentry d)
  | _ => None
  end.

(** Run a trace against the stack of what is held: an acquisition
    pushes, a release must name the top of the stack and pops it.  The
    result is what is still held at the end, or [None] when a release
    came out of order or released something not held. *)
Fixpoint held (stack : list resource) (l : list event)
    : option (list resource) :=
  match l with
  | [] => Some stack
  | e :: l' =>
      match acquired e, released e with
      | Some r, _ => held (r :: stack) l'
      | None, Some r =>
          match stack with
          | top :: rest => if resource_eqb top r then held rest l' else None
          | [] => None
          end
      | None, None => held stack l'
      end
  end.

(** A lock on one directory alone. *)
Definition is_single_directory_lock (e : event) : bool :=
  match e with
  | EvMutexLock (i_mutex _) => true
  | _ => false
  end.

(** The source side of a rename yields a parent directory: the name
    has a leaf and its parent resolves, or the fid is known. *)
Definition rename_source_resolves K (w : W K) (server : Z)
    (abs_oldname : option string) (oldfid : Z) : bool :=
  match abs_oldname with
  | Some p =>
      match last_component p with
      | Some _ => fst (kern_path K w p LOOKUP_PARENT) =? 0
      | None => false
      end
  | None => negb (get_id_from_fidtable K w server oldfid =? 0)
  end.

(** The destination side of a rename yields a parent directory: the
    name has a leaf and its parent resolves. *)
Definition rename_target_resolves K (w : W K) (abs_newname : string) : bool :=
  match last_component abs_newname with
  | Some _ => fst (kern_path K w abs_newname LOOKUP_PARENT) =? 0
  | None => false
  end.

(** The two parent directories of a rename: the directory the source
    name resolves in (the parent of the open file's dentry when the
    source is a fid), and the directory the destination name resolves
    in. *)
Definition rename_source_parent K (w : W K) (server : Z)
    (abs_oldname : option string) (oldfid : Z) : Z :=
  match abs_oldname with
  | Some p => dentry (snd (kern_path K w p LOOKUP_PARENT))
  | None =>
      let fp := get_id_from_fidtable K w server oldfid in
      d_parent K w (dentry (f_path K w (fp_filp K w fp)))
  end.

Definition rename_target_parent K (w : W K) (abs_newname : string) : Z :=
  dentry (snd (kern_path K w abs_newname LOOKUP_PARENT)).

(** The error taxonomy of the specification, read on the errno values
    the helpers return. *)
Inductive error_kind :=
| NotFound | PermissionDenied | Exists | NotEmpty | CrossDevice
| InvalidName | InvalidOperation | LockConflict | NoSpace | RangeTooLarge
| IoFailure | NoMemory | IsDirectory | OtherError.

Definition error_kind_of (ret : Z) : error_kind :=
  match - ret with
  | 1 | 13 => PermissionDenied
  | 2 => NotFound
  | 5 => IoFailure
  | 7 | 34 => RangeTooLarge
  | 11 => LockConflict
  | 12 => NoMemory
  | 17 => Exists
  | 18 => CrossDevice
  | 21 => IsDirectory
  | 22 => InvalidOperation
  | 28 => NoSpace
  | 36 => InvalidName
  | 39 => NotEmpty
  | _ => OtherError
  end.



(** ** Further readings of a trace *)

Definition is_vfree (e : event) : bool :=
  match e with
  | EvVfree _ => true
  | _ => false
  end.

Definition is_fsync (e : event) : bool :=
  match e with
  | EvVfsFsyncRange _ _ _ _ => true
  | _ => false
  end.

Definition is_get_write_access (e : event) : bool :=
  match e with
  | EvGetWriteAccess _ => true
  | _ => false
  end.


Definition is_getxattr_beyond (cap : Z) (e : event) : bool :=
  match e with
  | EvVfsGetxattr _ _ size => (size <? 0) || (cap <? size)
  | _ => false
  end.

Fixpoint has_char (c : ascii) (s : string) : bool :=
  match s with
  | EmptyString => false
  | String a s' => Ascii.eqb a c || has_char c s'
  end.

Definition is_lookup (e : event) : bool :=
  match e with
  | EvLookupOneLen _ _ _ _ => true
  | _ => false
  end.

Definition is_none {A} (o : option A) : bool :=
  match o with
  | None => true
  | Some _ => false
  end.

(** The lease-table lock along a trace: [ofile_list_lock] is taken only
    when free and dropped only when held, [smb_breakII_oplock] runs
    only while it is held, the backend I/O calls run only while it is
    free, and it is free at the end. *)
Fixpoint lease_lock_ok (locked : bool) (l : list event) : bool :=
  match l with
  | [] => negb locked
  | e :: l' =>
      match e with
      | EvMutexLock ofile_list_lock => negb locked && lease_lock_ok true l'
      | EvMutexUnlock ofile_list_lock => locked && lease_lock_ok false l'
      | EvBreakIIOplock _ _ => locked && lease_lock_ok locked l'
      | EvVfsRead _ _ _ | EvVfsWrite _ _ _ _ | EvVfsFsyncRange _ _ _ _
      | EvVfsTruncate _ _ => negb locked && lease_lock_ok locked l'
      | _ => lease_lock_ok locked l'
      end
  end.

(** The rename locks along a trace: [lock_rename] and [unlock_rename]
    alternate, [lookup_one_len] and [vfs_rename] run only between the
    two, and the locks are free at the end. *)
Fixpoint rename_lock_ok (locked : bool) (l : list event) : bool :=
  match l with
  | [] => negb locked
  | e :: l' =>
      match e with
      | EvLockRename _ _ => negb locked && rename_lock_ok true l'
      | EvUnlockRename _ _ => locked && rename_lock_ok false l'
      | EvLookupOneLen _ _ _ _ | EvVfsRename _ _ _ _ =>
          locked && rename_lock_ok locked l'
      | _ => rename_lock_ok locked l'
      end
  end.

(** [notify_change] along a trace: every call sits between the lock and
    the unlock of the [i_mutex] of [inode], and its attributes satisfy
    [ok]. *)
Fixpoint notify_change_ok (inode : Z) (ok : iattr -> bool) (l : list event)
    : bool :=
  match l with
  | [] => true
  | EvMutexLock (i_mutex i) :: EvNotifyChange _ a
      :: EvMutexUnlock (i_mutex j) :: l' =>
      (i =? inode) && (j =? inode) && ok a && notify_change_ok inode ok l'
  | EvNotifyChange _ _ :: _ => false
  | _ :: l' => notify_change_ok inode ok l'
  end.

(** ** The other helpers of vfs.c

    The helpers below call kernel primitives the first part does not
    need.  They get an interface of their own, [kernel_ext], which adds
    those primitives to a [kernel], and a trace type of their own,
    [xevent], which adds the new calls to the ones of [event].  The
    four [FILE_*_LE] option bits come from the protocol headers of the
    server, which are not in the source tree: they are fields of the
    interface. *)

Definition S_IFREG : Z := 0x8000.
Definition LOOKUP_FOLLOW : Z := 1.
Definition LOOKUP_DIRECTORY : Z := 2.
Definition LOOKUP_REVAL : Z := 32.
Definition I_MUTEX_PARENT : Z := 1.
Definition XATTR_LIST_MAX : Z := 65536.
Definition O_SYNC : Z := 0x101000.
Definition FMODE_RANDOM : Z := 0x1000.

(** [size_t] and [unsigned int] of a 64-bit kernel. *)
Definition to_size_t (x : Z) : Z := x mod 2 ^ 64.
Definition to_uint (x : Z) : Z := x mod 2 ^ 32.

Inductive xevent :=
| XBase (e : event)
| EvKernPathCreate (name : string) (flags d : Z) (p : path)
| EvDonePathCreate (p : path) (d : Z)
| EvVfsCreate (dir d mode : Z) (want_excl : bool)
| EvVfsMkdir (dir d mode : Z)
| EvVfsGetattr (p : path)
| EvVfsFsync (filp datasync : Z)
| EvMutexLockNested (m : mutex) (subclass : Z)
| EvVfsRmdir (dir d : Z)
| EvVfsUnlink (dir d : Z)
| EvVfsLink (old_dentry dir new_dentry : Z)
| EvVfsSymlink (dir d : Z) (oldname : string)
| EvReadlink (d len : Z)
| EvVfsListxattr (d vlist size : Z)
| EvVfsSetxattr (d : Z) (name : string) (value : list Z) (size flags : Z)
| EvSpinLock (filp : Z)
| EvSpinUnlock (filp : Z).

Record kernel_ext := {
  kbase :> kernel;
  FILE_WRITE_THROUGH_LE : Z;
  FILE_NO_INTERMEDIATE_BUFFERING_LE : Z;
  FILE_SEQUENTIAL_ONLY_LE : Z;
  FILE_RANDOM_ACCESS_LE : Z;
  kstat : Type;
  (* name space: the new dentry (or an ERR_PTR) and its parent path *)
  kern_path_create : W kbase -> string -> Z -> Z * path;
  vfs_create : W kbase -> Z -> Z -> Z -> bool -> Z * W kbase;
  vfs_mkdir : W kbase -> Z -> Z -> Z -> Z * W kbase;
  vfs_rmdir : W kbase -> Z -> Z -> Z * W kbase;
  vfs_unlink : W kbase -> Z -> Z -> Z * W kbase;
  vfs_link : W kbase -> Z -> Z -> Z -> Z * W kbase;
  vfs_symlink : W kbase -> Z -> Z -> string -> Z * W kbase;
  i_nlink : W kbase -> Z -> Z;
  (* [inode->i_op->readlink]: result and what it wrote *)
  readlink : W kbase -> Z -> Z -> Z * list Z;
  (* attributes *)
  vfs_getattr : W kbase -> path -> Z * kstat;
  vfs_fsync : W kbase -> Z -> Z -> Z * W kbase;
  vfs_listxattr : W kbase -> Z -> Z -> Z * list Z;
  vfs_setxattr : W kbase -> Z -> string -> list Z -> Z -> Z -> Z * W kbase;
  (* read-ahead *)
  f_mapping : W kbase -> Z -> Z;
  bdi_ra_pages : W kbase -> Z -> Z
}.

Section VfsExt.

Context (K : kernel_ext).

(** The state of these helpers: the world, the [f_flags], [f_mode] and
    [f_ra.ra_pages] of every open file, the address limit and the
    trace. *)
Record xstate := {
  xworld : W K;
  xf_flags : Z -> Z;
  xf_mode : Z -> Z;
  xra_pages : Z -> Z;
  xaddr_limit : Z;
  xtrace : list xevent
}.

Definition MX (R A : Type) : Type := xstate -> step R A * xstate.

Definition xret {R A} (a : A) : MX R A := fun s => (Next a, s).

Definition xbind {R A B} (m : MX R A) (f : A -> MX R B) : MX R B :=
  fun s =>
    match m s with
    | (Next a, s') => f a s'
    | (Return r, s') => (Return r, s')
    end.

Definition xreturn {R A} (r : R) : MX R A := fun s => (Return r, s).

Definition xrun {R} (m : MX R R) (s : xstate) : R * xstate :=
  match m s with
  | (Next r, s') => (r, s')
  | (Return r, s') => (r, s')
  end.

Notation "x <- m ;; k" := (xbind m (fun x => k))
  (at level 61, m at next level, right associativity).
Notation "m ;; k" := (xbind m (fun _ => k))
  (at level 61, right associativity).
Notation "' pat <- m ;; k" := (xbind m (fun x => match x with pat => k end))
  (at level 61, pat pattern, m at next level, right associativity).

Definition set_xtrace (s : xstate) (t : list xevent) : xstate :=
  {| xworld := xworld s; xf_flags := xf_flags s; xf_mode := xf_mode s;
     xra_pages := xra_pages s; xaddr_limit := xaddr_limit s; xtrace := t |}.

Definition xemit {R} (e : xevent) : MX R unit :=
  fun s => (Next tt, set_xtrace s (xtrace s ++ [e])).

Definition xlook {R A} (f : W K -> A) : MX R A :=
  fun s => (Next (f (xworld s)), s).

Definition xcall {R A} (f : W K -> A * W K) : MX R A :=
  fun s =>
    let (a, w) := f (xworld s) in
    (Next a,
     {| xworld := w; xf_flags := xf_flags s; xf_mode := xf_mode s;
        xra_pages := xra_pages s; xaddr_limit := xaddr_limit s;
        xtrace := xtrace s |}).

Definition xget_fs {R} : MX R Z := fun s => (Next (xaddr_limit s), s).

Definition xset_fs {R} (seg : Z) : MX R unit :=
  fun s => (Next tt,
            {| xworld := xworld s; xf_flags := xf_flags s;
               xf_mode := xf_mode s; xra_pages := xra_pages s;
               xaddr_limit := seg;
               xtrace := xtrace s ++ [XBase (EvSetFs seg)] |}).

(** Write one field of one open file. *)
Definition upd (f : Z -> Z) (filp v : Z) : Z -> Z :=
  fun g => if g =? filp then v else f g.

Definition set_f_flags {R} (filp v : Z) : MX R unit :=
  fun s => (Next tt,
            {| xworld := xworld s; xf_flags := upd (xf_flags s) filp v;
               xf_mode := xf_mode s; xra_pages := xra_pages s;
               xaddr_limit := xaddr_limit s; xtrace := xtrace s |}).

Definition set_f_mode {R} (filp v : Z) : MX R unit :=
  fun s => (Next tt,
            {| xworld := xworld s; xf_flags := xf_flags s;
               xf_mode := upd (xf_mode s) filp v; xra_pages := xra_pages s;
               xaddr_limit := xaddr_limit s; xtrace := xtrace s |}).

Definition set_ra_pages {R} (filp v : Z) : MX R unit :=
  fun s => (Next tt,
            {| xworld := xworld s; xf_flags := xf_flags s;
               xf_mode := xf_mode s; xra_pages := upd (xra_pages s) filp v;
               xaddr_limit := xaddr_limit s; xtrace := xtrace s |}).

(** Run a helper of the first part inside this state: it sees the same
    world, flags and address limit, and the calls it makes are added to
    the trace. *)
Definition lift {R A} (m : M K R A) : MX R A :=
  fun s =>
    let (r, k) := m {| world := xworld s; f_flags := xf_flags s;
                        addr_limit := xaddr_limit s; trace := [] |} in
    (r,
     {| xworld := world K k; xf_flags := f_flags K k;
        xf_mode := xf_mode s; xra_pages := xra_pages s;
        xaddr_limit := addr_limit K k;
        xtrace := xtrace s ++ List.map XBase (trace K k) |}).

(** *** smb_vfs_create, smb_vfs_mkdir *)

Definition smb_vfs_create (name : string) (mode : Z) : MX Z Z :=
  '(d, pth) <- xlook (fun w => kern_path_create K w name 0) ;;
  xemit (EvKernPathCreate name 0 d pth) ;;
  if IS_ERR d then xreturn (to_int (PTR_ERR d)) else
  let mode := Z.lor (Z.land mode (Z.lnot S_IFMT)) S_IFREG in
  dir <- xlook (fun w => d_inode K w (dentry pth)) ;;
  xemit (EvVfsCreate dir d mode true) ;;
  err <- xcall (fun w => vfs_create K w dir d mode true) ;;
  xemit (EvDonePathCreate pth d) ;;
  xret err.

Definition smb_vfs_mkdir (name : string) (mode : Z) : MX Z Z :=
  '(d, pth) <- xlook (fun w => kern_path_create K w name LOOKUP_DIRECTORY) ;;
  xemit (EvKernPathCreate name LOOKUP_DIRECTORY d pth) ;;
  if IS_ERR d then xreturn (to_int (PTR_ERR d)) else
  let mode := Z.lor (Z.land mode (Z.lnot S_IFMT)) S_IFDIR in
  dir <- xlook (fun w => d_inode K w (dentry pth)) ;;
  xemit (EvVfsMkdir dir d mode) ;;
  err <- xcall (fun w => vfs_mkdir K w dir d mode) ;;
  xemit (EvDonePathCreate pth d) ;;
  xret err.

(** *** smb_vfs_getattr, smb_vfs_fsync *)

Definition smb_vfs_getattr (server fid : Z) : MX (Z * option (kstat K))
                                                 (Z * option (kstat K)) :=
  xemit (XBase (EvGetId server fid)) ;;
  fp <- xlook (fun w => get_id_from_fidtable K w server fid) ;;
  if fp =? 0 then xreturn (- ENOENT, None) else
  filp <- xlook (fun w => fp_filp K w fp) ;;
  pth <- xlook (fun w => f_path K w filp) ;;
  xemit (EvVfsGetattr pth) ;;
  '(err, stat) <- xlook (fun w => vfs_getattr K w pth) ;;
  xret (err, Some stat).

Definition smb_vfs_fsync (server fid : Z) : MX Z Z :=
  xemit (XBase (EvGetId server fid)) ;;
  fp <- xlook (fun w => get_id_from_fidtable K w server fid) ;;
  if fp =? 0 then xreturn (- ENOENT) else
  filp <- xlook (fun w => fp_filp K w fp) ;;
  xemit (EvVfsFsync filp 0) ;;
  err <- xcall (fun w => vfs_fsync K w filp 0) ;;
  xret err.

(** *** smb_vfs_rmdir, smb_vfs_unlink *)

Definition smb_vfs_rmdir (name : string) : MX Z Z :=
  '(err, pth) <- xlook (fun w => kern_path K w name LOOKUP_DIRECTORY) ;;
  xemit (XBase (EvKernPath name LOOKUP_DIRECTORY err pth)) ;;
  if negb (err =? 0) then xreturn err else
  dir <- xlook (fun w => d_inode K w (d_parent K w (dentry pth))) ;;
  xemit (EvMutexLockNested (i_mutex dir) I_MUTEX_PARENT) ;;
  xemit (EvVfsRmdir dir (dentry pth)) ;;
  err <- xcall (fun w => vfs_rmdir K w dir (dentry pth)) ;;
  dir' <- xlook (fun w => d_inode K w (d_parent K w (dentry pth))) ;;
  xemit (XBase (EvMutexUnlock (i_mutex dir'))) ;;
  xemit (XBase (EvPathPut pth)) ;;
  xret err.

Definition smb_vfs_unlink (name : string) : MX Z Z :=
  '(err, pth) <- xlook (fun w => kern_path K w name 0) ;;
  xemit (XBase (EvKernPath name 0 err pth)) ;;
  if negb (err =? 0) then xreturn err else
  xemit (XBase (EvDget (dentry pth))) ;;
  dir <- xlook (fun w => d_inode K w (d_parent K w (dentry pth))) ;;
  xemit (EvMutexLockNested (i_mutex dir) I_MUTEX_PARENT) ;;
  nlink <- xlook (fun w => i_nlink K w (d_inode K w (dentry pth))) ;;
  err <- (if nlink =? 0 then xret err else
          xemit (EvVfsUnlink dir (dentry pth)) ;;
          xcall (fun w => vfs_unlink K w dir (dentry pth))) ;;
  dir' <- xlook (fun w => d_inode K w (d_parent K w (dentry pth))) ;;
  xemit (XBase (EvMutexUnlock (i_mutex dir'))) ;;
  xemit (XBase (EvDput (dentry pth))) ;;
  xemit (XBase (EvPathPut pth)) ;;
  xret err.

(** *** smb_vfs_link, smb_vfs_symlink, smb_vfs_readlink *)

Definition smb_vfs_link (oldname newname : string) : MX Z Z :=
  '(err, oldpath) <- xlook (fun w => kern_path K w oldname LOOKUP_FOLLOW) ;;
  xemit (XBase (EvKernPath oldname LOOKUP_FOLLOW err oldpath)) ;;
  if negb (err =? 0) then xreturn err else
  let out2 (A : Type) (err : Z) : MX Z A :=
    xemit (XBase (EvPathPut oldpath)) ;; xreturn err in
  let flags := Z.land LOOKUP_FOLLOW LOOKUP_REVAL in
  '(d, newpath) <- xlook (fun w => kern_path_create K w newname flags) ;;
  xemit (EvKernPathCreate newname flags d newpath) ;;
  if IS_ERR d then out2 _ (to_int (PTR_ERR d)) else
  let out3 (A : Type) (err : Z) : MX Z A :=
    xemit (EvDonePathCreate newpath d) ;; out2 A err in
  if negb (mnt oldpath =? mnt newpath) then out3 _ (- EXDEV) else
  dir <- xlook (fun w => d_inode K w (dentry newpath)) ;;
  xemit (EvVfsLink (dentry oldpath) dir d) ;;
  err <- xcall (fun w => vfs_link K w (dentry oldpath) dir d) ;;
  out3 _ err.

Definition smb_vfs_symlink (name symname : string) : MX Z Z :=
  '(d, pth) <- xlook (fun w => kern_path_create K w symname 0) ;;
  xemit (EvKernPathCreate symname 0 d pth) ;;
  if IS_ERR d then xreturn (to_int (PTR_ERR d)) else
  dir <- xlook (fun w => d_inode K w (d_parent K w d)) ;;
  xemit (EvVfsSymlink dir d name) ;;
  err <- xcall (fun w => vfs_symlink K w dir d name) ;;
  xemit (EvDonePathCreate pth d) ;;
  xret err.

(** The caller's buffer comes back with what [readlink] wrote at its
    start. *)
Definition smb_vfs_readlink (pth : option path) (buf : list Z) (lenp : Z)
    : MX (Z * list Z) (Z * list Z) :=
  match pth with
  | None => xreturn (- ENOENT, buf)
  | Some pth =>
      inode <- xlook (fun w => d_inode K w (dentry pth)) ;;
      mode <- xlook (fun w => i_mode K w inode) ;;
      if negb (S_ISLNK mode) then xreturn (- EINVAL, buf) else
      old_fs <- xget_fs ;;
      xset_fs KERNEL_DS ;;
      xemit (EvReadlink (dentry pth) lenp) ;;
      '(err, data) <- xlook (fun w => readlink K w (dentry pth) lenp) ;;
      xset_fs old_fs ;;
      xret (to_int err, overlay data buf)
  end.

(** *** smb_vfs_listxattr, smb_vfs_setxattr *)

Record listxattr_result := {
  lx_ret : Z;
  lx_list : option (Z * list Z)
}.

Definition smb_vfs_listxattr (d size : Z)
    : MX listxattr_result listxattr_result :=
  '(vlist, size) <-
    (if size =? 0 then xret (0, size) else
     let size := if size >? XATTR_LIST_MAX then XATTR_LIST_MAX else size in
     xemit (XBase (EvVmalloc (to_size_t size))) ;;
     vlist <- xlook (fun w => vmalloc K w (to_size_t size)) ;;
     if vlist =? 0
     then xreturn {| lx_ret := - ENOMEM; lx_list := None |}
     else xret (vlist, size)) ;;
  xemit (EvVfsListxattr d vlist (to_size_t size)) ;;
  '(err, data) <- xlook (fun w => vfs_listxattr K w d (to_size_t size)) ;;
  let err := to_int err in
  if err >? 0 then xret {| lx_ret := err; lx_list := Some (vlist, data) |}
  else if err =? - ERANGE then xret {| lx_ret := - E2BIG; lx_list := None |}
  else xret {| lx_ret := err; lx_list := None |}.

Definition smb_vfs_setxattr (filename : option string) (fpath : path)
    (name : string) (value : list Z) (size flags : Z) : MX Z Z :=
  match filename with
  | Some fname =>
      '(err, pth) <- xlook (fun w => kern_path K w fname 0) ;;
      xemit (XBase (EvKernPath fname 0 err pth)) ;;
      if negb (err =? 0) then xreturn err else
      xemit (EvVfsSetxattr (dentry pth) name value size flags) ;;
      err <- xcall (fun w => vfs_setxattr K w (dentry pth) name value
                               size flags) ;;
      xemit (XBase (EvPathPut pth)) ;;
      xret err
  | None =>
      xemit (EvVfsSetxattr (dentry fpath) name value size flags) ;;
      err <- xcall (fun w => vfs_setxattr K w (dentry fpath) name value
                               size flags) ;;
      xret err
  end.

(** *** smb_vfs_set_fadvise *)

Definition smb_vfs_set_fadvise (filp option : Z) : MX unit unit :=
  mapping <- xlook (fun w => f_mapping K w filp) ;;
  if (option =? 0) || (mapping =? 0) then xreturn tt else
  if negb (Z.land option (FILE_WRITE_THROUGH_LE K) =? 0) then
    flags <- (fun s => (Next (xf_flags s filp), s)) ;;
    set_f_flags filp (Z.lor flags O_SYNC)
  else if negb (Z.land option (FILE_NO_INTERMEDIATE_BUFFERING_LE K) =? 0) then
    flags <- (fun s => (Next (xf_flags s filp), s)) ;;
    set_f_flags filp (Z.lor flags O_DIRECT)
  else if negb (Z.land option (FILE_SEQUENTIAL_ONLY_LE K) =? 0) then
    pages <- xlook (fun w => bdi_ra_pages K w mapping) ;;
    set_ra_pages filp (to_uint (pages * 2)) ;;
    xemit (EvSpinLock filp) ;;
    mode <- (fun s => (Next (xf_mode s filp), s)) ;;
    set_f_mode filp (Z.land mode (Z.lnot FMODE_RANDOM)) ;;
    xemit (EvSpinUnlock filp)
  else if negb (Z.land option (FILE_RANDOM_ACCESS_LE K) =? 0) then
    xemit (EvSpinLock filp) ;;
    mode <- (fun s => (Next (xf_mode s filp), s)) ;;
    set_f_mode filp (Z.lor mode FMODE_RANDOM) ;;
    xemit (EvSpinUnlock filp)
  else xret tt.

End VfsExt.

Arguments xrun {K R} m s.

(** The calls made between two states of these helpers. *)
Definition xemitted {K} (s s' : xstate K) : list xevent :=
  skipn (List.length (xtrace K s)) (xtrace K s').

Definition xlogged {K} (s : xstate K) (l : list xevent) : xstate K :=
  set_xtrace K s (xtrace K s ++ l).

Definition is_xbackend_read (e : xevent) : bool :=
  match e with
  | XBase (EvVfsRead _ _ _) => true
  | _ => false
  end.

Definition is_xvfree (e : xevent) : bool :=
  match e with
  | XBase (EvVfree _) => true
  | _ => false
  end.

Definition is_listxattr_beyond (e : xevent) : bool :=
  match e with
  | XBase (EvVmalloc size) | EvVfsListxattr _ _ size =>
      (size <? 0) || (XATTR_LIST_MAX <? size)
  | _ => false
  end.

Definition is_name_space_change (e : xevent) : bool :=
  match e with
  | EvVfsCreate _ _ _ _ | EvVfsMkdir _ _ _ | EvVfsRmdir _ _
  | EvVfsUnlink _ _ | EvVfsLink _ _ _ | EvVfsSymlink _ _ _ => true
  | _ => false
  end.

Definition mutex_eqb (a b : mutex) : bool :=
  match a, b with
  | ofile_list_lock, ofile_list_lock => true
  | i_mutex i, i_mutex j => i =? j
  | _, _ => false
  end.

(** The inode of the directory a dentry sits in. *)
Definition parent_inode (K : kernel) (w : W K) (d : Z) : Z :=
  d_inode K w (d_parent K w d).

(** What these helpers hold: a path reference, what
    [kern_path_create] hands out (to be given back by
    [done_path_create]), a mutex, a dentry reference. *)
Inductive xresource :=
| XPath (p : path)
| XCreate (p : path) (d : Z)
| XMutex (m : mutex)
| XDentry (d : Z).

Definition xresource_eqb (a b : xresource) : bool :=
  match a, b with
  | XPath p, XPath q => path_eqb p q
  | XCreate p d, XCreate q e => path_eqb p q && (d =? e)
  | XMutex m, XMutex n => mutex_eqb m n
  | XDentry d, XDentry e => d =? e
  | _, _ => false
  end.

Definition xacquired (e : xevent) : option xresource :=
  match e with
  | XBase (EvKernPath _ _ err p) => if err =? 0 then Some (XPath p) else None
  | EvKernPathCreate _ _ d p => if IS_ERR d then None else Some (XCreate p d)
  | EvMutexLockNested m _ => Some (XMutex m)
  | XBase (EvDget d) => Some (XDentry d)
  | _ => None
  end.

Definition xreleased (e : xevent) : option xresource :=
  match e with
  | XBase (EvPathPut p) => Some (XPath p)
  | EvDonePathCreate p d => Some (XCreate p d)
  | XBase (EvMutexUnlock m) => Some (XMutex m)
  | XBase (EvDput d) => Some (XDentry d)
  | _ => None
  end.

(** What a call that changes the name space needs on top of the stack:
    for a removal the [i_mutex] of the very directory inode the call is
    made on, for a creation the result of [kern_path_create] (which
    holds that mutex). *)
Definition xguard_ok (e : xevent) (stack : list xresource) : bool :=
  match e with
  | EvVfsRmdir dir _ | EvVfsUnlink dir _ =>
      match stack with
      | XMutex m :: _ => mutex_eqb m (i_mutex dir)
      | _ => false
      end
  | EvVfsCreate _ d _ _ | EvVfsMkdir _ d _ | EvVfsSymlink _ d _
  | EvVfsLink _ _ d =>
      match stack with
      | XCreate _ d' :: _ => d =? d'
      | _ => false
      end
  | _ => true
  end.

(** The only mutex locked is the [i_mutex] of the inode [dir], taken
    as a parent. *)
Definition locks_only (dir : Z) (l : list xevent) : bool :=
  forallb (fun e =>
             match e with
             | EvMutexLockNested m subclass =>
                 mutex_eqb m (i_mutex dir) && (subclass =? I_MUTEX_PARENT)
             | XBase (EvMutexLock _) => false
             | _ => true
             end) l.

(** As [held], for these helpers, with the guard of each call checked
    on the way. *)
Fixpoint xheld (stack : list xresource) (l : list xevent)
    : option (list xresource) :=
  match l with
  | [] => Some stack
  | e :: l' =>
      if negb (xguard_ok e stack) then None else
      match xacquired e, xreleased e with
      | Some r, _ => xheld (r :: stack) l'
      | None, Some r =>
          match stack with
          | top :: rest => if xresource_eqb top r then xheld rest l' else None
          | [] => None
          end
      | None, None => xheld stack l'
      end
  end.

(** ** A reference kernel for the other helpers *)

Module RefExt.

Import RefKernel.

Definition bytes_of (s : string) : list Z :=
  List.map (fun c => Z.of_nat (nat_of_ascii c)) (list_ascii_of_string s).

Definition drop_inode (w : rworld) (i : Z) : rworld :=
  {| fids := fids w; files := files w;
     inodes := List.filter (fun '(j, _) => negb (j =? i)) (inodes w);
     parents := parents w; names := names w;
     children := List.filter (fun '(_, _, c) => negb (c =? i)) (children w);
     locks := locks w; deny_write := deny_write w; oplocks := oplocks w;
     breaks := breaks w |}.

(** The mount a directory is on: the share's own (1) unless the
    directory is listed as being on another file system. *)
Definition mount_of (mounts : list (Z * Z)) (dir : Z) : Z :=
  match assoc dir mounts with
  | Some m => m
  | None => 1
  end.

Definition ref_kern_path_create (mounts : list (Z * Z)) (w : rworld)
    (name : string) (flags : Z) : Z * path :=
  match assoc_str (dirname name) (names w), last_component name with
  | Some dir, Some leaf =>
      match child_of dir leaf (children w) with
      | Some _ => (- EEXIST, {| mnt := mount_of mounts dir; dentry := dir |})
      | None =>
          (negative_dentry, {| mnt := mount_of mounts dir; dentry := dir |})
      end
  | _, _ => (- ENOENT, {| mnt := 0; dentry := 0 |})
  end.

Definition new_inode (mode : Z) (data : list Z) : rinode :=
  {| r_mode := mode; r_uid := 0; r_gid := 0; r_data := data;
     r_xattrs := [] |}.

Definition ref_listxattr (w : rworld) (d size : Z) : Z * list Z :=
  match assoc d (inodes w) with
  | None => (- ENOENT, [])
  | Some n =>
      let bytes :=
        List.concat (List.map (fun '(k, _) => bytes_of k ++ [0])
                              (r_xattrs n)) in
      let len := Z.of_nat (List.length bytes) in
      if size =? 0 then (len, [])
      else if size <? len then (- ERANGE, [])
      else (len, bytes)
  end.

Definition refx_mounted (mounts : list (Z * Z)) : kernel_ext := {|
  kbase := refk;
  FILE_WRITE_THROUGH_LE := 2;
  FILE_NO_INTERMEDIATE_BUFFERING_LE := 8;
  FILE_SEQUENTIAL_ONLY_LE := 4;
  FILE_RANDOM_ACCESS_LE := 0x800;
  kstat := Z * Z;
  kern_path_create := ref_kern_path_create mounts;
  vfs_create := fun w _ d mode _ => (0, set_inode w d (new_inode mode []));
  vfs_mkdir := fun w _ d mode => (0, set_inode w d (new_inode mode []));
  vfs_rmdir := fun w _ d =>
    if existsb (fun '(c, p) => p =? d) (parents w)
    then (- ENOTEMPTY, w) else (0, drop_inode w d);
  vfs_unlink := fun w _ d => (0, drop_inode w d);
  vfs_link := fun w old _ new =>
    match assoc old (inodes w) with
    | Some n => (0, set_inode w new n)
    | None => (- ENOENT, w)
    end;
  vfs_symlink := fun w _ d target =>
    (0, set_inode w d (new_inode (S_IFLNK + 0x1FF) (bytes_of target)));
  i_nlink := fun w i => match assoc i (inodes w) with
                        | Some _ => 1
                        | None => 0
                        end;
  readlink := fun w d len =>
    match assoc d (inodes w) with
    | Some n => let data := firstn (Z.to_nat len) (r_data n) in
                (Z.of_nat (List.length data), data)
    | None => (- ENOENT, [])
    end;
  vfs_getattr := fun w p =>
    (0, (inode_field r_mode w (dentry p),
         inode_field (fun n => Z.of_nat (List.length (r_data n))) w
                     (dentry p)));
  vfs_fsync := fun w _ _ => (0, w);
  vfs_listxattr := ref_listxattr;
  vfs_setxattr := fun w d name value _ _ =>
    match assoc d (inodes w) with
    | Some n =>
        (0, set_inode w d {| r_mode := r_mode n; r_uid := r_uid n;
                             r_gid := r_gid n; r_data := r_data n;
                             r_xattrs := (name, value) :: r_xattrs n |})
    | None => (- ENOENT, w)
    end;
  f_mapping := fun w filp => match assoc filp (files w) with
                             | Some _ => filp + 1000
                             | None => 0
                             end;
  bdi_ra_pages := fun _ _ => 32
|}.

Definition refx : kernel_ext := refx_mounted [].

Definition xboot_mounted (mounts : list (Z * Z)) (w : rworld)
    : xstate (refx_mounted mounts) :=
  {| xworld := (w : W (refx_mounted mounts)); xf_flags := fun _ => 0;
     xf_mode := fun _ => 0; xra_pages := fun _ => 0; xaddr_limit := 0;
     xtrace := [] |}.

Definition xboot (w : rworld) : xstate refx := xboot_mounted [] w.

Definition x0 : xstate refx := xboot w0.

(** The share with an orphan: the inode of [/share/a/b/x] is gone
    while its dentry is still in the name table. *)
Definition w_orphan : rworld :=
  {| fids := fids w0; files := files w0;
     inodes := List.filter (fun '(j, _) => negb (j =? file_x)) (inodes w0);
     parents := parents w0; names := names w0; children := children w0;
     locks := locks w0; deny_write := deny_write w0; oplocks := oplocks w0;
     breaks := breaks w0 |}.

End RefExt.

(** * Properties *)

(** ** Traces *)

Lemma skipn_length_app {A} (l r : list A) :
  skipn (List.length l) (l ++ r) = r.
Proof. induction l as [|a l IH]; simpl; auto. Qed.

Lemma emitted_logged {K} (s : kstate K) (l : list event) :
  emitted s (logged s l) = l.
Proof. unfold emitted, logged; simpl. apply skipn_length_app. Qed.

Lemma emitted_refl {K} (s : kstate K) : emitted s s = [].
Proof. unfold emitted. apply skipn_all. Qed.

(** Unfold the monad, leaving the tests of the helper in the goal. *)
Ltac unfold_monad :=
  cbv [run bind ret return_ emit look call sub get_fs set_fs clear_f_flags
       break_levelII smb_vfs_locks_mandatory_area file_inode].

(** Project the fields of the states built along the way. *)
Ltac simp := cbn [world trace f_flags addr_limit fst snd].

(** Split on the next test or primitive result of the helper. *)
Ltac branch :=
  match goal with
  | |- context [if ?c then _ else _] =>
      let E := fresh "E" in destruct c eqn:E
  | |- context [match ?p with (_, _) => _ end] =>
      lazymatch p with
      | (_, _) => fail
      | context [match _ with (_, _) => _ end] => fail
      | _ => let E := fresh "E" in destruct p eqn:E
      end
  end.

(** Put the trace of the final state in the form [trace s ++ l]. *)
Ltac trace_norm :=
  unfold emitted, logged; cbn [trace world fst snd];
  repeat rewrite <- app_assoc; cbn [app];
  try rewrite skipn_length_app;
  try rewrite skipn_all.

(** ** Reading and the zero-length request *)

(** C10.  A read of zero bytes returns 0 at once: the state is the one
    the call started in and no call at all is made, so the handle was
    not resolved, no lock was checked, no buffer was allocated and the
    backend was not read, whatever the session and the file identifier
    are (a stale or unknown identifier included). *)
Theorem read_zero_count_returns_immediately
    K (st : kstate K) (server fid pos : Z) :
  let out := run (smb_vfs_read K server fid 0 pos) st in
  out = ({| rd_ret := 0; rd_buf := None; rd_pos := pos |}, st) /\
  emitted st (snd out) = [].
Proof.
  intros out. subst out. split; [reflexivity|]. apply emitted_refl.
Qed.

(** C8.  A read that resolves its handle (the count is not zero and
    the fid is known) and finds a directory behind it fails with
    [-EISDIR]; the only call made is the handle lookup, so the lock
    check, the allocation and the backend read all come after the
    directory test. *)
Theorem read_directory_is_rejected
    K (st : kstate K) (server fid count pos : Z) :
  let w := world K st in
  let fp := get_id_from_fidtable K w server fid in
  count <> 0 ->
  fp <> 0 ->
  S_ISDIR (i_mode K w (file_inode K w (fp_filp K w fp))) = true ->
  let out := run (smb_vfs_read K server fid count pos) st in
  fst out = {| rd_ret := - EISDIR; rd_buf := None; rd_pos := pos |} /\
  snd out = logged st [EvGetId server fid] /\
  never is_any_lock_check (emitted st (snd out)) = true /\
  never is_alloc (emitted st (snd out)) = true /\
  never is_backend_read (emitted st (snd out)) = true.
Proof.
  intros w fp Hcount Hfp Hdir out.
  assert (Hout : out = ({| rd_ret := - EISDIR; rd_buf := None; rd_pos := pos |},
                        logged st [EvGetId server fid])).
  { subst out. unfold smb_vfs_read.
    apply Z.eqb_neq in Hcount. rewrite Hcount.
    unfold_monad. simp.
    apply Z.eqb_neq in Hfp. fold w. fold fp. rewrite Hfp. simp.
    unfold file_inode in Hdir. fold w. rewrite Hdir. reflexivity. }
  rewrite Hout. cbn [fst snd]. rewrite emitted_logged.
  repeat split; reflexivity.
Qed.

Lemma read_directory_is_rejected_witness :
  rd_ret (fst (run (smb_vfs_read RefKernel.refk 1 3 5 0) RefKernel.s0))
  = - EISDIR.
Proof.
  pose proof (read_directory_is_rejected RefKernel.refk RefKernel.s0 1 3 5 0)
    as H.
  cbv zeta in H.
  destruct H as [H _].
  - discriminate.
  - vm_compute. discriminate.
  - vm_compute. reflexivity.
  - rewrite H. reflexivity.
Defined.

(** ** Extended attributes *)

(** C9.  When the stored value is longer than the caller's buffer,
    [smb_vfs_getxattr] returns [-ENOMEM] after the length query alone:
    the call that would fill the buffer is not made and the buffer is
    returned as it was. *)
Theorem getxattr_value_exceeds_buffer
    K (st : kstate K) (d : Z) (name : string) (buf : list Z) (buf_len : Z) :
  0 <= buf_len ->
  fst (vfs_getxattr K (world K st) d name 0) > buf_len ->
  run (smb_vfs_getxattr K d name buf buf_len) st
  = ({| gx_ret := - ENOMEM; gx_buf := buf |},
     logged st [EvVfsGetxattr d name 0]).
Proof.
  intros Hcap Hlen.
  unfold smb_vfs_getxattr. unfold_monad. simp.
  destruct (vfs_getxattr K (world K st) d name 0) as [xattr_len data].
  cbn [fst] in Hlen. simp.
  replace (xattr_len <=? 0) with false by (symmetry; apply Z.leb_gt; lia).
  simp.
  replace (xattr_len >? buf_len) with true
    by (symmetry; rewrite Z.gtb_ltb; apply Z.ltb_lt; lia).
  reflexivity.
Qed.

Lemma getxattr_value_exceeds_buffer_witness :
  run (smb_vfs_getxattr RefKernel.refk RefKernel.a_txt "user.tag"
         [0; 0; 0] 3) RefKernel.s0
  = ({| gx_ret := - ENOMEM; gx_buf := [0; 0; 0] |},
     logged RefKernel.s0 [EvVfsGetxattr RefKernel.a_txt "user.tag" 0]).
Proof.
  apply (getxattr_value_exceeds_buffer RefKernel.refk RefKernel.s0).
  - lia.
  - vm_compute. reflexivity.
Defined.

(** ** Writing *)

(** C1.  In every run of [smb_vfs_write] the lock check with write
    intent comes before the lease break and before the backend write.
    When that check answers [-EAGAIN] the helper returns it at once:
    nothing is written, [*written] is left alone, the world is the one
    the call started in and no lease is broken. *)
Theorem write_checks_lock_first
    K (st : kstate K) (server fid : Z) (buf : list Z) (count pos : Z)
    (sync : bool) :
  let w := world K st in
  let fp := get_id_from_fidtable K w server fid in
  let out := run (smb_vfs_write K server fid buf count pos sync) st in
  precedes (is_lock_check F_WRLCK)
           (fun e => is_lease_break e || is_backend_write e)
           (emitted st (snd out)) = true /\
  (fp <> 0 ->
   fst (run (smb_vfs_locks_mandatory_area K (fp_filp K w fp) pos
               (to_loff (pos + count - 1)) F_WRLCK) st) = - EAGAIN ->
   fst out = {| wr_ret := - EAGAIN; wr_written := None; wr_pos := pos |} /\
   world K (snd out) = w /\
   never is_lease_break (emitted st (snd out)) = true /\
   never is_backend_write (emitted st (snd out)) = true).
Proof.
  intros w fp out. split.
  - subst out. unfold smb_vfs_write. unfold_monad. simp.
    repeat (branch; simp); trace_norm; reflexivity.
  - intros Hfp Hlock. subst out.
    revert Hlock. unfold smb_vfs_write. unfold_monad. simp.
    apply Z.eqb_neq in Hfp. fold w. fold fp. rewrite Hfp. simp. fold w.
    destruct (flc_posix_empty K w _); simp; intros Hlock.
    + discriminate Hlock.
    + fold w. rewrite Hlock.
      change (to_int (- EAGAIN) =? - EAGAIN) with true. simp.
      repeat split; trace_norm; reflexivity.
Qed.

(** The write of 1024 bytes at offset 0 through fid 7, with fsync, while
    another owner holds a read lock on bytes 0..99. *)
Lemma write_checks_lock_first_witness :
  let out := run (smb_vfs_write RefKernel.refk 1 7 (repeat 66 1024) 1024 0
                    true) RefKernel.s0 in
  fst out = {| wr_ret := - EAGAIN; wr_written := None; wr_pos := 0 |} /\
  world RefKernel.refk (snd out) = RefKernel.w0.
Proof.
  pose proof (write_checks_lock_first RefKernel.refk RefKernel.s0 1 7
                (repeat 66 1024) 1024 0 true) as H.
  cbv zeta in H. destruct H as [_ H].
  destruct H as (Hret & Hworld & _).
  - vm_compute. discriminate.
  - vm_compute. reflexivity.
  - split; assumption.
Defined.

(** ** Sanitizing attributes *)

Lemma land_pow2_eqb (x k : Z) :
  0 <= k -> (Z.land x (2 ^ k) =? 0) = negb (Z.testbit x k).
Proof.
  intros Hk. destruct (Z.testbit x k) eqn:Hb; simpl.
  - apply Z.eqb_neq. intros H0.
    assert (Hbit : Z.testbit (Z.land x (2 ^ k)) k = true)
      by (rewrite Z.land_spec, Hb, Z.pow2_bits_true; auto).
    rewrite H0, Z.bits_0 in Hbit. discriminate.
  - apply Z.eqb_eq. apply Z.bits_inj'. intros n Hn.
    rewrite Z.land_spec, Z.bits_0, Z.pow2_bits_eqb by assumption.
    destruct (Z.eqb_spec k n) as [->|Hne].
    + now rewrite Hb.
    + apply andb_false_r.
Qed.

Lemma land_clear_same (x b : Z) : Z.land (Z.land x (Z.lnot b)) b = 0.
Proof.
  rewrite <- Z.land_assoc, (Z.land_comm (Z.lnot b) b), Z.land_lnot_diag.
  apply Z.land_0_r.
Qed.

Lemma land_clear_other (x b c : Z) :
  Z.land x c = 0 -> Z.land (Z.land x (Z.lnot b)) c = 0.
Proof.
  intros H.
  rewrite <- Z.land_assoc, (Z.land_comm (Z.lnot b) c), Z.land_assoc, H.
  apply Z.land_0_l.
Qed.

Lemma sanitized_mode_bit K (w : W K) inode attrs (k : Z) :
  0 <= k < 12 ->
  Z.testbit (sanitized_mode K w inode attrs) k = Z.testbit (ia_mode attrs) k.
Proof.
  intros Hk. unfold sanitized_mode.
  rewrite Z.lor_spec, !Z.land_spec, Z.lnot_spec by lia.
  assert (Hm : Z.testbit S_IALLUGO k = true).
  { change S_IALLUGO with (Z.ones 12). apply Z.ones_spec_low. lia. }
  rewrite Hm. simpl. now rewrite andb_true_r, andb_false_r, orb_false_r.
Qed.

Lemma check_attrs_chown_with_mode K (w : W K) inode attrs :
  S_ISDIR (i_mode K w inode) = false ->
  changes_ownership K w inode attrs = true ->
  Z.land (ia_valid attrs) ATTR_MODE <> 0 ->
  smb_check_attrs K w inode attrs
  = let m := Z.land (sanitized_mode K w inode attrs) (Z.lnot S_ISUID) in
    {| ia_valid := Z.lor (ia_valid attrs) ATTR_KILL_PRIV;
       ia_mode := if Z.land m S_IXGRP =? 0 then m
                  else Z.land m (Z.lnot S_ISGID);
       ia_uid := ia_uid attrs; ia_gid := ia_gid attrs;
       ia_size := ia_size attrs |}.
Proof.
  intros Hdir Hown Hmode. unfold smb_check_attrs.
  apply Z.eqb_neq in Hmode. rewrite Hmode.
  unfold changes_ownership in Hown.
  cbn [set_ia_mode set_ia_valid ia_valid ia_mode ia_uid ia_gid ia_size].
  rewrite Hdir, Hown. cbn [negb andb].
  assert (Hm' : (Z.land (Z.lor (ia_valid attrs) ATTR_KILL_PRIV) ATTR_MODE =? 0)
                = false).
  { change ATTR_MODE with (2 ^ 0) in *. rewrite land_pow2_eqb in * by lia.
    rewrite Z.lor_spec.
    destruct (Z.testbit (ia_valid attrs) 0); [reflexivity | discriminate]. }
  rewrite Hm'. fold (sanitized_mode K w inode attrs).
  cbv zeta. destruct (Z.land _ S_IXGRP =? 0); reflexivity.
Qed.

Lemma check_attrs_chown_without_mode K (w : W K) inode attrs :
  S_ISDIR (i_mode K w inode) = false ->
  changes_ownership K w inode attrs = true ->
  Z.land (ia_valid attrs) ATTR_MODE = 0 ->
  smb_check_attrs K w inode attrs
  = {| ia_valid := Z.lor (Z.lor (ia_valid attrs) ATTR_KILL_PRIV)
                         (Z.lor ATTR_KILL_SUID ATTR_KILL_SGID);
       ia_mode := ia_mode attrs;
       ia_uid := ia_uid attrs; ia_gid := ia_gid attrs;
       ia_size := ia_size attrs |}.
Proof.
  intros Hdir Hown Hmode. unfold smb_check_attrs.
  apply Z.eqb_eq in Hmode. rewrite Hmode.
  unfold changes_ownership in Hown. rewrite Hdir, Hown. cbn [negb andb].
  cbn [set_ia_mode set_ia_valid ia_valid ia_mode ia_uid ia_gid ia_size].
  assert (Hm' : (Z.land (Z.lor (ia_valid attrs) ATTR_KILL_PRIV) ATTR_MODE =? 0)
                = true).
  { change ATTR_MODE with (2 ^ 0) in *. rewrite land_pow2_eqb in * by lia.
    rewrite Z.lor_spec.
    destruct (Z.testbit (ia_valid attrs) 0); [discriminate | reflexivity]. }
  rewrite Hm'. reflexivity.
Qed.

Lemma lor_has_bit (x b : Z) : b <> 0 -> Z.land (Z.lor x b) b <> 0.
Proof.
  intros Hb H. apply Hb.
  rewrite Z.land_lor_distr_l, Z.land_diag in H.
  apply Z.lor_eq_0_iff in H. tauto.
Qed.

(** C5, as the code has it.  When a request changes the owner or the
    group of an object that is not a directory, [ATTR_KILL_PRIV] is
    set.  If the request sets the mode too, the set-user-ID bit is
    cleared from the new mode, and the set-group-ID bit is cleared from
    it exactly when the new mode grants group-execute; the mode the
    object has now plays no part.  If the request does not set the
    mode, the mode field is left alone and both [ATTR_KILL_SUID] and
    [ATTR_KILL_SGID] are set for the backend. *)
Theorem check_attrs_revokes_privilege_on_chown
    K (w : W K) (inode : Z) (attrs : iattr) :
  S_ISDIR (i_mode K w inode) = false ->
  changes_ownership K w inode attrs = true ->
  let r := smb_check_attrs K w inode attrs in
  Z.land (ia_valid r) ATTR_KILL_PRIV <> 0 /\
  (Z.land (ia_valid attrs) ATTR_MODE <> 0 ->
   ia_valid r = Z.lor (ia_valid attrs) ATTR_KILL_PRIV /\
   Z.land (ia_mode r) S_ISUID = 0 /\
   (Z.land (ia_mode attrs) S_IXGRP <> 0 -> Z.land (ia_mode r) S_ISGID = 0) /\
   (Z.land (ia_mode attrs) S_IXGRP = 0 ->
    Z.land (ia_mode r) S_ISGID = Z.land (ia_mode attrs) S_ISGID)) /\
  (Z.land (ia_valid attrs) ATTR_MODE = 0 ->
   ia_mode r = ia_mode attrs /\
   Z.land (ia_valid r) ATTR_KILL_SUID <> 0 /\
   Z.land (ia_valid r) ATTR_KILL_SGID <> 0).
Proof.
  intros Hdir Hown r. subst r. split; [|split].
  - destruct (Z.eq_dec (Z.land (ia_valid attrs) ATTR_MODE) 0) as [H0|H1].
    + rewrite check_attrs_chown_without_mode by assumption.
      cbn [ia_valid].
      change ATTR_KILL_PRIV with (2 ^ 14).
      apply Z.eqb_neq. rewrite land_pow2_eqb by lia.
      rewrite !Z.lor_spec. rewrite (Z.pow2_bits_true 14) by lia.
      now rewrite orb_true_r.
    + rewrite check_attrs_chown_with_mode by assumption.
      cbn [ia_valid]. apply lor_has_bit. discriminate.
  - intros Hmode. rewrite check_attrs_chown_with_mode by assumption.
    cbv zeta. cbn [ia_valid ia_mode].
    set (m := Z.land (sanitized_mode K w inode attrs) (Z.lnot S_ISUID)).
    assert (Hx : (Z.land m S_IXGRP =? 0)
                 = negb (Z.testbit (ia_mode attrs) 3)).
    { change S_IXGRP with (2 ^ 3). rewrite land_pow2_eqb by lia.
      subst m. rewrite Z.land_spec, sanitized_mode_bit by lia.
      rewrite Z.lnot_spec by lia. change (Z.testbit S_ISUID 3) with false.
      now rewrite andb_true_r. }
    assert (Hu : Z.land m S_ISUID = 0) by (subst m; apply land_clear_same).
    repeat split.
    + destruct (Z.land m S_IXGRP =? 0); auto using land_clear_other.
    + intros Hg. change S_IXGRP with (2 ^ 3) in Hg.
      apply Z.eqb_neq in Hg. rewrite land_pow2_eqb in Hg by lia.
      rewrite Hx, Hg. apply land_clear_same.
    + intros Hg. change S_IXGRP with (2 ^ 3) in Hg.
      apply Z.eqb_eq in Hg. rewrite land_pow2_eqb in Hg by lia.
      rewrite Hx, Hg. subst m.
      apply Z.bits_inj'. intros n Hn.
      rewrite !Z.land_spec. change S_ISGID with (2 ^ 10).
      rewrite Z.pow2_bits_eqb by lia.
      destruct (Z.eqb_spec 10 n) as [<-|Hne];
        [|now rewrite !andb_false_r].
      rewrite sanitized_mode_bit by lia.
      rewrite Z.lnot_spec by lia. change (Z.testbit S_ISUID 10) with false.
      cbn [negb]. now rewrite andb_true_r.
  - intros Hmode. rewrite check_attrs_chown_without_mode by assumption.
    cbn [ia_valid ia_mode]. repeat split.
    + rewrite (Z.lor_comm ATTR_KILL_SUID), Z.lor_assoc.
      apply lor_has_bit. discriminate.
    + rewrite Z.lor_assoc. apply lor_has_bit. discriminate.
Qed.

Lemma check_attrs_revokes_privilege_on_chown_witness :
  let r := smb_check_attrs RefKernel.refk RefKernel.w0 RefKernel.a_txt
             {| ia_valid := ATTR_MODE + ATTR_UID; ia_mode := 0xDC8;
                ia_uid := 0; ia_gid := 1000; ia_size := 0 |} in
  Z.land (ia_mode r) S_ISUID = 0 /\ Z.land (ia_mode r) S_ISGID = 0.
Proof.
  pose proof (check_attrs_revokes_privilege_on_chown RefKernel.refk
                RefKernel.w0 RefKernel.a_txt
                {| ia_valid := ATTR_MODE + ATTR_UID; ia_mode := 0xDC8;
                   ia_uid := 0; ia_gid := 1000; ia_size := 0 |}) as H.
  cbv zeta in H. destruct H as (_ & H & _).
  - vm_compute. reflexivity.
  - vm_compute. reflexivity.
  - destruct H as (_ & Hu & Hg & _).
    + vm_compute. discriminate.
    + split; [exact Hu | apply Hg; vm_compute; discriminate].
Defined.

(** The object [/share/a.txt] has mode 06770, group-execute included.
    A request changing its owner and setting the mode to 06700 comes
    back with the set-group-ID bit still in the mode. *)
Lemma check_attrs_current_group_exec_keeps_setgid :
  let attrs := {| ia_valid := ATTR_MODE + ATTR_UID; ia_mode := 0xDC0;
                  ia_uid := 0; ia_gid := 1000; ia_size := 0 |} in
  let w := RefKernel.w0 in
  S_ISDIR (i_mode RefKernel.refk w RefKernel.a_txt) = false /\
  changes_ownership RefKernel.refk w RefKernel.a_txt attrs = true /\
  Z.land (i_mode RefKernel.refk w RefKernel.a_txt) S_IXGRP <> 0 /\
  Z.land (ia_mode (smb_check_attrs RefKernel.refk w RefKernel.a_txt attrs))
         S_ISGID <> 0.
Proof. vm_compute. repeat split; discriminate. Qed.

(** ** Setting attributes *)

Lemma check_attrs_size K (w : W K) inode attrs :
  ia_size (smb_check_attrs K w inode attrs) = ia_size attrs.
Proof.
  unfold smb_check_attrs. cbv zeta.
  repeat match goal with
         | |- context [if ?c then _ else _] => destruct c
         end; reflexivity.
Qed.

Lemma check_attrs_size_bit K (w : W K) inode attrs :
  Z.testbit (ia_valid (smb_check_attrs K w inode attrs)) 3
  = Z.testbit (ia_valid attrs) 3.
Proof.
  unfold smb_check_attrs. cbv zeta.
  repeat match goal with
         | |- context [if ?c then _ else _] => destruct c
         end;
    cbn [set_ia_mode set_ia_valid ia_valid];
    rewrite ?Z.lor_spec;
    change (Z.testbit ATTR_KILL_PRIV 3) with false;
    change (Z.testbit ATTR_KILL_SUID 3) with false;
    change (Z.testbit ATTR_KILL_SGID 3) with false;
    rewrite ?orb_false_r; reflexivity.
Qed.

Lemma testbit_nonzero (v k : Z) : Z.testbit v k = true -> (v =? 0) = false.
Proof.
  intros H. apply Z.eqb_neq. intros ->. rewrite Z.bits_0 in H. discriminate.
Qed.

Lemma size_bit_set (v : Z) : Z.land v ATTR_SIZE <> 0 -> Z.testbit v 3 = true.
Proof.
  intros H. apply Z.eqb_neq in H. change ATTR_SIZE with (2 ^ 3) in H.
  rewrite land_pow2_eqb in H by lia. now destruct (Z.testbit v 3).
Qed.

(** What [smb_vfs_setattr] hands to the size validation: the request
    after the symlink rule and the sanitizer still asks for the size. *)
Lemma setattr_keeps_size_request K (w : W K) inode attrs (lnk : bool) :
  Z.land (ia_valid attrs) ATTR_SIZE <> 0 ->
  let a1 := if lnk
            then set_ia_valid attrs (Z.land (ia_valid attrs) (Z.lnot ATTR_MODE))
            else attrs in
  (ia_valid a1 =? 0) = false /\
  (Z.land (ia_valid (smb_check_attrs K w inode a1)) ATTR_SIZE =? 0) = false /\
  ia_size (smb_check_attrs K w inode a1) = ia_size attrs.
Proof.
  intros H a1. apply size_bit_set in H.
  assert (Hbit : Z.testbit (ia_valid a1) 3 = true).
  { subst a1. destruct lnk; cbn [set_ia_valid ia_valid]; auto.
    rewrite Z.land_spec, Z.lnot_spec, H by lia. reflexivity. }
  split; [|split].
  - eapply testbit_nonzero; eauto.
  - change ATTR_SIZE with (2 ^ 3). rewrite land_pow2_eqb by lia.
    now rewrite check_attrs_size_bit, Hbit.
  - rewrite check_attrs_size. subst a1. now destruct lnk.
Qed.

(** C6.  When a setattr request asks for a size change and the size
    validation fails (no write access, or a mandatory lock forbids the
    truncation), the helper returns that error, [notify_change] is not
    called and the world is the one the call started in: no field of
    the request is applied. *)
Theorem setattr_size_validation_aborts
    K (st : kstate K) (server : Z) (name : option string) (fid : Z)
    (attrs : iattr) (d : Z) :
  let w := world K st in
  let inode := d_inode K w d in
  setattr_target K w server name fid = Some d ->
  Z.land (ia_valid attrs) ATTR_SIZE <> 0 ->
  size_validation K w inode (ia_size attrs) <> 0 ->
  let out := run (smb_vfs_setattr K server name fid attrs) st in
  sa_ret (fst out) = size_validation K w inode (ia_size attrs) /\
  world K (snd out) = w /\
  never is_notify_change (emitted st (snd out)) = true.
Proof.
  intros w inode Htarget Hsize Hfail out. subst out.
  unfold setattr_target in Htarget. unfold size_validation in *.
  unfold smb_vfs_setattr. unfold_monad. simp. fold w.
  destruct name as [nm|].
  - destruct (kern_path K w nm 0) as [err pth] eqn:Epath.
    destruct (err =? 0) eqn:Eerr; [|discriminate].
    injection Htarget as <-. simp. fold w. rewrite Epath. simp. rewrite Eerr. simp.
    fold w. fold inode.
    destruct (setattr_keeps_size_request K w inode attrs
                (S_ISLNK (i_mode K w inode)) Hsize) as (Hv & Hs & Hz).
    cbv zeta in Hv, Hs, Hz. rewrite Hv. simp. fold w. rewrite Hs. simp.
    fold w.
    destruct (get_write_access K w inode =? 0) eqn:Ega; cbn [negb] in *; simp.
    + fold w. rewrite ?Hz. apply Z.eqb_neq in Hfail. rewrite Hfail.
      cbn [negb]. simp. repeat split. trace_norm. reflexivity.
    + repeat split. trace_norm. reflexivity.
  - set (fp := get_id_from_fidtable K w server fid) in *.
    destruct (fp =? 0) eqn:Efp; [discriminate|].
    injection Htarget as <-. simp. fold w. fold fp. rewrite Efp. simp.
    fold w. fold fp. fold inode.
    destruct (setattr_keeps_size_request K w inode attrs
                (S_ISLNK (i_mode K w inode)) Hsize) as (Hv & Hs & Hz).
    cbv zeta in Hv, Hs, Hz. rewrite Hv. simp. fold w. rewrite Hs. simp.
    fold w.
    destruct (get_write_access K w inode =? 0) eqn:Ega; cbn [negb] in *; simp.
    + fold w. rewrite ?Hz. apply Z.eqb_neq in Hfail. rewrite Hfail.
      cbn [negb]. simp. repeat split. trace_norm. reflexivity.
    + repeat split. trace_norm. reflexivity.
Qed.

Lemma setattr_size_validation_aborts_witness :
  let attrs := {| ia_valid := ATTR_SIZE + ATTR_MODE; ia_mode := 0x1FF;
                  ia_uid := 0; ia_gid := 0; ia_size := 0 |} in
  let out := run (smb_vfs_setattr RefKernel.refk 1 None 7 attrs)
                 RefKernel.s0 in
  sa_ret (fst out) = - EAGAIN /\
  world RefKernel.refk (snd out) = RefKernel.w0.
Proof.
  pose proof (setattr_size_validation_aborts RefKernel.refk RefKernel.s0
                1 None 7
                {| ia_valid := ATTR_SIZE + ATTR_MODE; ia_mode := 0x1FF;
                   ia_uid := 0; ia_gid := 0; ia_size := 0 |}
                RefKernel.a_txt) as H.
  cbv zeta in H. destruct H as (Hret & Hworld & _).
  - vm_compute. reflexivity.
  - vm_compute. discriminate.
  - vm_compute. discriminate.
  - split; [rewrite Hret; vm_compute; reflexivity | exact Hworld].
Defined.

(** ** Renaming *)

Ltac unfold_rename :=
  unfold smb_vfs_rename, rename_locked, rename_resolve, rename_source,
    rename_target.

Ltac simp_txn :=
  cbn [world trace f_flags addr_limit fst snd
       oldname oldpath_p filp dold_p newname newpath_p dnew_p].

(** As [branch], looking through a negation first. *)
Ltac branch_rename :=
  match goal with
  | |- context [if negb ?c then _ else _] =>
      let E := fresh "E" in destruct c eqn:E; cbn [negb]
  | |- context [match last_component ?p with _ => _ end] =>
      let E := fresh "E" in destruct (last_component p) eqn:E
  | _ => branch
  end.

Lemma resource_eqb_refl (r : resource) : resource_eqb r r = true.
Proof.
  destruct r; unfold resource_eqb, path_eqb; now rewrite ?Z.eqb_refl.
Qed.

(** Evaluate a reading of the trace. *)
Ltac read_trace :=
  trace_norm;
  cbn [never forallb negb andb is_lock_rename is_backend_rename];
  try reflexivity.

(** Split on each step of the resolution of the two names. *)
Ltac resolve_cases :=
  repeat match goal with
  | |- context [last_component ?p] =>
      let E := fresh "E" in destruct (last_component p) eqn:E
  | |- context [kern_path ?K ?w ?p ?f] =>
      let E := fresh "E" in
      destruct (kern_path K w p f) as [? ?] eqn:E; cbn [fst snd]
  | |- context [get_id_from_fidtable ?K ?w ?s ?f =? 0] =>
      let E := fresh "E" in
      destruct (get_id_from_fidtable K w s f =? 0) eqn:E
  end.

(** C2.  A rename holds both parent-directory locks or neither.  When
    both names resolve, [lock_rename] is called exactly once, on the
    parent directory of the source and the parent directory of the
    destination, and [unlock_rename] exactly once, on the same two
    directories; when one of them does not resolve, neither is called.
    No directory is ever locked on its own.  In every run the calls
    that take and drop references and locks are properly nested: a
    release always names the most recent acquisition still held (so
    the locks are dropped before the path references taken before
    them, and after the dentry references taken under them), and
    nothing is held when the helper returns, whichever exit is
    taken. *)
Theorem rename_releases_in_reverse_order
    K (st : kstate K) (server : Z) (abs_oldname : option string)
    (abs_newname : string) (oldfid : Z) :
  let w := world K st in
  let out := run (smb_vfs_rename K server abs_oldname abs_newname oldfid) st in
  let l := emitted st (snd out) in
  let p1 := rename_source_parent K w server abs_oldname oldfid in
  let p2 := rename_target_parent K w abs_newname in
  let both := rename_source_resolves K w server abs_oldname oldfid
              && rename_target_resolves K w abs_newname in
  held [] l = Some [] /\
  existsb is_unlock_rename l = existsb is_lock_rename l /\
  never is_single_directory_lock l = true /\
  filter is_lock_rename l = (if both then [EvLockRename p1 p2] else []) /\
  filter is_unlock_rename l = (if both then [EvUnlockRename p1 p2] else []).
Proof.
  intros w out l p1 p2 both. subst l out p1 p2 both w.
  unfold rename_source_parent, rename_target_parent, rename_source_resolves,
    rename_target_resolves.
  unfold_rename. unfold_monad. simp_txn.
  destruct abs_oldname as [abs_old|]; simp_txn;
    resolve_cases; simp_txn; cbn [negb andb];
    repeat (branch_rename; simp_txn; cbn [negb andb]);
    cbn [world trace f_flags addr_limit fst snd] in *;
    repeat match goal with
           | H : kern_path ?K ?w ?p ?f = _, H' : kern_path ?K ?w ?p ?f = _
             |- _ => rewrite H in H'
           | H : (_, _) = (_, _) |- _ => inversion H; subst; clear H
           end;
    try congruence;
    repeat split; trace_norm;
    cbn [held acquired released never forallb existsb filter negb andb orb
         is_lock_rename is_unlock_rename is_single_directory_lock];
    repeat first
      [ rewrite resource_eqb_refl; cbn [held acquired released]
      | match goal with
        | H : ?c = _ |- context [?c] =>
            rewrite H; cbn [held acquired released]
        end ];
    reflexivity.
Qed.

Lemma rename_resolve_world
    K (st : kstate K) server abs_oldname abs_newname oldfid t st1 :
  rename_resolve K server abs_oldname abs_newname oldfid st = (Next t, st1) ->
  world K st1 = world K st.
Proof.
  unfold rename_resolve. unfold_monad. simp_txn.
  destruct abs_oldname as [abs_old|]; simp_txn;
    repeat (branch_rename; simp_txn);
    intros H; inversion H; reflexivity.
Qed.

(** C3.  Once [rename_resolve] has produced the two parents, so that
    [lock_rename] is called and both directory locks are held: if the source dentry exists and is the
    trap, the helper returns [-EINVAL]; if it is not the trap and the
    destination dentry is, the helper returns [-ENOTEMPTY].  In both
    cases [vfs_rename] is not called and the world is the one the call
    started in. *)
Theorem rename_rejects_the_trap
    K (st : kstate K) (server : Z) (abs_oldname : option string)
    (abs_newname : string) (oldfid : Z) (t : rename_txn) :
  let w := world K st in
  let trap := lock_rename K w (dold_p t) (dnew_p t) in
  let dold := rename_source K t w in
  let dnew := rename_target K t w in
  fst (rename_resolve K server abs_oldname abs_newname oldfid st) = Next t ->
  match oldname t with
  | Some _ => IS_ERR dold = false
  | None => True
  end ->
  d_inode K w dold <> 0 ->
  let out := run (smb_vfs_rename K server abs_oldname abs_newname oldfid) st in
  (dold = trap ->
   fst out = - EINVAL /\
   world K (snd out) = w /\
   never is_backend_rename (emitted st (snd out)) = true) /\
  (dold <> trap -> IS_ERR dnew = false -> dnew = trap ->
   fst out = - ENOTEMPTY /\
   world K (snd out) = w /\
   never is_backend_rename (emitted st (snd out)) = true).
Proof.
  intros w trap dold dnew Hres Hsrc Hino out.
  destruct (rename_resolve K server abs_oldname abs_newname oldfid st)
    as [r st1] eqn:Hres'.
  cbn [fst] in Hres. subst r. rename Hres' into Hres.
  pose proof (rename_resolve_world _ _ _ _ _ _ _ _ Hres) as Hw. fold w in Hw.
  assert (Hmono : exists l, trace K st1 = trace K st ++ l).
  { revert Hres. unfold rename_resolve. unfold_monad. simp_txn.
    destruct abs_oldname as [abs_old|]; simp_txn;
      repeat (branch_rename; simp_txn);
      intros H; inversion H; simp_txn;
      rewrite <- ?app_assoc; eauto. }
  destruct Hmono as [l0 Hl0].
  assert (Hnr : forall l, never is_backend_rename l = true ->
                never is_backend_rename
                  (skipn (List.length (trace K st)) (trace K st1 ++ l)) = true).
  { intros l Hl. rewrite Hl0, <- app_assoc, skipn_length_app.
    unfold never in *. rewrite forallb_app, Hl, andb_true_r.
    revert Hres Hl0. unfold rename_resolve. unfold_monad. simp_txn.
    destruct abs_oldname as [abs_old|]; simp_txn;
      repeat (branch_rename; simp_txn);
      intros H; inversion H; subst; simp_txn;
      rewrite <- ?app_assoc; intros Hl0;
      apply app_inv_head in Hl0; subst l0; reflexivity. }
  apply Z.eqb_neq in Hino.
  subst out. unfold smb_vfs_rename, run, bind. rewrite Hres.
  unfold rename_locked. unfold_monad. simp_txn. rewrite Hw.
  fold trap. fold dold. fold dnew.
  split.
  - intros Htrap. apply Z.eqb_eq in Htrap.
    destruct (oldname t) as [nm|]; simp_txn; rewrite ?Hw; fold dold;
      rewrite ?Hsrc; simp_txn; rewrite ?Hw; fold dold;
      rewrite Hino, Htrap;
      destruct (oldpath_p t); simp_txn;
      (split; [reflexivity | split; [reflexivity|]]);
      unfold emitted; simp_txn; rewrite <- ?app_assoc; apply Hnr; reflexivity.
  - intros Hne Hdst Htrap. apply Z.eqb_neq in Hne. apply Z.eqb_eq in Htrap.
    destruct (oldname t) as [nm|]; simp_txn; rewrite ?Hw; fold dold;
      rewrite ?Hsrc; simp_txn; rewrite ?Hw; fold dold;
      rewrite Hino, Hne; simp_txn; rewrite ?Hw; fold dnew;
      rewrite Hdst, Htrap;
      destruct (oldpath_p t); simp_txn;
      (split; [reflexivity | split; [reflexivity|]]);
      unfold emitted; simp_txn; rewrite <- ?app_assoc; apply Hnr; reflexivity.
Qed.

(** Renaming [/share/a] below itself meets the trap on the source
    side; renaming [/share/a/b/x] onto [/share/a] meets it on the
    destination side. *)
Lemma rename_rejects_the_trap_witness :
  fst (run (smb_vfs_rename RefKernel.refk 1 (Some "/share/a"%string)
              "/share/a/b/c"%string 0) RefKernel.s0) = - EINVAL /\
  fst (run (smb_vfs_rename RefKernel.refk 1 (Some "/share/a/b/x"%string)
              "/share/a"%string 0) RefKernel.s0) = - ENOTEMPTY.
Proof.
  split.
  - pose proof (rename_rejects_the_trap RefKernel.refk RefKernel.s0 1
                  (Some "/share/a"%string) "/share/a/b/c"%string 0) as H.
    match eval vm_compute in
            (fst (rename_resolve RefKernel.refk 1 (Some "/share/a"%string) "/share/a/b/c"%string 0
                    RefKernel.s0)) with
    | Next ?t => specialize (H t)
    end.
    cbv zeta in H.
    destruct H as [H _].
    + vm_compute. reflexivity.
    + vm_compute. reflexivity.
    + vm_compute. discriminate.
    + destruct H as [H _].
      * vm_compute. reflexivity.
      * exact H.
  - pose proof (rename_rejects_the_trap RefKernel.refk RefKernel.s0 1
                  (Some "/share/a/b/x"%string) "/share/a"%string 0) as H.
    match eval vm_compute in
            (fst (rename_resolve RefKernel.refk 1 (Some "/share/a/b/x"%string) "/share/a"%string 0
                    RefKernel.s0)) with
    | Next ?t => specialize (H t)
    end.
    cbv zeta in H.
    destruct H as [_ H].
    + vm_compute. reflexivity.
    + vm_compute. reflexivity.
    + vm_compute. discriminate.
    + destruct H as [H _].
      * vm_compute. discriminate.
      * vm_compute. reflexivity.
      * vm_compute. reflexivity.
      * exact H.
Defined.

(** C7, as the code has it.  A source path without a leaf name makes
    [smb_vfs_rename] return [-ENOENT] before it calls anything.  A
    destination path without a leaf name makes it return [-ENOMEM]
    when the source side resolved, and [-ENOENT] when the source side
    failed first.  In both cases no directory lock is taken,
    [vfs_rename] is not called and the world is the one the call
    started in. *)
Theorem rename_rejects_missing_leaf
    K (st : kstate K) (server : Z) (abs_oldname : option string)
    (abs_newname : string) (oldfid : Z) :
  let w := world K st in
  let out := run (smb_vfs_rename K server abs_oldname abs_newname oldfid) st in
  let l := emitted st (snd out) in
  (forall p, abs_oldname = Some p -> last_component p = None ->
   out = (- ENOENT, st)) /\
  (last_component abs_newname = None ->
   fst out = (if rename_source_resolves K w server abs_oldname oldfid
              then - ENOMEM else - ENOENT) /\
   world K (snd out) = w /\
   never is_lock_rename l = true /\
   never is_backend_rename l = true).
Proof.
  intros w out l. subst l out w. split.
  - intros p -> Hleaf. unfold_rename. unfold_monad. rewrite Hleaf.
    reflexivity.
  - intros Hleaf. unfold rename_source_resolves.
    unfold_rename. unfold_monad. simp_txn. rewrite Hleaf.
    destruct abs_oldname as [abs_old|]; simp_txn;
      repeat (branch_rename; simp_txn);
      repeat split; read_trace;
      cbn [fst] in *; congruence.
Qed.

Lemma rename_rejects_missing_leaf_witness :
  run (smb_vfs_rename RefKernel.refk 1 (Some "/share/a/"%string)
         "/share/y"%string 0) RefKernel.s0 = (- ENOENT, RefKernel.s0) /\
  fst (run (smb_vfs_rename RefKernel.refk 1 (Some "/share/a"%string)
              "/share/y/"%string 0) RefKernel.s0) = - ENOMEM.
Proof.
  split.
  - destruct (rename_rejects_missing_leaf RefKernel.refk RefKernel.s0 1
                (Some "/share/a/"%string) "/share/y"%string 0) as [H _].
    apply (H "/share/a/"%string); reflexivity.
  - destruct (rename_rejects_missing_leaf RefKernel.refk RefKernel.s0 1
                (Some "/share/a"%string) "/share/y/"%string 0) as [_ H].
    destruct H as [H _]; [reflexivity | exact H].
Defined.

(** A source path ending in a separator is answered with the code of a
    missing file, and such a destination path with the code of an
    exhausted memory: neither is an invalid-name error. *)
Lemma rename_missing_leaf_is_not_invalid_name :
  let src := fst (run (smb_vfs_rename RefKernel.refk 1
                         (Some "/share/a/"%string) "/share/y"%string 0)
                      RefKernel.s0) in
  let dst := fst (run (smb_vfs_rename RefKernel.refk 1
                         (Some "/share/a"%string) "/share/y/"%string 0)
                      RefKernel.s0) in
  last_component "/share/a/" = None /\
  last_component "/share/y/" = None /\
  src = - ENOENT /\ error_kind_of src = NotFound /\
  error_kind_of src <> InvalidName /\
  dst = - ENOMEM /\ error_kind_of dst = NoMemory /\
  error_kind_of dst <> InvalidName.
Proof. vm_compute. repeat split; discriminate. Qed.

(** ** Truncating *)




(** * Further properties of the helpers *)

(** ** Reading *)

(** X1.  A read that meets a conflicting lock returns [-EAGAIN] before
    any buffer is allocated and before the backend is read; the world
    and the file flags are the ones the call started with. *)
Theorem read_lock_conflict_fails_first
    K (st : kstate K) (server fid count pos : Z) :
  let w := world K st in
  let fp := get_id_from_fidtable K w server fid in
  let filp := fp_filp K w fp in
  count <> 0 ->
  fp <> 0 ->
  S_ISDIR (i_mode K w (file_inode K w filp)) = false ->
  fst (run (smb_vfs_locks_mandatory_area K filp pos
              (to_loff (pos + count - 1)) F_RDLCK) st) = - EAGAIN ->
  let out := run (smb_vfs_read K server fid count pos) st in
  fst out = {| rd_ret := - EAGAIN; rd_buf := None; rd_pos := pos |} /\
  world K (snd out) = w /\
  f_flags K (snd out) = f_flags K st /\
  never is_alloc (emitted st (snd out)) = true /\
  never is_backend_read (emitted st (snd out)) = true.
Proof.
  intros w fp filp0 Hcount Hfp Hdir Hlock out. subst out.
  revert Hlock. unfold smb_vfs_read.
  apply Z.eqb_neq in Hcount. rewrite Hcount.
  unfold_monad. simp. apply Z.eqb_neq in Hfp.
  fold w. fold fp. rewrite Hfp. simp. fold w. fold filp0.
  unfold file_inode in Hdir. rewrite Hdir. simp. fold w. fold fp. fold filp0.
  destruct (flc_posix_empty K w _); simp; intros Hlock.
  - discriminate Hlock.
  - fold w. fold fp. fold filp0. rewrite Hlock.
    change (to_int (- EAGAIN) =? - EAGAIN) with true. simp.
    repeat split; trace_norm; reflexivity.
Qed.

Lemma read_lock_conflict_fails_first_witness :
  let w1 := RefKernel.set_locks_to_write RefKernel.w0 in
  rd_ret (fst (run (smb_vfs_read RefKernel.refk 1 7 5 0)
                   (RefKernel.boot w1))) = - EAGAIN.
Proof.
  pose proof (read_lock_conflict_fails_first RefKernel.refk
                (RefKernel.boot
                   (RefKernel.set_locks_to_write RefKernel.w0)) 1 7 5 0)
    as H.
  cbv zeta in H. destruct H as [H _].
  - discriminate.
  - vm_compute. discriminate.
  - vm_compute. reflexivity.
  - vm_compute. reflexivity.
  - cbv zeta. rewrite H. reflexivity.
Defined.

(** X2.  The buffer of a read is never lost: when the helper hands a
    buffer to its caller it is the one [vmalloc] gave and it was not
    freed; when it hands none although one was allocated, the buffer
    was freed. *)
Theorem read_buffer_is_returned_or_freed
    K (st : kstate K) (server fid count pos : Z) :
  let out := run (smb_vfs_read K server fid count pos) st in
  let l := emitted st (snd out) in
  let p := vmalloc K (world K st) count in
  match rd_buf (fst out) with
  | Some (q, _) => q = p /\ p <> 0 /\ never is_vfree l = true
  | None => existsb is_alloc l = true -> p <> 0 -> In (EvVfree p) l
  end.
Proof.
  intros out l p. subst out l p.
  unfold smb_vfs_read. unfold_monad. simp.
  repeat (branch; simp); cbn [rd_buf fst]; trace_norm;
    try (intros Halloc Hp;
         first [ discriminate Halloc
               | match goal with
                 | H : (vmalloc _ _ _ =? 0) = true |- _ =>
                     apply Z.eqb_eq in H; contradiction
                 end
               | simpl; tauto ]);
    try (repeat split; try reflexivity; apply Z.eqb_neq; assumption).
Qed.

(** X3.  Reading and writing leave the address limit as they found it:
    every [set_fs (KERNEL_DS)] is undone before the helper returns, on
    every path. *)
Theorem read_write_restore_address_limit
    K (st : kstate K) (server fid : Z) (buf : list Z) (count pos : Z)
    (sync : bool) :
  addr_limit K (snd (run (smb_vfs_read K server fid count pos) st))
  = addr_limit K st /\
  addr_limit K (snd (run (smb_vfs_write K server fid buf count pos sync) st))
  = addr_limit K st.
Proof.
  split.
  - unfold smb_vfs_read. unfold_monad. simp.
    repeat (branch; simp); reflexivity.
  - unfold smb_vfs_write. unfold_monad. simp.
    repeat (branch; simp); reflexivity.
Qed.

Lemma land_clear_twice (x b : Z) :
  Z.land (Z.land x (Z.lnot b)) (Z.lnot b) = Z.land x (Z.lnot b).
Proof. now rewrite <- Z.land_assoc, Z.land_diag. Qed.

(** X4.  A read that reaches the backend has cleared [O_DIRECT] on the
    file it reads; a read never touches any other flag of any file, and
    a read that does not reach the backend changes no flag at all. *)
Theorem read_forces_buffered_io
    K (st : kstate K) (server fid count pos : Z) :
  let w := world K st in
  let filp := fp_filp K w (get_id_from_fidtable K w server fid) in
  let out := run (smb_vfs_read K server fid count pos) st in
  let l := emitted st (snd out) in
  (forall f, Z.land (f_flags K (snd out) f) (Z.lnot O_DIRECT)
             = Z.land (f_flags K st f) (Z.lnot O_DIRECT)) /\
  (existsb is_backend_read l = true ->
   Z.land (f_flags K (snd out) filp) O_DIRECT = 0) /\
  (existsb is_backend_read l = false -> f_flags K (snd out) = f_flags K st).
Proof.
  intros w filp0 out l. subst out l filp0 w.
  unfold smb_vfs_read. unfold_monad. simp.
  repeat (branch; simp); trace_norm; simp;
    cbn [existsb is_backend_read orb];
    (split;
     [ intros f;
       first [ reflexivity
             | destruct (f =? _); [apply land_clear_twice | reflexivity] ]
     | split; intros H;
       first [ discriminate H
             | reflexivity
             | apply land_clear_same
             | rewrite Z.eqb_refl in *; discriminate ] ]).
Qed.

(** ** Writing *)

Lemma to_int_small (n : Z) : - 2 ^ 31 <= n < 2 ^ 31 -> to_int n = n.
Proof.
  intros H. unfold to_int, wrap_signed.
  change (2 ^ 32 / 2) with (2 ^ 31).
  destruct (Z.ltb_spec n 0) as [Hneg|Hpos].
  - rewrite <- (Z.mod_add n 1 (2 ^ 32)) by lia.
    rewrite Z.mod_small by lia.
    destruct (Z.ltb_spec (n + 1 * 2 ^ 32) (2 ^ 31)); lia.
  - rewrite Z.mod_small by lia.
    destruct (Z.ltb_spec n (2 ^ 31)); lia.
Qed.

(** X5.  A write that passed the lock check and whose backend call
    wrote [n] bytes reports [n] in [*written] whatever the flush does:
    with [sync] the helper flushes exactly the bytes from the old
    position to the old position plus [n] and returns the result of
    that flush; without [sync] it returns 0 and flushes nothing.  A
    backend write that fails is returned as it is, [*written] is left
    alone and nothing is flushed even with [sync]. *)
Theorem write_reports_count_despite_flush_failure
    K (st : kstate K) (server fid : Z) (buf : list Z) (count pos : Z)
    (sync : bool) :
  let w := world K st in
  let fp := get_id_from_fidtable K w server fid in
  let filp := fp_filp K w fp in
  let w1 := if oplocks_enable K w =? 0 then w
            else smb_breakII_oplock K w server fp in
  let n := fst (fst (vfs_write K w1 filp buf count pos)) in
  let w2 := snd (vfs_write K w1 filp buf count pos) in
  let flush := vfs_fsync_range K w2 filp pos (to_loff (pos + n)) 0 in
  fp <> 0 ->
  to_int (fst (run (smb_vfs_locks_mandatory_area K filp pos
                      (to_loff (pos + count - 1)) F_WRLCK) st)) <> - EAGAIN ->
  - 2 ^ 31 <= n < 2 ^ 31 ->
  let out := run (smb_vfs_write K server fid buf count pos sync) st in
  let l := emitted st (snd out) in
  (0 <= n -> sync = true ->
   wr_written (fst out) = Some n /\
   wr_ret (fst out) = to_int (fst flush) /\
   world K (snd out) = snd flush /\
   In (EvVfsFsyncRange filp pos (to_loff (pos + n)) 0) l) /\
  (0 <= n -> sync = false ->
   wr_written (fst out) = Some n /\
   wr_ret (fst out) = 0 /\
   never is_fsync l = true) /\
  (n < 0 ->
   wr_written (fst out) = None /\
   wr_ret (fst out) = n /\
   never is_fsync l = true).
Proof.
  intros w fp filp0 w1 n w2 flush Hfp Hlock Hn out l.
  subst l out flush w2 n w1 filp0 fp w.
  apply Z.eqb_neq in Hfp. apply Z.eqb_neq in Hlock.
  revert Hfp Hlock Hn.
  unfold smb_vfs_write. unfold_monad. simp.
  repeat (branch; simp); cbn [fst snd wr_written wr_ret];
    intros Hfp Hlock Hn;
    try discriminate Hfp; try discriminate Hlock;
    try (rewrite (to_int_small _ Hn) in *);
    repeat match goal with
           | H : (_ <? 0) = true |- _ => apply Z.ltb_lt in H
           | H : (_ <? 0) = false |- _ => apply Z.ltb_ge in H
           end;
    (split; [|split]); intros; try lia; try discriminate;
    repeat split; trace_norm; try reflexivity;
    try (simpl; tauto);
    match goal with
    | H : vfs_fsync_range _ _ _ _ _ _ = _ |- _ => rewrite H; reflexivity
    end.
Qed.

Lemma write_reports_count_despite_flush_failure_witness :
  let out := run (smb_vfs_write RefKernel.refk 1 8 [66; 66; 66; 66] 4 0 true)
                 RefKernel.s0 in
  wr_written (fst out) = Some 4 /\
  In (EvVfsFsyncRange 108 0 4 0) (emitted RefKernel.s0 (snd out)).
Proof.
  pose proof (write_reports_count_despite_flush_failure RefKernel.refk
                RefKernel.s0 1 8 [66; 66; 66; 66] 4 0 true) as H.
  cbv zeta in H. destruct H as [H _].
  - vm_compute. discriminate.
  - vm_compute. discriminate.
  - vm_compute. split; [discriminate | reflexivity].
  - destruct H as (Hw & _ & _ & Hin).
    + vm_compute. discriminate.
    + reflexivity.
    + split; [exact Hw | exact Hin].
Defined.

(** X6.  The lease table is locked only around the lease break.  In
    every run of the read, write and truncate helpers
    [smb_breakII_oplock] is called with [ofile_list_lock] held, the
    lock is dropped before the backend is read, written, flushed or
    truncated, and it is free when the helper returns. *)
Theorem lease_lock_is_not_held_across_io
    K (st : kstate K) (server fid : Z) (name : option string)
    (buf : list Z) (count pos size : Z) (sync : bool) :
  lease_lock_ok false
    (emitted st (snd (run (smb_vfs_read K server fid count pos) st)))
  = true /\
  lease_lock_ok false
    (emitted st (snd (run (smb_vfs_write K server fid buf count pos sync)
                          st)))
  = true /\
  lease_lock_ok false
    (emitted st (snd (run (smb_vfs_truncate K server name fid size) st)))
  = true.
Proof.
  split; [|split].
  - unfold smb_vfs_read. unfold_monad. simp.
    repeat (branch; simp); trace_norm; reflexivity.
  - unfold smb_vfs_write. unfold_monad. simp.
    repeat (branch; simp); trace_norm; reflexivity.
  - unfold smb_vfs_truncate. unfold_monad. simp.
    destruct name; simp;
      repeat (first [ branch
                    | match goal with
                      | |- context [if negb ?c then _ else _] =>
                          destruct c; cbn [negb]
                      end ]; simp);
      trace_norm; reflexivity.
Qed.

(** ** Handles that are not in the table *)

(** X7.  A file identifier the table does not know makes every helper
    that takes one return [-ENOENT] right after the lookup: nothing
    else is called, no output is produced and the state only records
    the lookup. *)
Theorem stale_fid_is_not_found
    K (st : kstate K) (server fid : Z) (buf : list Z) (count pos size : Z)
    (sync : bool) (attrs : iattr) (abs_newname : string) :
  get_id_from_fidtable K (world K st) server fid = 0 ->
  let st' := logged st [EvGetId server fid] in
  (count <> 0 ->
   run (smb_vfs_read K server fid count pos) st
   = ({| rd_ret := - ENOENT; rd_buf := None; rd_pos := pos |}, st')) /\
  run (smb_vfs_write K server fid buf count pos sync) st
  = ({| wr_ret := - ENOENT; wr_written := None; wr_pos := pos |}, st') /\
  run (smb_vfs_setattr K server None fid attrs) st
  = ({| sa_ret := - ENOENT; sa_attrs := attrs |}, st') /\
  run (smb_vfs_truncate K server None fid size) st = (- ENOENT, st') /\
  run (smb_vfs_rename K server None abs_newname fid) st = (- ENOENT, st').
Proof.
  intros Hfp st'. subst st'. repeat split.
  - intros Hcount. apply Z.eqb_neq in Hcount.
    unfold smb_vfs_read. rewrite Hcount. unfold_monad. simp.
    rewrite Hfp. reflexivity.
  - unfold smb_vfs_write. unfold_monad. simp. rewrite Hfp. reflexivity.
  - unfold smb_vfs_setattr. unfold_monad. simp. rewrite Hfp. reflexivity.
  - unfold smb_vfs_truncate. unfold_monad. simp. rewrite Hfp. reflexivity.
  - unfold_rename. unfold_monad. simp. rewrite Hfp. reflexivity.
Qed.

Lemma stale_fid_is_not_found_witness :
  fst (run (smb_vfs_truncate RefKernel.refk 1 None 99 0) RefKernel.s0)
  = - ENOENT.
Proof.
  destruct (stale_fid_is_not_found RefKernel.refk RefKernel.s0 1 99 [] 0 0 0
              false
              {| ia_valid := 0; ia_mode := 0; ia_uid := 0; ia_gid := 0;
                 ia_size := 0 |} EmptyString)
    as (_ & _ & _ & H & _).
  - vm_compute. reflexivity.
  - rewrite H. reflexivity.
Defined.

(** ** Setting attributes *)

(** X8.  A request with no field set, or a request on a symbolic link
    that only sets the mode, is a successful no-op: the helper returns
    0 with an empty [ia_valid], [notify_change] is not called, no write
    access is asked for, the world is unchanged and the path reference
    is dropped. *)
Theorem setattr_without_fields_is_a_noop
    K (st : kstate K) (server : Z) (name : option string) (fid : Z)
    (attrs : iattr) (d : Z) :
  let w := world K st in
  let mode := i_mode K w (d_inode K w d) in
  setattr_target K w server name fid = Some d ->
  ia_valid attrs = 0 \/ (S_ISLNK mode = true /\ ia_valid attrs = ATTR_MODE) ->
  let out := run (smb_vfs_setattr K server name fid attrs) st in
  let l := emitted st (snd out) in
  sa_ret (fst out) = 0 /\
  ia_valid (sa_attrs (fst out)) = 0 /\
  world K (snd out) = w /\
  never is_notify_change l = true /\
  never is_get_write_access l = true /\
  held [] l = Some [].
Proof.
  intros w mode Htarget Hempty out l. subst l out.
  assert (Hvalid :
            ia_valid (if S_ISLNK mode
                      then set_ia_valid attrs
                             (Z.land (ia_valid attrs) (Z.lnot ATTR_MODE))
                      else attrs) = 0).
  { destruct Hempty as [H0|[Hlnk H1]].
    - destruct (S_ISLNK mode); cbn [set_ia_valid ia_valid]; rewrite H0;
        reflexivity.
    - rewrite Hlnk. cbn [set_ia_valid ia_valid]. rewrite H1. reflexivity. }
  subst mode. unfold setattr_target in Htarget.
  unfold smb_vfs_setattr. unfold_monad. simp. fold w.
  destruct name as [nm|].
  - destruct (kern_path K w nm 0) as [err pth] eqn:Epath.
    destruct (err =? 0) eqn:Eerr; [|discriminate].
    injection Htarget as <-. simp. fold w. rewrite Epath. simp.
    rewrite Eerr. simp. fold w. rewrite Hvalid. cbn [Z.eqb]. simp.
    repeat split; trace_norm; try assumption;
      cbn [never forallb held acquired released is_notify_change
           is_get_write_access negb andb];
      rewrite ?Eerr, ?resource_eqb_refl; reflexivity.
  - set (fp := get_id_from_fidtable K w server fid) in *.
    destruct (fp =? 0) eqn:Efp; [discriminate|].
    injection Htarget as <-. simp. fold w. fold fp. rewrite Efp. simp.
    fold w. fold fp. rewrite Hvalid. cbn [Z.eqb]. simp.
    repeat split; trace_norm; try assumption; reflexivity.
Qed.

Lemma setattr_without_fields_is_a_noop_witness :
  sa_ret (fst (run (smb_vfs_setattr RefKernel.refk 1
                      (Some "/share/a.txt"%string) 0
                      {| ia_valid := 0; ia_mode := 0x1FF; ia_uid := 0;
                         ia_gid := 0; ia_size := 0 |}) RefKernel.s0)) = 0.
Proof.
  destruct (setattr_without_fields_is_a_noop RefKernel.refk RefKernel.s0 1
              (Some "/share/a.txt"%string) 0
              {| ia_valid := 0; ia_mode := 0x1FF; ia_uid := 0;
                 ia_gid := 0; ia_size := 0 |} RefKernel.a_txt)
    as (H & _).
  - vm_compute. reflexivity.
  - left. reflexivity.
  - exact H.
Defined.

Lemma check_attrs_mode_request_bit K (w : W K) inode attrs :
  Z.testbit (ia_valid (smb_check_attrs K w inode attrs)) 0
  = Z.testbit (ia_valid attrs) 0.
Proof.
  unfold smb_check_attrs. cbv zeta.
  repeat match goal with
         | |- context [if ?c then _ else _] => destruct c
         end;
    cbn [set_ia_mode set_ia_valid ia_valid];
    rewrite ?Z.lor_spec;
    change (Z.testbit ATTR_KILL_PRIV 0) with false;
    change (Z.testbit ATTR_KILL_SUID 0) with false;
    change (Z.testbit ATTR_KILL_SGID 0) with false;
    rewrite ?orb_false_r; reflexivity.
Qed.

(** What [smb_vfs_setattr] hands to [notify_change]: the change time is
    always asked for, and never the mode of a symbolic link. *)
Lemma setattr_final_attrs K (w : W K) inode attrs (lnk : bool) :
  let a1 := if lnk
            then set_ia_valid attrs (Z.land (ia_valid attrs) (Z.lnot ATTR_MODE))
            else attrs in
  let a2 := smb_check_attrs K w inode a1 in
  let a3 := set_ia_valid a2 (Z.lor (ia_valid a2) ATTR_CTIME) in
  negb (Z.land (ia_valid a3) ATTR_CTIME =? 0)
  && (negb lnk || (Z.land (ia_valid a3) ATTR_MODE =? 0)) = true.
Proof.
  intros a1 a2 a3. subst a3. cbn [set_ia_valid ia_valid].
  apply andb_true_intro. split.
  - apply negb_true_iff, Z.eqb_neq, lor_has_bit. discriminate.
  - destruct lnk; [|reflexivity]. cbn [negb orb].
    change ATTR_MODE with (2 ^ 0). rewrite land_pow2_eqb by lia.
    rewrite Z.lor_spec. change (Z.testbit ATTR_CTIME 0) with false.
    rewrite orb_false_r. subst a2.
    rewrite check_attrs_mode_request_bit. subst a1.
    cbn [set_ia_valid ia_valid].
    rewrite Z.land_spec, Z.lnot_spec by lia.
    change (Z.testbit (2 ^ 0) 0) with true. cbn [negb].
    now rewrite andb_false_r.
Qed.

(** X9.  Whenever [smb_vfs_setattr] calls [notify_change] it does so
    between the lock and the unlock of the [i_mutex] of the target
    inode, with [ATTR_CTIME] set in the attributes, and with
    [ATTR_MODE] cleared when the target is a symbolic link. *)
Theorem setattr_notify_change_discipline
    K (st : kstate K) (server : Z) (name : option string) (fid : Z)
    (attrs : iattr) (d : Z) :
  let w := world K st in
  let inode := d_inode K w d in
  let lnk := S_ISLNK (i_mode K w inode) in
  setattr_target K w server name fid = Some d ->
  let out := run (smb_vfs_setattr K server name fid attrs) st in
  notify_change_ok inode
    (fun a => negb (Z.land (ia_valid a) ATTR_CTIME =? 0)
              && (negb lnk || (Z.land (ia_valid a) ATTR_MODE =? 0)))
    (emitted st (snd out)) = true.
Proof.
  intros w inode lnk Htarget out. subst out.
  pose proof (setattr_final_attrs K w inode attrs lnk) as Hfinal.
  cbv zeta in Hfinal.
  unfold setattr_target in Htarget.
  unfold smb_vfs_setattr. unfold_monad. simp. fold w.
  destruct name as [nm|].
  - destruct (kern_path K w nm 0) as [err pth] eqn:Epath.
    destruct (err =? 0) eqn:Eerr; [|discriminate].
    injection Htarget as <-. simp. fold w. rewrite Epath. simp.
    rewrite Eerr. simp. fold w. fold inode. fold lnk.
    repeat (branch; simp); trace_norm;
      cbn [notify_change_ok];
      rewrite ?Z.eqb_refl, ?Hfinal; reflexivity.
  - set (fp := get_id_from_fidtable K w server fid) in *.
    destruct (fp =? 0) eqn:Efp; [discriminate|].
    injection Htarget as <-. simp. fold w. fold fp. rewrite Efp. simp.
    fold w. fold fp. fold inode. fold lnk.
    repeat (branch; simp); trace_norm;
      cbn [notify_change_ok];
      rewrite ?Z.eqb_refl, ?Hfinal; reflexivity.
Qed.

Lemma setattr_notify_change_discipline_witness :
  let attrs := {| ia_valid := ATTR_MODE + ATTR_UID; ia_mode := 0xDC0;
                  ia_uid := 0; ia_gid := 1000; ia_size := 0 |} in
  let l := emitted RefKernel.s0
             (snd (run (smb_vfs_setattr RefKernel.refk 1 None 7 attrs)
                       RefKernel.s0)) in
  existsb is_notify_change l = true /\
  notify_change_ok RefKernel.a_txt
    (fun a => negb (Z.land (ia_valid a) ATTR_CTIME =? 0)) l = true.
Proof.
  split.
  - vm_compute. reflexivity.
  - pose proof (setattr_notify_change_discipline RefKernel.refk
                  RefKernel.s0 1 None 7
                  {| ia_valid := ATTR_MODE + ATTR_UID; ia_mode := 0xDC0;
                     ia_uid := 0; ia_gid := 1000; ia_size := 0 |}
                  RefKernel.a_txt) as H.
    cbv zeta in H.
    assert (Htarget : setattr_target RefKernel.refk
                        (world RefKernel.refk RefKernel.s0) 1 None 7
                      = Some RefKernel.a_txt) by (vm_compute; reflexivity).
    specialize (H Htarget). revert H. vm_compute. intros _. reflexivity.
Defined.


(** ** Sanitizing attributes *)

Lemma permission_bits_end_at_12 (n : Z) :
  12 <= n ->
  Z.testbit S_IALLUGO n = false /\ Z.testbit S_ISUID n = false /\
  Z.testbit S_ISGID n = false.
Proof.
  intros Hn. repeat split; apply Z.bits_above_log2;
    first [ unfold S_IALLUGO, S_ISUID, S_ISGID; lia
          | change (Z.log2 S_IALLUGO) with 11; lia
          | change (Z.log2 S_ISUID) with 11; lia
          | change (Z.log2 S_ISGID) with 10; lia ].
Qed.

(** The bits of the mode [smb_check_attrs] leaves in a request that
    sets the mode: above the permission bits they are those of the
    inode, and a permission bit is set only when the request had it. *)
Lemma check_attrs_mode_bits K (w : W K) inode attrs (n : Z) :
  Z.land (ia_valid attrs) ATTR_MODE <> 0 ->
  0 <= n ->
  let r := smb_check_attrs K w inode attrs in
  (12 <= n -> Z.testbit (ia_mode r) n = Z.testbit (i_mode K w inode) n) /\
  (n < 12 -> Z.testbit (ia_mode r) n = true ->
   Z.testbit (ia_mode attrs) n = true).
Proof.
  intros Hmode Hn r. subst r.
  assert (Hhigh : 12 <= n ->
                  Z.testbit (sanitized_mode K w inode attrs) n
                  = Z.testbit (i_mode K w inode) n).
  { intros H12. unfold sanitized_mode.
    rewrite Z.lor_spec, !Z.land_spec, Z.lnot_spec by lia.
    destruct (permission_bits_end_at_12 n H12) as (Hall & _).
    rewrite Hall.
    cbn [negb]. now rewrite andb_false_r, andb_true_r. }
  assert (Hsuid : 12 <= n -> Z.testbit S_ISUID n = false)
    by (intros H12; apply (permission_bits_end_at_12 n H12)).
  assert (Hsgid : 12 <= n -> Z.testbit S_ISGID n = false)
    by (intros H12; apply (permission_bits_end_at_12 n H12)).
  apply Z.eqb_neq in Hmode.
  unfold smb_check_attrs. rewrite Hmode.
  cbn [set_ia_mode set_ia_valid ia_valid ia_mode ia_uid ia_gid ia_size].
  fold (sanitized_mode K w inode attrs).
  repeat match goal with
         | |- context [if ?c then _ else _] => destruct c
         end;
    cbn [set_ia_mode set_ia_valid ia_valid ia_mode];
    (split;
     [ intros H12; rewrite ?Z.land_spec, ?Z.lnot_spec by lia;
       rewrite ?Hsuid, ?Hsgid by assumption; cbn [negb];
       rewrite ?andb_true_r; auto
     | intros H12; rewrite ?Z.land_spec;
       intros Hbit; repeat (apply andb_prop in Hbit; destruct Hbit as [Hbit _]);
       rewrite sanitized_mode_bit in Hbit by lia; exact Hbit ]).
Qed.

(** X11.  Setting the mode through [smb_check_attrs] cannot change the
    type of the object or grant a permission bit that was not asked
    for: everything above the permission bits, the file type included,
    is taken from the inode, and the permission bits of the result are
    among those of the request.  A request that does not set the mode
    keeps its mode field; owner, group and size are never changed. *)
Theorem check_attrs_keeps_file_type
    K (w : W K) (inode : Z) (attrs : iattr) :
  let r := smb_check_attrs K w inode attrs in
  (Z.land (ia_valid attrs) ATTR_MODE <> 0 ->
   Z.land (ia_mode r) (Z.lnot S_IALLUGO)
   = Z.land (i_mode K w inode) (Z.lnot S_IALLUGO) /\
   Z.land (ia_mode r) S_IFMT = Z.land (i_mode K w inode) S_IFMT /\
   Z.land (Z.land (ia_mode r) S_IALLUGO) (Z.lnot (ia_mode attrs)) = 0) /\
  (Z.land (ia_valid attrs) ATTR_MODE = 0 -> ia_mode r = ia_mode attrs) /\
  ia_uid r = ia_uid attrs /\ ia_gid r = ia_gid attrs /\
  ia_size r = ia_size attrs.
Proof.
  intros r. split; [|split].
  - intros Hmode.
    assert (Hhigh : Z.land (ia_mode r) (Z.lnot S_IALLUGO)
                    = Z.land (i_mode K w inode) (Z.lnot S_IALLUGO)).
    { apply Z.bits_inj'. intros n Hn. rewrite !Z.land_spec.
      destruct (Z.ltb_spec n 12) as [Hlt|Hge].
      - rewrite Z.lnot_spec by lia.
        assert (Hm : Z.testbit S_IALLUGO n = true).
        { change S_IALLUGO with (Z.ones 12). apply Z.ones_spec_low. lia. }
        rewrite Hm. cbn [negb]. now rewrite !andb_false_r.
      - destruct (check_attrs_mode_bits K w inode attrs n Hmode Hn)
          as [Hh _].
        fold r in Hh. now rewrite Hh by lia. }
    split; [exact Hhigh|split].
    + change S_IFMT with (Z.land (Z.lnot S_IALLUGO) S_IFMT).
      now rewrite !Z.land_assoc, Hhigh.
    + apply Z.bits_inj'. intros n Hn.
      rewrite !Z.land_spec, Z.lnot_spec, Z.bits_0 by lia.
      destruct (Z.ltb_spec n 12) as [Hlt|Hge].
      * destruct (check_attrs_mode_bits K w inode attrs n Hmode Hn)
          as [_ Hl].
        fold r in Hl.
        destruct (Z.testbit (ia_mode r) n) eqn:Hb; [|reflexivity].
        rewrite (Hl Hlt eq_refl). cbn [negb]. now rewrite andb_false_r.
      * destruct (permission_bits_end_at_12 n Hge) as (Hall & _).
        rewrite Hall. now rewrite andb_false_r.
  - intros Hmode. subst r. apply Z.eqb_eq in Hmode.
    unfold smb_check_attrs. rewrite Hmode.
    destruct (_ && _); [|reflexivity].
    cbn [set_ia_mode set_ia_valid ia_valid ia_mode].
    assert (Hm' : (Z.land (Z.lor (ia_valid attrs) ATTR_KILL_PRIV) ATTR_MODE
                   =? 0) = true).
    { change ATTR_MODE with (2 ^ 0) in *. rewrite land_pow2_eqb in * by lia.
      rewrite Z.lor_spec.
      destruct (Z.testbit (ia_valid attrs) 0); [discriminate | reflexivity]. }
    rewrite Hm'. reflexivity.
  - subst r. unfold smb_check_attrs. cbv zeta.
    repeat match goal with
           | |- context [if ?c then _ else _] => destruct c
           end; repeat split; reflexivity.
Qed.

Lemma check_attrs_keeps_file_type_witness :
  let r := smb_check_attrs RefKernel.refk RefKernel.w0 RefKernel.a_txt
             {| ia_valid := ATTR_MODE; ia_mode := S_IFDIR + 0x1FF;
                ia_uid := 0; ia_gid := 0; ia_size := 0 |} in
  Z.land (ia_mode r) S_IFMT = 0x8000.
Proof.
  destruct (check_attrs_keeps_file_type RefKernel.refk RefKernel.w0
              RefKernel.a_txt
              {| ia_valid := ATTR_MODE; ia_mode := S_IFDIR + 0x1FF;
                 ia_uid := 0; ia_gid := 0; ia_size := 0 |}) as (H & _).
  destruct H as (_ & H & _).
  - vm_compute. discriminate.
  - cbv zeta. rewrite H. vm_compute. reflexivity.
Defined.

(** X12.  Nothing is revoked on a directory, or when the request
    leaves owner and group as they are: [ia_valid] comes back
    unchanged (no [ATTR_KILL_*] flag is added) and a mode that is set
    is only masked and completed with the type of the inode, its
    set-user-ID and set-group-ID bits kept as requested. *)
Theorem check_attrs_revokes_nothing_without_chown
    K (w : W K) (inode : Z) (attrs : iattr) :
  S_ISDIR (i_mode K w inode) = true \/
  changes_ownership K w inode attrs = false ->
  let r := smb_check_attrs K w inode attrs in
  ia_valid r = ia_valid attrs /\
  ia_mode r = if Z.land (ia_valid attrs) ATTR_MODE =? 0
              then ia_mode attrs
              else sanitized_mode K w inode attrs.
Proof.
  intros Hno r. subst r. unfold smb_check_attrs, sanitized_mode.
  assert (Hcond :
            negb (S_ISDIR (i_mode K w inode))
            && changes_ownership K w inode attrs = false).
  { destruct Hno as [-> | ->]; [reflexivity | apply andb_false_r]. }
  unfold changes_ownership in Hcond.
  destruct (Z.land (ia_valid attrs) ATTR_MODE =? 0);
    cbn [set_ia_mode set_ia_valid ia_valid ia_mode ia_uid ia_gid];
    rewrite Hcond; split; reflexivity.
Qed.

Lemma check_attrs_revokes_nothing_without_chown_witness :
  let attrs := {| ia_valid := ATTR_MODE + ATTR_UID; ia_mode := 0xDF8;
                  ia_uid := 0; ia_gid := 1000; ia_size := 0 |} in
  let r := smb_check_attrs RefKernel.refk RefKernel.w0 RefKernel.dir_a
             attrs in
  ia_valid r = ia_valid attrs /\ ia_mode r = S_IFDIR + 0xDF8.
Proof.
  destruct (check_attrs_revokes_nothing_without_chown RefKernel.refk
              RefKernel.w0 RefKernel.dir_a
              {| ia_valid := ATTR_MODE + ATTR_UID; ia_mode := 0xDF8;
                 ia_uid := 0; ia_gid := 1000; ia_size := 0 |}) as [Hv Hm].
  - left. vm_compute. reflexivity.
  - split; [exact Hv | rewrite Hm; vm_compute; reflexivity].
Defined.

Lemma check_attrs_valid_bit K (w : W K) inode attrs (k : Z) :
  0 <= k -> k <> 11 -> k <> 12 -> k <> 14 ->
  Z.testbit (ia_valid (smb_check_attrs K w inode attrs)) k
  = Z.testbit (ia_valid attrs) k.
Proof.
  intros Hk H11 H12 H14.
  unfold smb_check_attrs. cbv zeta.
  repeat match goal with
         | |- context [if ?c then _ else _] => destruct c
         end;
    cbn [set_ia_mode set_ia_valid ia_valid];
    rewrite ?Z.lor_spec;
    change ATTR_KILL_PRIV with (2 ^ 14);
    change ATTR_KILL_SUID with (2 ^ 11);
    change ATTR_KILL_SGID with (2 ^ 12);
    rewrite ?Z.pow2_bits_false by lia;
    rewrite ?orb_false_r; reflexivity.
Qed.

Lemma check_attrs_owner_fields K (w : W K) inode attrs :
  ia_uid (smb_check_attrs K w inode attrs) = ia_uid attrs /\
  ia_gid (smb_check_attrs K w inode attrs) = ia_gid attrs.
Proof.
  unfold smb_check_attrs. cbv zeta.
  repeat match goal with
         | |- context [if ?c then _ else _] => destruct c
         end; split; reflexivity.
Qed.

Lemma check_attrs_ownership_stable K (w : W K) inode attrs :
  changes_ownership K w inode (smb_check_attrs K w inode attrs)
  = changes_ownership K w inode attrs.
Proof.
  unfold changes_ownership.
  destruct (check_attrs_owner_fields K w inode attrs) as [-> ->].
  change ATTR_UID with (2 ^ 1). change ATTR_GID with (2 ^ 2).
  rewrite !land_pow2_eqb by lia.
  now rewrite !check_attrs_valid_bit by lia.
Qed.

Lemma check_attrs_no_chown K (w : W K) inode attrs :
  negb (S_ISDIR (i_mode K w inode)) && changes_ownership K w inode attrs
  = false ->
  smb_check_attrs K w inode attrs
  = {| ia_valid := ia_valid attrs;
       ia_mode := if Z.land (ia_valid attrs) ATTR_MODE =? 0
                  then ia_mode attrs
                  else sanitized_mode K w inode attrs;
       ia_uid := ia_uid attrs; ia_gid := ia_gid attrs;
       ia_size := ia_size attrs |}.
Proof.
  intros Hcond. unfold smb_check_attrs, sanitized_mode.
  unfold changes_ownership in Hcond.
  destruct (Z.land (ia_valid attrs) ATTR_MODE =? 0);
    cbn [set_ia_mode set_ia_valid ia_valid ia_mode ia_uid ia_gid];
    rewrite Hcond; [destruct attrs|]; reflexivity.
Qed.

Lemma land_lnot_absorb (x b : Z) : Z.land x b = 0 -> Z.land x (Z.lnot b) = x.
Proof.
  intros H. apply Z.bits_inj'. intros n Hn.
  rewrite Z.land_spec, Z.lnot_spec by lia.
  assert (Hb : Z.testbit (Z.land x b) n = false) by (rewrite H; apply Z.bits_0).
  rewrite Z.land_spec in Hb.
  destruct (Z.testbit x n), (Z.testbit b n); try reflexivity; discriminate.
Qed.

(** A mode whose bits above the permission bits are those of the inode
    is a fixed point of the masking step. *)
Lemma sanitized_mode_fixed K (w : W K) inode attrs :
  (forall n, 12 <= n ->
             Z.testbit (ia_mode attrs) n = Z.testbit (i_mode K w inode) n) ->
  sanitized_mode K w inode attrs = ia_mode attrs.
Proof.
  intros Hhigh. apply Z.bits_inj'. intros n Hn.
  destruct (Z.ltb_spec n 12).
  - apply sanitized_mode_bit. lia.
  - unfold sanitized_mode.
    rewrite Z.lor_spec, !Z.land_spec, Z.lnot_spec by lia.
    destruct (permission_bits_end_at_12 n H) as (-> & _).
    cbn [negb]. rewrite andb_false_r, andb_true_r. cbn [orb].
    symmetry. now apply Hhigh.
Qed.

Lemma lor_absorb_priv (v : Z) :
  Z.testbit v 14 = true -> Z.lor v ATTR_KILL_PRIV = v.
Proof.
  intros H. apply Z.bits_inj'. intros n Hn.
  rewrite Z.lor_spec. change ATTR_KILL_PRIV with (2 ^ 14).
  rewrite Z.pow2_bits_eqb by lia.
  destruct (Z.eqb_spec 14 n) as [<-|_].
  - now rewrite H.
  - apply orb_false_r.
Qed.

(** After a change of owner on a non-directory [ATTR_KILL_PRIV] is
    set. *)
Lemma check_attrs_sets_kill_priv K (w : W K) inode attrs :
  S_ISDIR (i_mode K w inode) = false ->
  changes_ownership K w inode attrs = true ->
  Z.testbit (ia_valid (smb_check_attrs K w inode attrs)) 14 = true.
Proof.
  intros Hdir Hown.
  destruct (Z.eq_dec (Z.land (ia_valid attrs) ATTR_MODE) 0) as [H0|H1].
  - rewrite check_attrs_chown_without_mode by assumption.
    cbn [ia_valid]. rewrite !Z.lor_spec.
    change (Z.testbit ATTR_KILL_PRIV 14) with true.
    now rewrite orb_true_r.
  - rewrite check_attrs_chown_with_mode by assumption.
    cbn [ia_valid]. rewrite Z.lor_spec.
    change (Z.testbit ATTR_KILL_PRIV 14) with true.
    apply orb_true_r.
Qed.

(** After a change of owner together with a change of mode on a
    non-directory: set-user-ID is clear in the mode left in the
    request, the group-execute test reads the same on it as on the
    sanitized request, and set-group-ID is clear when it succeeds. *)
Lemma check_attrs_revokes_privilege_bits K (w : W K) inode attrs :
  S_ISDIR (i_mode K w inode) = false ->
  changes_ownership K w inode attrs = true ->
  Z.land (ia_valid attrs) ATTR_MODE <> 0 ->
  let r := smb_check_attrs K w inode attrs in
  Z.land (ia_mode r) S_ISUID = 0 /\
  (Z.land (ia_mode r) S_IXGRP =? 0)
  = (Z.land (Z.land (sanitized_mode K w inode attrs) (Z.lnot S_ISUID))
            S_IXGRP =? 0) /\
  ((Z.land (ia_mode r) S_IXGRP =? 0) = false ->
   Z.land (ia_mode r) S_ISGID = 0).
Proof.
  intros Hdir Hown Hmode r. subst r.
  rewrite check_attrs_chown_with_mode by assumption.
  cbv zeta. cbn [ia_mode].
  set (m := Z.land (sanitized_mode K w inode attrs) (Z.lnot S_ISUID)).
  assert (Hu : Z.land m S_ISUID = 0) by (subst m; apply land_clear_same).
  destruct (Z.land m S_IXGRP =? 0) eqn:Ex.
  - repeat split; auto. intros H. rewrite Ex in H. discriminate.
  - assert (Hx : (Z.land (Z.land m (Z.lnot S_ISGID)) S_IXGRP =? 0) = false).
    { change S_IXGRP with (2 ^ 3) in *. rewrite land_pow2_eqb in * by lia.
      rewrite Z.land_spec, Z.lnot_spec by lia.
      change (Z.testbit S_ISGID 3) with false. cbn [negb].
      now rewrite andb_true_r. }
    repeat split.
    + now apply land_clear_other.
    + exact Hx.
    + intros _. apply land_clear_same.
Qed.

(** X13.  Sanitizing is idempotent: a request that went through
    [smb_check_attrs] is returned unchanged when it goes through it
    again for the same inode. *)
Theorem check_attrs_is_idempotent
    K (w : W K) (inode : Z) (attrs : iattr) :
  smb_check_attrs K w inode (smb_check_attrs K w inode attrs)
  = smb_check_attrs K w inode attrs.
Proof.
  set (r := smb_check_attrs K w inode attrs).
  assert (Hmodebit : (Z.land (ia_valid r) ATTR_MODE =? 0)
                     = (Z.land (ia_valid attrs) ATTR_MODE =? 0)).
  { change ATTR_MODE with (2 ^ 0). rewrite !land_pow2_eqb by lia.
    subst r. now rewrite check_attrs_valid_bit by lia. }
  assert (Hown : changes_ownership K w inode r
                 = changes_ownership K w inode attrs)
    by apply check_attrs_ownership_stable.
  assert (Hfixed : Z.land (ia_valid attrs) ATTR_MODE <> 0 ->
                   sanitized_mode K w inode r = ia_mode r).
  { intros Hm. apply sanitized_mode_fixed. intros n Hn.
    apply (check_attrs_mode_bits K w inode attrs n Hm); lia. }
  destruct (negb (S_ISDIR (i_mode K w inode))
            && changes_ownership K w inode attrs) eqn:Hcond.
  - apply andb_prop in Hcond. destruct Hcond as [Hdir Hch].
    apply negb_true_iff in Hdir.
    destruct (Z.eq_dec (Z.land (ia_valid attrs) ATTR_MODE) 0) as [H0|H1].
    + rewrite check_attrs_chown_without_mode;
        [| assumption | now rewrite Hown
         | apply Z.eqb_eq; rewrite Hmodebit; now apply Z.eqb_eq ].
      subst r. rewrite check_attrs_chown_without_mode by assumption.
      cbn [ia_valid ia_mode ia_uid ia_gid ia_size]. f_equal.
      apply Z.bits_inj'. intros n Hn. rewrite !Z.lor_spec.
      destruct (Z.testbit (ia_valid attrs) n), (Z.testbit ATTR_KILL_PRIV n),
        (Z.testbit ATTR_KILL_SUID n), (Z.testbit ATTR_KILL_SGID n);
        reflexivity.
    + rewrite check_attrs_chown_with_mode;
        [| assumption | now rewrite Hown
         | apply Z.eqb_neq; rewrite Hmodebit; now apply Z.eqb_neq ].
      rewrite (Hfixed H1). cbv zeta.
      destruct (check_attrs_revokes_privilege_bits K w inode attrs Hdir Hch H1)
        as (Hsuid & Hx & Hsgid).
      fold r in Hsuid, Hx, Hsgid.
      rewrite (land_lnot_absorb _ _ Hsuid).
      pose proof (check_attrs_sets_kill_priv K w inode attrs Hdir Hch) as Hp.
      fold r in Hp. clearbody r.
      destruct (Z.land (ia_mode r) S_IXGRP =? 0) eqn:Ex.
      * destruct r as [v m u g sz].
        cbn [ia_valid ia_mode ia_uid ia_gid ia_size] in *.
        f_equal. now apply lor_absorb_priv.
      * rewrite (land_lnot_absorb _ _ (Hsgid eq_refl)).
        destruct r as [v m u g sz].
        cbn [ia_valid ia_mode ia_uid ia_gid ia_size] in *.
        f_equal. now apply lor_absorb_priv.
  - subst r. rewrite (check_attrs_no_chown K w inode attrs Hcond).
    rewrite check_attrs_no_chown.
    + cbn [ia_valid ia_mode ia_uid ia_gid ia_size]. f_equal.
      destruct (Z.land (ia_valid attrs) ATTR_MODE =? 0) eqn:Em;
        [reflexivity|].
      apply sanitized_mode_fixed. cbn [ia_mode]. intros n Hn.
      unfold sanitized_mode.
      rewrite Z.lor_spec, !Z.land_spec, Z.lnot_spec by lia.
      destruct (permission_bits_end_at_12 n Hn) as (-> & _).
      cbn [negb]. now rewrite andb_false_r, andb_true_r.
    + unfold changes_ownership in *. cbn [ia_valid ia_uid ia_gid].
      exact Hcond.
Qed.

(** ** Renaming *)

(** X14.  In every run of [smb_vfs_rename] the directory entries are
    looked up and the backend rename is called only while the two
    directory locks are held: each [lookup_one_len] and [vfs_rename]
    sits between [lock_rename] and [unlock_rename]. *)
Theorem rename_works_under_the_locks
    K (st : kstate K) (server : Z) (abs_oldname : option string)
    (abs_newname : string) (oldfid : Z) :
  rename_lock_ok false
    (emitted st
       (snd (run (smb_vfs_rename K server abs_oldname abs_newname oldfid)
                 st))) = true.
Proof.
  unfold_rename. unfold_monad. simp_txn.
  destruct abs_oldname as [abs_old|]; simp_txn;
    repeat (branch_rename; simp_txn);
    trace_norm; reflexivity.
Qed.

Lemma rename_after_resolve
    K (st : kstate K) server abs_oldname abs_newname oldfid t :
  fst (rename_resolve K server abs_oldname abs_newname oldfid st) = Next t ->
  run (smb_vfs_rename K server abs_oldname abs_newname oldfid) st
  = run (rename_locked K t)
        (snd (rename_resolve K server abs_oldname abs_newname oldfid st)).
Proof.
  intros H. unfold smb_vfs_rename, run, bind.
  destruct (rename_resolve K server abs_oldname abs_newname oldfid st)
    as [r st1].
  cbn [fst snd] in *. subst r. reflexivity.
Qed.

Lemma rename_resolve_keeps_world
    K (st : kstate K) server abs_oldname abs_newname oldfid :
  world K (snd (rename_resolve K server abs_oldname abs_newname oldfid st))
  = world K st.
Proof.
  unfold rename_resolve. unfold_monad. simp_txn.
  destruct abs_oldname as [abs_old|]; simp_txn;
    repeat (branch_rename; simp_txn); reflexivity.
Qed.

(** X15.  A rename whose source cannot be used fails before the
    destination is touched.  Once the parents are resolved: a lookup
    error on the source name is returned as it is, and a source that
    does not exist gives [-ENOENT]; in both cases the only calls after
    [lock_rename] are the source lookup and the releases, so
    [vfs_rename] is not called, and the world is unchanged. *)
Theorem rename_fails_on_unusable_source
    K (st : kstate K) (server : Z) (abs_oldname : option string)
    (abs_newname : string) (oldfid : Z) (t : rename_txn) :
  let w := world K st in
  let st1 := snd (rename_resolve K server abs_oldname abs_newname oldfid st) in
  let dold := rename_source K t w in
  fst (rename_resolve K server abs_oldname abs_newname oldfid st) = Next t ->
  let out := run (smb_vfs_rename K server abs_oldname abs_newname oldfid) st in
  let l := emitted st1 (snd out) in
  (forall nm, oldname t = Some nm -> IS_ERR dold = true ->
   fst out = to_int dold /\
   world K (snd out) = w /\
   never is_backend_rename l = true /\
   List.length (filter is_lookup l) = 1%nat) /\
  ((oldname t = None \/ IS_ERR dold = false) -> d_inode K w dold = 0 ->
   fst out = - ENOENT /\
   world K (snd out) = w /\
   never is_backend_rename l = true /\
   List.length (filter is_lookup l) = Nat.b2n (negb (is_none (oldname t)))).
Proof.
  intros w st1 dold Hres out l. subst l out.
  rewrite (rename_after_resolve _ _ _ _ _ _ _ Hres). fold st1.
  assert (Hw : world K st1 = w) by apply rename_resolve_keeps_world.
  clearbody st1. clear Hres.
  unfold rename_locked. unfold_monad. simp_txn. rewrite Hw. fold dold.
  split.
  - intros nm Hnm Herr. rewrite Hnm. simp_txn. rewrite Herr. simp_txn.
    destruct (oldpath_p t); simp_txn;
      repeat split; try assumption; trace_norm; reflexivity.
  - intros Hok Hino. apply Z.eqb_eq in Hino.
    destruct (oldname t) as [nm|]; simp_txn.
    + destruct Hok as [Hok|Hok]; [discriminate|].
      rewrite Hok. simp_txn. rewrite ?Hw. fold dold. rewrite Hino.
      destruct (oldpath_p t); simp_txn;
        repeat split; try assumption; trace_norm; reflexivity.
    + rewrite ?Hw. fold dold. rewrite Hino.
      destruct (oldpath_p t); simp_txn;
        repeat split; try assumption; trace_norm; reflexivity.
Qed.

Lemma rename_fails_on_unusable_source_witness :
  fst (run (smb_vfs_rename RefKernel.refk 1 (Some "/share/nope"%string)
              "/share/y"%string 0) RefKernel.s0) = - ENOENT.
Proof.
  pose proof (rename_fails_on_unusable_source RefKernel.refk RefKernel.s0 1
                (Some "/share/nope"%string) "/share/y"%string 0) as H.
  match eval vm_compute in
          (fst (rename_resolve RefKernel.refk 1 (Some "/share/nope"%string)
                  "/share/y"%string 0 RefKernel.s0)) with
  | Next ?t => specialize (H t)
  end.
  cbv zeta in H. destruct H as [_ H].
  - vm_compute. reflexivity.
  - destruct H as [H _].
    + right. vm_compute. reflexivity.
    + vm_compute. reflexivity.
    + exact H.
Defined.

(** X16.  When neither end of a rename is the trap and both lookups
    succeed, the helper calls [vfs_rename] on the two parent inodes and
    the two dentries and returns what it returns, whether or not the
    destination already exists; the world is the one [vfs_rename]
    leaves. *)
Theorem rename_returns_the_backend_result
    K (st : kstate K) (server : Z) (abs_oldname : option string)
    (abs_newname : string) (oldfid : Z) (t : rename_txn) :
  let w := world K st in
  let st1 := snd (rename_resolve K server abs_oldname abs_newname oldfid st) in
  let trap := lock_rename K w (dold_p t) (dnew_p t) in
  let dold := rename_source K t w in
  let dnew := rename_target K t w in
  let old_dir := d_inode K w (dold_p t) in
  let new_dir := d_inode K w (dnew_p t) in
  fst (rename_resolve K server abs_oldname abs_newname oldfid st) = Next t ->
  match oldname t with
  | Some _ => IS_ERR dold = false
  | None => True
  end ->
  d_inode K w dold <> 0 ->
  dold <> trap ->
  IS_ERR dnew = false ->
  dnew <> trap ->
  let out := run (smb_vfs_rename K server abs_oldname abs_newname oldfid) st in
  fst out = fst (vfs_rename K w old_dir dold new_dir dnew) /\
  world K (snd out) = snd (vfs_rename K w old_dir dold new_dir dnew) /\
  In (EvVfsRename old_dir dold new_dir dnew) (emitted st1 (snd out)).
Proof.
  intros w st1 trap dold dnew old_dir new_dir Hres Hsrc Hino Hne Hdst Hnt out.
  subst out.
  rewrite (rename_after_resolve _ _ _ _ _ _ _ Hres). fold st1.
  assert (Hw : world K st1 = w) by apply rename_resolve_keeps_world.
  clearbody st1. clear Hres.
  apply Z.eqb_neq in Hino. apply Z.eqb_neq in Hne. apply Z.eqb_neq in Hnt.
  unfold rename_locked. unfold_monad. simp_txn. rewrite Hw.
  fold trap. fold dold.
  destruct (oldname t) as [nm|]; simp_txn; rewrite ?Hw; fold dold;
    rewrite ?Hsrc; simp_txn; rewrite ?Hw; fold dold;
    rewrite Hino, Hne; simp_txn; rewrite ?Hw; fold dnew;
    rewrite Hdst, Hnt; simp_txn; rewrite ?Hw; fold old_dir; fold new_dir;
    destruct (vfs_rename K w old_dir dold new_dir dnew) as [err w'];
    simp_txn;
    destruct (oldpath_p t); simp_txn;
    repeat split; trace_norm; simpl; tauto.
Qed.

Lemma rename_returns_the_backend_result_witness :
  fst (run (smb_vfs_rename RefKernel.refk 1 (Some "/share/a/b/x"%string)
              "/share/y"%string 0) RefKernel.s0) = 0.
Proof.
  pose proof (rename_returns_the_backend_result RefKernel.refk RefKernel.s0 1
                (Some "/share/a/b/x"%string) "/share/y"%string 0) as H.
  match eval vm_compute in
          (fst (rename_resolve RefKernel.refk 1 (Some "/share/a/b/x"%string)
                  "/share/y"%string 0 RefKernel.s0)) with
  | Next ?t => specialize (H t)
  end.
  cbv zeta in H. destruct H as [H _].
  - vm_compute. reflexivity.
  - vm_compute. reflexivity.
  - vm_compute. discriminate.
  - vm_compute. discriminate.
  - vm_compute. reflexivity.
  - vm_compute. discriminate.
  - rewrite H. vm_compute. reflexivity.
Defined.

(** ** Extended attributes *)

(** X17.  [smb_vfs_getxattr] never asks the kernel to write more than
    the caller's buffer holds: every [vfs_getxattr] call carries a size
    between 0 and [buf_len]. *)
Theorem getxattr_never_overruns_the_buffer
    K (st : kstate K) (d : Z) (name : string) (buf : list Z) (buf_len : Z) :
  0 <= buf_len ->
  never (is_getxattr_beyond buf_len)
    (emitted st (snd (run (smb_vfs_getxattr K d name buf buf_len) st)))
  = true.
Proof.
  intros Hcap.
  assert (H0 : (0 <? 0) || (buf_len <? 0) = false).
  { cbn [Z.ltb Z.compare orb]. apply Z.ltb_ge. lia. }
  unfold smb_vfs_getxattr. unfold_monad. simp.
  repeat (branch; simp); trace_norm;
    cbn [never forallb is_getxattr_beyond]; rewrite H0; cbn [negb andb];
    try reflexivity.
  rewrite Z.gtb_ltb in *. apply Z.leb_gt in E0.
  match goal with
  | H : (buf_len <? ?x) = false |- _ => rewrite H
  end.
  replace (z <? 0) with false by (symmetry; apply Z.ltb_ge; lia).
  reflexivity.
Qed.

Lemma getxattr_never_overruns_the_buffer_witness :
  never (is_getxattr_beyond 10)
    (emitted RefKernel.s0
       (snd (run (smb_vfs_getxattr RefKernel.refk RefKernel.a_txt "user.tag"
                    (repeat 0 10) 10) RefKernel.s0))) = true.
Proof.
  apply (getxattr_never_overruns_the_buffer RefKernel.refk RefKernel.s0).
  lia.
Defined.

(** X18.  What [smb_vfs_getxattr] returns when the value fits.  A
    length query that answers zero or an error (the attribute is
    empty or absent) is returned as it is after that single call, the
    buffer untouched.  A positive length within the capacity leads to
    one more call, for exactly that length, whose result is returned
    and whose data lands at the start of the buffer. *)
Theorem getxattr_returns_the_kernel_answer
    K (st : kstate K) (d : Z) (name : string) (buf : list Z) (buf_len : Z) :
  let w := world K st in
  let len := fst (vfs_getxattr K w d name 0) in
  let out := run (smb_vfs_getxattr K d name buf buf_len) st in
  (len <= 0 ->
   out = ({| gx_ret := to_int len; gx_buf := buf |},
          logged st [EvVfsGetxattr d name 0])) /\
  (0 < len <= buf_len ->
   out = ({| gx_ret := to_int (fst (vfs_getxattr K w d name len));
             gx_buf := overlay (snd (vfs_getxattr K w d name len)) buf |},
          logged st [EvVfsGetxattr d name 0; EvVfsGetxattr d name len])).
Proof.
  intros w len out. subst out len.
  unfold smb_vfs_getxattr. unfold_monad. simp. fold w.
  destruct (vfs_getxattr K w d name 0) as [len junk]. cbn [fst]. simp.
  split; intros Hlen.
  - replace (len <=? 0) with true by (symmetry; apply Z.leb_le; lia).
    reflexivity.
  - replace (len <=? 0) with false by (symmetry; apply Z.leb_gt; lia).
    simp.
    replace (len >? buf_len) with false
      by (symmetry; rewrite Z.gtb_ltb; apply Z.ltb_ge; lia).
    simp. fold w.
    destruct (vfs_getxattr K w d name len) as [r data]. simp.
    unfold logged. cbn [fst snd]. now rewrite <- app_assoc.
Qed.

Lemma getxattr_returns_the_kernel_answer_witness :
  fst (run (smb_vfs_getxattr RefKernel.refk RefKernel.a_txt "user.tag"
              (repeat 0 10) 10) RefKernel.s0)
  = {| gx_ret := 8; gx_buf := [1; 2; 3; 4; 5; 6; 7; 8; 0; 0] |}.
Proof.
  destruct (getxattr_returns_the_kernel_answer RefKernel.refk RefKernel.s0
              RefKernel.a_txt "user.tag" (repeat 0 10) 10) as [_ H].
  rewrite H.
  - vm_compute. reflexivity.
  - vm_compute. split; [reflexivity | discriminate].
Defined.

(** ** The last component of a path *)

Lemma strrchr_none (s : string) (c : ascii) :
  strrchr s c = None <-> has_char c s = false.
Proof.
  induction s as [|a s IH]; cbn [strrchr has_char].
  - tauto.
  - destruct (strrchr s c) as [r|].
    + split; [discriminate|]. intros H. apply orb_false_elim in H.
      destruct H as [_ H]. apply IH in H. discriminate.
    + destruct (Ascii.eqb a c); cbn [orb].
      * split; discriminate.
      * split; intros _; [now apply IH | reflexivity].
Qed.

Lemma strrchr_some (s : string) (c : ascii) (r : string) :
  strrchr s c = Some r ->
  exists p r', s = (p ++ String c r')%string /\ r = String c r' /\
               has_char c r' = false.
Proof.
  revert r. induction s as [|a s IH]; cbn [strrchr]; intros r H.
  - discriminate.
  - destruct (strrchr s c) as [r0|] eqn:Hs.
    + injection H as <-. destruct (IH r0 eq_refl) as (p & r' & -> & -> & Hno).
      exists (String a p), r'. repeat split; auto.
    + destruct (Ascii.eqb_spec a c) as [->|_]; [|discriminate].
      injection H as <-. exists EmptyString, s. repeat split.
      now apply strrchr_none.
Qed.

Lemma strrchr_app (p : string) (c : ascii) (r : string) :
  has_char c r = false ->
  strrchr (p ++ String c r) c = Some (String c r).
Proof.
  intros Hno. induction p as [|a p IH]; cbn [append strrchr].
  - apply strrchr_none in Hno. rewrite Hno. now rewrite Ascii.eqb_refl.
  - now rewrite IH.
Qed.

(** X19.  The leaf name the rename helper extracts is never empty,
    holds no separator, and is what follows the last separator of the
    path. *)
Theorem last_component_is_the_leaf (abs leaf : string) :
  last_component abs = Some leaf ->
  leaf <> EmptyString /\
  has_char "/" leaf = false /\
  exists dir, abs = (dir ++ String "/" leaf)%string.
Proof.
  unfold last_component. intros H.
  destruct (strrchr abs "/") as [r|] eqn:Hr; [|discriminate].
  destruct (strrchr_some _ _ _ Hr) as (p & r' & Habs & -> & Hno).
  destruct r' as [|a rest]; [discriminate|].
  injection H as <-. repeat split.
  - discriminate.
  - exact Hno.
  - exists p. exact Habs.
Qed.

Lemma last_component_is_the_leaf_witness :
  has_char "/" "a.txt" = false /\
  exists dir, "/share/a.txt"%string = (dir ++ String "/" "a.txt")%string.
Proof.
  destruct (last_component_is_the_leaf "/share/a.txt" "a.txt") as (_ & H).
  - reflexivity.
  - exact H.
Defined.

(** X20.  Which paths have a leaf.  A non-empty name without separator
    placed after a directory and a separator is extracted again,
    whatever the directory is; a path that ends in a separator, or
    holds none at all, has no leaf. *)
Theorem last_component_round_trip (dir leaf : string) :
  (leaf <> EmptyString -> has_char "/" leaf = false ->
   last_component (dir ++ String "/" leaf) = Some leaf) /\
  last_component (dir ++ String "/" EmptyString) = None /\
  (has_char "/" dir = false -> last_component dir = None).
Proof.
  unfold last_component. repeat split.
  - intros Hne Hno. rewrite strrchr_app by assumption.
    destruct leaf; [contradiction | reflexivity].
  - now rewrite strrchr_app.
  - intros Hno. apply strrchr_none in Hno. now rewrite Hno.
Qed.

Lemma last_component_round_trip_witness :
  last_component ("/share/dir" ++ String "/" "leaf") = Some "leaf"%string.
Proof.
  destruct (last_component_round_trip "/share/dir" "leaf") as [H _].
  apply H; [discriminate | reflexivity].
Defined.

(** ** Names that do not resolve *)

(** X21.  How a failed path lookup is reported.  [smb_vfs_setattr] and
    the source side of [smb_vfs_rename] answer [-ENOENT] whatever the
    lookup error was; [smb_vfs_truncate] and the destination side of
    [smb_vfs_rename] pass the lookup error on.  In every case the
    helper stops there: no lock is taken, the backend is not called
    and the world is unchanged. *)
Theorem failed_lookups_are_reported
    K (st : kstate K) (server fid size : Z) (nm abs_newname : string)
    (abs_oldname : option string) (attrs : iattr) :
  let w := world K st in
  let by_name := kern_path K w nm 0 in
  let parent := kern_path K w nm LOOKUP_PARENT in
  let new_parent := kern_path K w abs_newname LOOKUP_PARENT in
  (fst by_name <> 0 ->
   run (smb_vfs_setattr K server (Some nm) fid attrs) st
   = ({| sa_ret := - ENOENT; sa_attrs := attrs |},
      logged st [EvKernPath nm 0 (fst by_name) (snd by_name)]) /\
   run (smb_vfs_truncate K server (Some nm) fid size) st
   = (fst by_name,
      logged st [EvKernPath nm 0 (fst by_name) (snd by_name)])) /\
  (last_component nm <> None -> fst parent <> 0 ->
   run (smb_vfs_rename K server (Some nm) abs_newname fid) st
   = (- ENOENT,
      logged st [EvKernPath nm LOOKUP_PARENT (fst parent) (snd parent)])) /\
  (rename_source_resolves K w server abs_oldname fid = true ->
   last_component abs_newname <> None -> fst new_parent <> 0 ->
   let out := run (smb_vfs_rename K server abs_oldname abs_newname fid) st in
   fst out = fst new_parent /\
   world K (snd out) = w /\
   never is_lock_rename (emitted st (snd out)) = true /\
   held [] (emitted st (snd out)) = Some []).
Proof.
  intros w by_name parent new_parent. subst by_name parent new_parent.
  split; [|split].
  - intros Herr. apply Z.eqb_neq in Herr. split.
    + unfold smb_vfs_setattr. unfold_monad. simp. fold w.
      destruct (kern_path K w nm 0) as [err pth]. cbn [fst snd] in *. simp.
      rewrite Herr. reflexivity.
    + unfold smb_vfs_truncate. unfold_monad. simp. fold w.
      destruct (kern_path K w nm 0) as [err pth]. cbn [fst snd] in *. simp.
      rewrite Herr. reflexivity.
  - intros Hleaf Herr. apply Z.eqb_neq in Herr.
    unfold_rename. unfold_monad. simp_txn. fold w.
    destruct (last_component nm); [|contradiction]. simp_txn. fold w.
    destruct (kern_path K w nm LOOKUP_PARENT) as [err pth].
    cbn [fst snd] in *. simp_txn. rewrite Herr. reflexivity.
  - intros Hsrc Hleaf Herr. apply Z.eqb_neq in Herr.
    unfold rename_source_resolves in Hsrc.
    unfold_rename. unfold_monad. simp_txn. fold w.
    destruct (last_component abs_newname) as [newleaf|]; [|contradiction].
    destruct (kern_path K w abs_newname LOOKUP_PARENT) as [err pth] eqn:Enew.
    cbn [fst snd] in *.
    destruct abs_oldname as [abs_old|]; simp_txn.
    + destruct (last_component abs_old); [|discriminate]. simp_txn. fold w.
      destruct (kern_path K w abs_old LOOKUP_PARENT) as [err0 pth0].
      cbn [fst] in Hsrc. simp_txn. rewrite Hsrc. cbn [negb]. simp_txn.
      fold w. rewrite Enew. simp_txn.
      rewrite Herr. cbn [negb]. simp_txn.
      repeat split; trace_norm;
        cbn [held acquired released never forallb is_lock_rename negb andb];
        rewrite ?Hsrc, ?Herr, ?resource_eqb_refl; reflexivity.
    + apply negb_true_iff in Hsrc. fold w. rewrite Hsrc. simp_txn.
      fold w. rewrite Enew. simp_txn.
      rewrite Herr. cbn [negb]. simp_txn.
      repeat split; trace_norm;
        cbn [held acquired released never forallb is_lock_rename negb andb];
        rewrite ?Herr; reflexivity.
Qed.

Lemma failed_lookups_are_reported_witness :
  fst (run (smb_vfs_truncate RefKernel.refk 1 (Some "/share/nope"%string) 0 0)
           RefKernel.s0) = - ENOENT.
Proof.
  destruct (failed_lookups_are_reported RefKernel.refk RefKernel.s0 1 0 0
              "/share/nope" "/share/y" None
              {| ia_valid := 0; ia_mode := 0; ia_uid := 0; ia_gid := 0;
                 ia_size := 0 |}) as [H _].
  destruct H as [_ H].
  - vm_compute. discriminate.
  - rewrite H. vm_compute. reflexivity.
Defined.
(** * Properties of the other helpers *)

Ltac unfold_xmonad :=
  cbv [xrun xbind xret xreturn xemit xlook xcall xget_fs xset_fs
       set_f_flags set_f_mode set_ra_pages set_xtrace lift].

Ltac xsimp :=
  cbn [xworld xf_flags xf_mode xra_pages xaddr_limit xtrace fst snd
       world f_flags addr_limit trace].

Ltac xtrace_norm :=
  unfold xemitted, xlogged, set_xtrace;
  cbn [xworld xf_flags xf_mode xra_pages xaddr_limit xtrace fst snd];
  repeat rewrite <- app_assoc; cbn [app];
  try rewrite skipn_length_app;
  try rewrite skipn_all.

(** As [branch], looking through a negation first. *)
Ltac xbranch :=
  first [ match goal with
          | |- context [if negb ?c then _ else _] =>
              let E := fresh "E" in destruct c eqn:E; cbn [negb]
          end
        | branch ].

(** ** Creating files and directories *)

Lemma force_file_type (mode type : Z) :
  Z.land type S_IFMT = type ->
  let m := Z.lor (Z.land mode (Z.lnot S_IFMT)) type in
  Z.land m S_IFMT = type /\
  Z.land m (Z.lnot S_IFMT) = Z.land mode (Z.lnot S_IFMT).
Proof.
  intros Htype m. subst m.
  assert (Hout : Z.land type (Z.lnot S_IFMT) = 0).
  { rewrite <- Htype, <- Z.land_assoc, Z.land_lnot_diag. apply Z.land_0_r. }
  rewrite !Z.land_lor_distr_l, land_clear_same, land_clear_twice, Htype, Hout.
  split; [apply Z.lor_0_l | apply Z.lor_0_r].
Qed.

(** X22.  [smb_vfs_create] only ever creates regular files and
    [smb_vfs_mkdir] only directories.  When [kern_path_create] fails
    the helper returns its error and calls nothing else.  Otherwise it
    calls the backend once, with a mode whose type bits are those of a
    regular file (of a directory) whatever type the caller passed and
    whose other bits are the caller's, gives the path back with
    [done_path_create] and returns the backend's result. *)
Theorem create_and_mkdir_force_the_type
    K (s : xstate K) (name : string) (mode : Z) :
  let w := xworld K s in
  let on (helper : MX K Z Z) (flags type : Z)
         (backend : Z -> Z -> Z -> Z * W K)
         (call : Z -> Z -> Z -> xevent) :=
    let d := fst (kern_path_create K w name flags) in
    let pth := snd (kern_path_create K w name flags) in
    let dir := d_inode K w (dentry pth) in
    let out := xrun helper s in
    (IS_ERR d = true ->
     out = (to_int d, xlogged s [EvKernPathCreate name flags d pth])) /\
    (IS_ERR d = false ->
     exists m,
       Z.land m S_IFMT = type /\
       Z.land m (Z.lnot S_IFMT) = Z.land mode (Z.lnot S_IFMT) /\
       xemitted s (snd out)
       = [EvKernPathCreate name flags d pth; call dir d m;
          EvDonePathCreate pth d] /\
       fst out = fst (backend dir d m) /\
       xworld K (snd out) = snd (backend dir d m)) in
  on (smb_vfs_create K name mode) 0 S_IFREG
     (fun dir d m => vfs_create K w dir d m true)
     (fun dir d m => EvVfsCreate dir d m true) /\
  on (smb_vfs_mkdir K name mode) LOOKUP_DIRECTORY S_IFDIR
     (vfs_mkdir K w) EvVfsMkdir.
Proof.
  intros w on. subst on. cbv beta. split.
  - unfold smb_vfs_create. unfold_xmonad. xsimp. fold w.
    destruct (kern_path_create K w name 0) as [d pth]. cbn [fst snd]. xsimp.
    split; intros Herr; rewrite Herr; [reflexivity|]. xsimp. fold w.
    destruct (force_file_type mode S_IFREG eq_refl) as [Ht Hm].
    cbv zeta in Ht, Hm.
    exists (Z.lor (Z.land mode (Z.lnot S_IFMT)) S_IFREG).
    destruct (vfs_create K w _ d _ true) as [err w']. xsimp.
    repeat split; try assumption. xtrace_norm. reflexivity.
  - unfold smb_vfs_mkdir. unfold_xmonad. xsimp. fold w.
    destruct (kern_path_create K w name LOOKUP_DIRECTORY) as [d pth].
    cbn [fst snd]. xsimp.
    split; intros Herr; rewrite Herr; [reflexivity|]. xsimp. fold w.
    destruct (force_file_type mode S_IFDIR eq_refl) as [Ht Hm].
    cbv zeta in Ht, Hm.
    exists (Z.lor (Z.land mode (Z.lnot S_IFMT)) S_IFDIR).
    destruct (vfs_mkdir K w _ d _) as [err w']. xsimp.
    repeat split; try assumption. xtrace_norm. reflexivity.
Qed.

(** ** Removing names *)

(** X23.  [smb_vfs_unlink] on a file whose link count is already zero
    removes nothing: [vfs_unlink] is not called, the world is the one
    the call started in and the helper reports success, after taking
    and giving back the dentry, the parent's mutex and the path. *)
Theorem unlink_skips_a_file_without_links
    K (s : xstate K) (name : string) :
  let w := xworld K s in
  let pth := snd (kern_path K w name 0) in
  let dir := d_inode K w (d_parent K w (dentry pth)) in
  fst (kern_path K w name 0) = 0 ->
  i_nlink K w (d_inode K w (dentry pth)) = 0 ->
  xrun (smb_vfs_unlink K name) s
  = (0, xlogged s [XBase (EvKernPath name 0 0 pth);
                   XBase (EvDget (dentry pth));
                   EvMutexLockNested (i_mutex dir) I_MUTEX_PARENT;
                   XBase (EvMutexUnlock (i_mutex dir));
                   XBase (EvDput (dentry pth));
                   XBase (EvPathPut pth)]).
Proof.
  intros w pth dir Hpath Hnlink. subst pth dir.
  unfold smb_vfs_unlink. unfold_xmonad. xsimp. fold w.
  destruct (kern_path K w name 0) as [err pth]. cbn [fst snd] in *.
  subst err. change (negb (0 =? 0)) with false. xsimp. fold w.
  rewrite Hnlink. change (0 =? 0) with true. xsimp.
  xtrace_norm. reflexivity.
Qed.

Lemma unlink_skips_a_file_without_links_witness :
  let out := xrun (smb_vfs_unlink RefExt.refx "/share/a/b/x")
                  (RefExt.xboot RefExt.w_orphan) in
  fst out = 0 /\
  existsb is_name_space_change (xtrace RefExt.refx (snd out)) = false.
Proof.
  pose proof (unlink_skips_a_file_without_links RefExt.refx
                (RefExt.xboot RefExt.w_orphan) "/share/a/b/x") as H.
  cbv zeta in H. rewrite H.
  - split; reflexivity.
  - vm_compute. reflexivity.
  - vm_compute. reflexivity.
Defined.

(** X24.  [smb_vfs_link] refuses to link across mounts: when both
    names resolve and the two paths are on different mounts it returns
    [-EXDEV] without calling [vfs_link], after giving back the new path
    and then the old one; the world is unchanged.  The lookup flags of
    the new name are [LOOKUP_FOLLOW & LOOKUP_REVAL], which is 0. *)
Theorem link_across_mounts_is_refused
    K (s : xstate K) (oldname newname : string) :
  let w := xworld K s in
  let oldpath := snd (kern_path K w oldname LOOKUP_FOLLOW) in
  let d := fst (kern_path_create K w newname 0) in
  let newpath := snd (kern_path_create K w newname 0) in
  fst (kern_path K w oldname LOOKUP_FOLLOW) = 0 ->
  IS_ERR d = false ->
  mnt oldpath <> mnt newpath ->
  xrun (smb_vfs_link K oldname newname) s
  = (- EXDEV,
     xlogged s [XBase (EvKernPath oldname LOOKUP_FOLLOW 0 oldpath);
                EvKernPathCreate newname 0 d newpath;
                EvDonePathCreate newpath d;
                XBase (EvPathPut oldpath)]).
Proof.
  intros w oldpath d newpath Hold Hnew Hmnt. subst oldpath d newpath.
  unfold smb_vfs_link. unfold_xmonad. xsimp. fold w.
  destruct (kern_path K w oldname LOOKUP_FOLLOW) as [err oldpath].
  cbn [fst snd] in *. subst err. change (negb (0 =? 0)) with false. xsimp.
  change (Z.land LOOKUP_FOLLOW LOOKUP_REVAL) with 0. fold w.
  destruct (kern_path_create K w newname 0) as [d newpath].
  cbn [fst snd] in *. rewrite Hnew. xsimp.
  apply Z.eqb_neq in Hmnt. rewrite Hmnt. cbn [negb]. xsimp.
  xtrace_norm. reflexivity.
Qed.

(** A link from [/share/a.txt] to a new name under [/share/a/b], which
    is on another file system. *)
Lemma link_across_mounts_is_refused_witness :
  let K := RefExt.refx_mounted [(RefKernel.dir_b, 2)] in
  let out := xrun (smb_vfs_link K "/share/a.txt" "/share/a/b/y")
                  (RefExt.xboot_mounted [(RefKernel.dir_b, 2)] RefKernel.w0) in
  fst out = - EXDEV /\
  existsb is_name_space_change (xtrace K (snd out)) = false.
Proof.
  intros K out. subst out.
  pose proof (link_across_mounts_is_refused K
                (RefExt.xboot_mounted [(RefKernel.dir_b, 2)] RefKernel.w0)
                "/share/a.txt" "/share/a/b/y") as H.
  cbv zeta in H. rewrite H.
  - split; reflexivity.
  - vm_compute. reflexivity.
  - vm_compute. reflexivity.
  - vm_compute. discriminate.
Defined.

(** ** What the helpers on names hold *)

Lemma mutex_eqb_refl (m : mutex) : mutex_eqb m m = true.
Proof. destruct m; [reflexivity | apply Z.eqb_refl]. Qed.

Lemma xresource_eqb_refl (r : xresource) : xresource_eqb r r = true.
Proof.
  destruct r; unfold xresource_eqb, path_eqb;
    now rewrite ?Z.eqb_refl, ?mutex_eqb_refl.
Qed.

(** Follow the stack of held resources along the trace. *)
Ltac read_xtrace :=
  xtrace_norm;
  repeat first
    [ progress cbn [xheld xguard_ok xacquired xreleased negb mutex_eqb]
    | rewrite xresource_eqb_refl
    | rewrite Z.eqb_refl
    | match goal with
      | H : ?c = _ |- context [?c] => rewrite H
      end ];
  try reflexivity.

(** X25.  The helpers that change the name space, and
    [smb_vfs_setxattr], give back everything they take, in the reverse
    order of taking, on every path including the error paths: the path
    of [kern_path] by [path_put], the result of [kern_path_create] by
    [done_path_create], the dentry reference by [dput], and the mutex
    taken with [mutex_lock_nested] by a [mutex_unlock] of that same
    mutex.  The only mutex [smb_vfs_rmdir] and [smb_vfs_unlink] lock
    is the [i_mutex] of the inode of the parent directory of the
    dentry the name resolves to, taken as [I_MUTEX_PARENT].  The
    backend call itself is made under the protection it needs:
    [vfs_rmdir] and [vfs_unlink] on a directory inode whose [i_mutex]
    is the lock taken last, [vfs_create], [vfs_mkdir], [vfs_symlink]
    and [vfs_link] on the dentry that [kern_path_create] handed out
    and before it is given back.  [smb_vfs_rmdir] and [smb_vfs_unlink]
    read the parent's inode again after the backend call to unlock
    it; for them the balance holds when the call left the inode of
    the parent directory in place. *)
Theorem name_space_helpers_release_what_they_take
    K (s : xstate K) (name other : string) (mode : Z)
    (filename : option string) (fpath : path) (value : list Z)
    (size flags : Z) :
  let w := xworld K s in
  let balanced (helper : MX K Z Z) :=
    xheld [] (xemitted s (snd (xrun helper s))) = Some [] in
  let keeps_parent (lookup_flags : Z) (backend : W K -> Z -> Z -> Z * W K) :=
    let d := dentry (snd (kern_path K w name lookup_flags)) in
    parent_inode K (snd (backend w (parent_inode K w d) d)) d
    = parent_inode K w d in
  let locks_parent (lookup_flags : Z) (helper : MX K Z Z) :=
    let d := dentry (snd (kern_path K w name lookup_flags)) in
    locks_only (parent_inode K w d) (xemitted s (snd (xrun helper s)))
    = true in
  balanced (smb_vfs_create K name mode) /\
  balanced (smb_vfs_mkdir K name mode) /\
  locks_parent LOOKUP_DIRECTORY (smb_vfs_rmdir K name) /\
  (keeps_parent LOOKUP_DIRECTORY (vfs_rmdir K) ->
   balanced (smb_vfs_rmdir K name)) /\
  locks_parent 0 (smb_vfs_unlink K name) /\
  (keeps_parent 0 (vfs_unlink K) -> balanced (smb_vfs_unlink K name)) /\
  balanced (smb_vfs_link K name other) /\
  balanced (smb_vfs_symlink K name other) /\
  balanced (smb_vfs_setxattr K filename fpath name value size flags).
Proof.
  intros w balanced keeps_parent locks_parent.
  subst balanced keeps_parent locks_parent w.
  cbv beta zeta. unfold parent_inode.
  split; [|split; [|split; [|split; [|split; [|split; [|split; [|split]]]]]]].
  - unfold smb_vfs_create. unfold_xmonad. xsimp.
    repeat (xbranch; xsimp); read_xtrace.
  - unfold smb_vfs_mkdir. unfold_xmonad. xsimp.
    repeat (xbranch; xsimp); read_xtrace.
  - unfold smb_vfs_rmdir. unfold_xmonad. xsimp.
    destruct (kern_path K (xworld K s) name LOOKUP_DIRECTORY) as [err pth].
    cbn [fst snd].
    repeat (xbranch; xsimp); xtrace_norm;
      cbn [locks_only forallb mutex_eqb andb];
      rewrite ?Z.eqb_refl; reflexivity.
  - unfold smb_vfs_rmdir. unfold_xmonad. xsimp.
    destruct (kern_path K (xworld K s) name LOOKUP_DIRECTORY) as [err pth].
    cbn [fst snd].
    destruct (err =? 0) eqn:Eerr; cbn [negb]; xsimp.
    + destruct (vfs_rmdir K (xworld K s) _ (dentry pth)) as [r w'].
      cbn [fst snd]. intros Hparent. xsimp. rewrite Hparent. read_xtrace.
    + intros _. read_xtrace.
  - unfold smb_vfs_unlink. unfold_xmonad. xsimp.
    destruct (kern_path K (xworld K s) name 0) as [err pth].
    cbn [fst snd].
    repeat (xbranch; xsimp); xtrace_norm;
      cbn [locks_only forallb mutex_eqb andb];
      rewrite ?Z.eqb_refl; reflexivity.
  - unfold smb_vfs_unlink. unfold_xmonad. xsimp.
    destruct (kern_path K (xworld K s) name 0) as [err pth].
    cbn [fst snd].
    destruct (err =? 0) eqn:Eerr; cbn [negb]; xsimp.
    + destruct (i_nlink K (xworld K s) _ =? 0) eqn:Enlink; xsimp.
      * intros _. read_xtrace.
      * destruct (vfs_unlink K (xworld K s) _ (dentry pth)) as [r w'].
        cbn [fst snd]. intros Hparent. xsimp. rewrite Hparent. read_xtrace.
    + intros _. read_xtrace.
  - unfold smb_vfs_link. unfold_xmonad. xsimp.
    repeat (xbranch; xsimp); read_xtrace.
  - unfold smb_vfs_symlink. unfold_xmonad. xsimp.
    repeat (xbranch; xsimp); read_xtrace.
  - unfold smb_vfs_setxattr. destruct filename; unfold_xmonad; xsimp;
      repeat (xbranch; xsimp); read_xtrace.
Qed.

(** Removing [/share/a/b/x], which takes its inode away and leaves
    [/share/a/b] in place, and trying to remove the directory
    [/share/a/b] that still holds it. *)
Lemma name_space_helpers_release_what_they_take_witness :
  xheld [] (xtrace RefExt.refx
              (snd (xrun (smb_vfs_unlink RefExt.refx "/share/a/b/x")
                         RefExt.x0))) = Some [] /\
  existsb is_name_space_change
    (xtrace RefExt.refx
       (snd (xrun (smb_vfs_unlink RefExt.refx "/share/a/b/x") RefExt.x0)))
  = true.
Proof.
  pose proof (name_space_helpers_release_what_they_take RefExt.refx RefExt.x0
                "/share/a/b/x" "/share/a/b/y" 0 None
                {| mnt := 1; dentry := RefKernel.file_x |} [] 0 0) as H.
  cbv zeta beta in H. destruct H as (_ & _ & _ & _ & _ & Hunlink & _).
  split.
  - apply Hunlink. vm_compute. reflexivity.
  - vm_compute. reflexivity.
Defined.

(** ** Reading a link *)

(** X26.  [smb_vfs_readlink] without a path fails with [-ENOENT], and
    on something that is not a symbolic link with [-EINVAL]; in both
    cases the state is the one the call started in, so [readlink] is
    not called, and the buffer is returned as it was.  In every run the
    address limit after the call is the one before it, and [readlink]
    is only ever called between the switch to [KERNEL_DS] and the
    switch back. *)
Theorem readlink_rejects_what_is_no_link
    K (s : xstate K) (pth : option path) (buf : list Z) (lenp : Z) :
  let w := xworld K s in
  let is_link :=
    match pth with
    | Some p => S_ISLNK (i_mode K w (d_inode K w (dentry p)))
    | None => false
    end in
  let out := xrun (smb_vfs_readlink K pth buf lenp) s in
  (pth = None -> out = ((- ENOENT, buf), s)) /\
  (pth <> None -> is_link = false -> out = ((- EINVAL, buf), s)) /\
  xaddr_limit K (snd out) = xaddr_limit K s /\
  (forall p, pth = Some p -> is_link = true ->
   xemitted s (snd out)
   = [XBase (EvSetFs KERNEL_DS); EvReadlink (dentry p) lenp;
      XBase (EvSetFs (xaddr_limit K s))]).
Proof.
  intros w is_link out. subst out is_link.
  destruct pth as [p|].
  - unfold smb_vfs_readlink. unfold_xmonad. xsimp. fold w.
    destruct (S_ISLNK (i_mode K w (d_inode K w (dentry p)))) eqn:Elnk;
      cbn [negb]; xsimp.
    + fold w. destruct (readlink K w (dentry p) lenp) as [err data]. xsimp.
      split; [discriminate|]. split; [discriminate|]. split; [reflexivity|].
      intros q Hq _. injection Hq as <-. xtrace_norm. reflexivity.
    + split; [discriminate|]. split; [reflexivity|]. split; [reflexivity|].
      discriminate.
  - split; [reflexivity|]. split; [congruence|]. split; [reflexivity|].
    discriminate.
Qed.

Lemma readlink_rejects_what_is_no_link_witness :
  fst (fst (xrun (smb_vfs_readlink RefExt.refx
                    (Some {| mnt := 1; dentry := RefKernel.a_txt |})
                    [0; 0; 0; 0] 4) RefExt.x0))
  = - EINVAL.
Proof.
  pose proof (readlink_rejects_what_is_no_link RefExt.refx RefExt.x0
                (Some {| mnt := 1; dentry := RefKernel.a_txt |})
                [0; 0; 0; 0] 4) as H.
  cbv zeta in H. destruct H as (_ & H & _).
  rewrite H.
  - reflexivity.
  - discriminate.
  - vm_compute. reflexivity.
Defined.

(** ** Listing extended attributes *)

Lemma listxattr_size_in_range (size : Z) :
  0 <= size ->
  let size' := if size >? XATTR_LIST_MAX then XATTR_LIST_MAX else size in
  (to_size_t size' <? 0) || (XATTR_LIST_MAX <? to_size_t size') = false.
Proof.
  intros Hsize size'.
  assert (Hrange : 0 <= size' <= XATTR_LIST_MAX).
  { subst size'. destruct (size >? XATTR_LIST_MAX) eqn:E.
    - unfold XATTR_LIST_MAX. lia.
    - rewrite Z.gtb_ltb in E. apply Z.ltb_ge in E. lia. }
  unfold to_size_t. rewrite Z.mod_small.
  - apply orb_false_iff. split; [apply Z.ltb_ge | apply Z.ltb_ge]; lia.
  - unfold XATTR_LIST_MAX in Hrange. lia.
Qed.

(** X27.  [smb_vfs_listxattr] with a non-negative size never asks
    [vmalloc] or [vfs_listxattr] for more than [XATTR_LIST_MAX] bytes.
    It never returns [-ERANGE] (the backend's [-ERANGE] becomes
    [-E2BIG]).  The list is handed to the caller exactly when the
    result is positive; when it is not, the buffer the helper
    allocated is not handed out and no [vfree] is called either. *)
Theorem listxattr_clamps_the_request
    K (s : xstate K) (d size : Z) :
  0 <= size ->
  let out := xrun (smb_vfs_listxattr K d size) s in
  let l := xemitted s (snd out) in
  existsb is_listxattr_beyond l = false /\
  lx_ret (fst out) <> - ERANGE /\
  (lx_list (fst out) = None <-> lx_ret (fst out) <= 0) /\
  existsb is_xvfree l = false.
Proof.
  intros Hsize out l. subst l out.
  pose proof (listxattr_size_in_range size Hsize) as Hclamp.
  cbv zeta in Hclamp.
  unfold smb_vfs_listxattr. unfold_xmonad. xsimp.
  destruct (size =? 0) eqn:Ezero; xsimp.
  - apply Z.eqb_eq in Ezero. subst size.
    destruct (vfs_listxattr K (xworld K s) d (to_size_t 0)) as [err data].
    xsimp.
    destruct (to_int err >? 0) eqn:Epos;
      [|destruct (to_int err =? - ERANGE) eqn:Erange];
      xsimp; xtrace_norm;
      rewrite Z.gtb_ltb in Epos;
      (split; [reflexivity|]); (split; [|split; [|reflexivity]]);
      cbn [lx_ret lx_list].
    + apply Z.ltb_lt in Epos. unfold ERANGE. lia.
    + apply Z.ltb_lt in Epos. split; [discriminate | lia].
    + discriminate.
    + split; [unfold E2BIG; lia | reflexivity].
    + apply Z.eqb_neq in Erange. exact Erange.
    + apply Z.ltb_ge in Epos. split; [lia | reflexivity].
  - set (size' := if size >? XATTR_LIST_MAX then XATTR_LIST_MAX else size)
      in *.
    destruct (vmalloc K (xworld K s) (to_size_t size') =? 0) eqn:Ealloc; xsimp.
    + xtrace_norm. cbn [existsb is_listxattr_beyond is_xvfree orb].
      rewrite Hclamp. cbn [lx_ret lx_list].
      repeat split; try reflexivity; unfold ENOMEM, ERANGE; lia.
    + destruct (vfs_listxattr K (xworld K s) d (to_size_t size'))
        as [err data].
      xsimp.
      destruct (to_int err >? 0) eqn:Epos;
        [|destruct (to_int err =? - ERANGE) eqn:Erange];
        xsimp; xtrace_norm; cbn [existsb is_listxattr_beyond is_xvfree orb];
        rewrite Hclamp;
        rewrite Z.gtb_ltb in Epos;
        (split; [reflexivity|]); (split; [|split; [|reflexivity]]);
        cbn [lx_ret lx_list].
      * apply Z.ltb_lt in Epos. unfold ERANGE. lia.
      * apply Z.ltb_lt in Epos. split; [discriminate | lia].
      * discriminate.
      * split; [unfold E2BIG; lia | reflexivity].
      * apply Z.eqb_neq in Erange. exact Erange.
      * apply Z.ltb_ge in Epos. split; [lia | reflexivity].
Qed.

(** A request for 100000 bytes on [/share/a.txt]. *)
Lemma listxattr_clamps_the_request_witness :
  existsb is_listxattr_beyond
    (xemitted RefExt.x0
       (snd (xrun (smb_vfs_listxattr RefExt.refx RefKernel.a_txt 100000)
                  RefExt.x0))) = false.
Proof.
  apply (listxattr_clamps_the_request RefExt.refx RefExt.x0
           RefKernel.a_txt 100000).
  lia.
Defined.

(** ** Caching options *)

Lemma upd_same (f : Z -> Z) (filp v : Z) : upd f filp v filp = v.
Proof. unfold upd. now rewrite Z.eqb_refl. Qed.

Lemma upd_other (f : Z -> Z) (filp v g : Z) :
  g <> filp -> upd f filp v g = f g.
Proof. intros H. unfold upd. apply Z.eqb_neq in H. now rewrite H. Qed.

(** X28.  The caching options of [smb_vfs_set_fadvise] are not
    cumulative: the first of write-through, no-intermediate-buffering,
    sequential-only and random-access that is set is applied and the
    others are ignored.  Write-through sets [O_SYNC] and leaves
    [f_mode] and the read-ahead window alone whatever else is
    requested; without it, no-intermediate-buffering sets [O_DIRECT];
    without both, the flags stay as they are and sequential-only
    clears [FMODE_RANDOM] and doubles the device's read-ahead, else
    random-access sets [FMODE_RANDOM].  No other file is touched, the
    world is unchanged, and without an option or without a mapping
    nothing happens at all. *)
Theorem set_fadvise_applies_the_first_option
    K (s : xstate K) (filp option : Z) :
  let w := xworld K s in
  let mapping := f_mapping K w filp in
  let has flag := negb (Z.land option flag =? 0) in
  let s' := snd (xrun (smb_vfs_set_fadvise K filp option) s) in
  xworld K s' = w /\
  (forall g, g <> filp ->
   xf_flags K s' g = xf_flags K s g /\
   xf_mode K s' g = xf_mode K s g /\
   xra_pages K s' g = xra_pages K s g) /\
  (option = 0 \/ mapping = 0 -> s' = s) /\
  (option <> 0 -> mapping <> 0 ->
   if has (FILE_WRITE_THROUGH_LE K) then
     xf_flags K s' filp = Z.lor (xf_flags K s filp) O_SYNC /\
     xf_mode K s' = xf_mode K s /\ xra_pages K s' = xra_pages K s
   else if has (FILE_NO_INTERMEDIATE_BUFFERING_LE K) then
     xf_flags K s' filp = Z.lor (xf_flags K s filp) O_DIRECT /\
     xf_mode K s' = xf_mode K s /\ xra_pages K s' = xra_pages K s
   else
     xf_flags K s' = xf_flags K s /\
     if has (FILE_SEQUENTIAL_ONLY_LE K) then
       xf_mode K s' filp = Z.land (xf_mode K s filp) (Z.lnot FMODE_RANDOM) /\
       xra_pages K s' filp = to_uint (bdi_ra_pages K w mapping * 2)
     else
       xra_pages K s' = xra_pages K s /\
       if has (FILE_RANDOM_ACCESS_LE K) then
         xf_mode K s' filp = Z.lor (xf_mode K s filp) FMODE_RANDOM
       else xf_mode K s' = xf_mode K s).
Proof.
  intros w mapping has s'. subst s' has. cbv beta.
  unfold smb_vfs_set_fadvise. unfold_xmonad. xsimp. fold w. fold mapping.
  destruct (option =? 0) eqn:Eopt; cbn [orb]; xsimp.
  { apply Z.eqb_eq in Eopt.
    split; [reflexivity|]. split; [intros; repeat split|].
    split; [reflexivity | congruence]. }
  destruct (mapping =? 0) eqn:Emap; xsimp.
  { apply Z.eqb_eq in Emap.
    split; [reflexivity|]. split; [intros; repeat split|].
    split; [reflexivity | congruence]. }
  apply Z.eqb_neq in Eopt, Emap.
  assert (Hnot : option = 0 \/ mapping = 0 -> False) by (intros [?|?]; auto).
  destruct (Z.land option (FILE_WRITE_THROUGH_LE K) =? 0); cbn [negb]; xsimp.
  2: { split; [reflexivity|].
       split; [intros g Hg; rewrite upd_other by exact Hg; repeat split|].
       split; [intros H; destruct (Hnot H)|]. intros _ _.
       rewrite upd_same. repeat split. }
  destruct (Z.land option (FILE_NO_INTERMEDIATE_BUFFERING_LE K) =? 0);
    cbn [negb]; xsimp.
  2: { split; [reflexivity|].
       split; [intros g Hg; rewrite upd_other by exact Hg; repeat split|].
       split; [intros H; destruct (Hnot H)|]. intros _ _.
       rewrite upd_same. repeat split. }
  destruct (Z.land option (FILE_SEQUENTIAL_ONLY_LE K) =? 0);
    cbn [negb]; xsimp.
  2: { split; [reflexivity|].
       split; [intros g Hg; rewrite !upd_other by exact Hg; repeat split|].
       split; [intros H; destruct (Hnot H)|]. intros _ _.
       rewrite !upd_same. repeat split. }
  destruct (Z.land option (FILE_RANDOM_ACCESS_LE K) =? 0);
    cbn [negb]; xsimp.
  2: { split; [reflexivity|].
       split; [intros g Hg; rewrite upd_other by exact Hg; repeat split|].
       split; [intros H; destruct (Hnot H)|]. intros _ _.
       rewrite upd_same. repeat split. }
  split; [reflexivity|]. split; [intros; repeat split|].
  split; [intros H; destruct (Hnot H)|]. intros _ _. repeat split.
Qed.

Lemma land_lor_same (x b : Z) : Z.land (Z.lor x b) b = b.
Proof.
  apply Z.bits_inj'. intros n _.
  rewrite Z.land_spec, Z.lor_spec.
  destruct (Z.testbit x n), (Z.testbit b n); reflexivity.
Qed.

Lemma existsb_backend_read_lifted (l : list event) :
  existsb is_xbackend_read (List.map XBase l) = existsb is_backend_read l.
Proof.
  induction l as [|e l IH]; [reflexivity|].
  cbn [List.map existsb]. rewrite IH. destruct e; reflexivity.
Qed.

(** X29.  The advice of direct I/O does not survive a read.  After
    [smb_vfs_set_fadvise] with no-intermediate-buffering (and without
    write-through) the file has [O_DIRECT] set; a following
    [smb_vfs_read] through a handle of that file that reaches the
    backend leaves it cleared, and a read that does not reach the
    backend leaves the flags as the advice set them. *)
Theorem read_undoes_the_direct_io_advice
    K (s : xstate K) (server fid count pos option : Z) :
  let w := xworld K s in
  let filp := fp_filp K w (get_id_from_fidtable K w server fid) in
  option <> 0 ->
  f_mapping K w filp <> 0 ->
  Z.land option (FILE_WRITE_THROUGH_LE K) = 0 ->
  Z.land option (FILE_NO_INTERMEDIATE_BUFFERING_LE K) <> 0 ->
  let s1 := snd (xrun (smb_vfs_set_fadvise K filp option) s) in
  let s2 := snd (xrun (lift K (smb_vfs_read K server fid count pos)) s1) in
  Z.land (xf_flags K s1 filp) O_DIRECT = O_DIRECT /\
  (existsb is_xbackend_read (xemitted s1 s2) = true ->
   Z.land (xf_flags K s2 filp) O_DIRECT = 0) /\
  (existsb is_xbackend_read (xemitted s1 s2) = false ->
   xf_flags K s2 = xf_flags K s1).
Proof.
  intros w filp Hopt Hmap Hwt Hnb s1 s2.
  assert (Hs1 : s1 = {| xworld := w;
                        xf_flags := upd (xf_flags K s) filp
                                      (Z.lor (xf_flags K s filp) O_DIRECT);
                        xf_mode := xf_mode K s; xra_pages := xra_pages K s;
                        xaddr_limit := xaddr_limit K s;
                        xtrace := xtrace K s |}).
  { subst s1. unfold smb_vfs_set_fadvise. unfold_xmonad. xsimp. fold w.
    apply Z.eqb_neq in Hopt, Hmap, Hnb. rewrite Hopt, Hmap, Hwt, Hnb.
    reflexivity. }
  subst s2. rewrite Hs1. clear Hs1 s1.
  xsimp. rewrite upd_same.
  split; [apply land_lor_same|].
  unfold lift, xrun, xemitted. xsimp.
  set (k0 := {| world := w; f_flags := _; addr_limit := _; trace := [] |}).
  assert (Hread :
    let k := snd (smb_vfs_read K server fid count pos k0) in
    (existsb is_backend_read (trace K k) = true ->
     Z.land (f_flags K k filp) O_DIRECT = 0) /\
    (existsb is_backend_read (trace K k) = false ->
     f_flags K k = f_flags K k0)).
  { subst k0. unfold smb_vfs_read. unfold_monad. simp. fold w. fold filp.
    repeat (branch; simp); cbn [app existsb is_backend_read orb];
      (split; intros H;
       first [ discriminate H
             | reflexivity
             | apply land_clear_same
             | rewrite Z.eqb_refl in *; discriminate
             | rewrite Z.eqb_refl; apply land_clear_same ]). }
  cbv zeta in Hread.
  destruct (smb_vfs_read K server fid count pos k0) as [r k].
  cbn [snd] in Hread.
  destruct r; xsimp; rewrite skipn_length_app, existsb_backend_read_lifted;
    exact Hread.
Qed.

(** Direct I/O is asked for on [/share/a.txt], open as fid 7, and five
    bytes are read through that handle. *)
Lemma read_undoes_the_direct_io_advice_witness :
  let s1 := snd (xrun (smb_vfs_set_fadvise RefExt.refx 107 8) RefExt.x0) in
  let s2 := snd (xrun (lift RefExt.refx
                         (smb_vfs_read RefExt.refx 1 7 5 0)) s1) in
  Z.land (xf_flags RefExt.refx s1 107) O_DIRECT = O_DIRECT /\
  Z.land (xf_flags RefExt.refx s2 107) O_DIRECT = 0.
Proof.
  intros s1 s2.
  pose proof (read_undoes_the_direct_io_advice RefExt.refx RefExt.x0
                1 7 5 0 8) as H.
  cbv zeta in H.
  destruct H as (Hset & Hread & _).
  - discriminate.
  - vm_compute. discriminate.
  - reflexivity.
  - vm_compute. discriminate.
  - split; [exact Hset|]. apply Hread. vm_compute. reflexivity.
Defined.

(** ** Handles and names that do not resolve *)

(** X30.  A helper that cannot resolve what it was given reports that
    and does nothing else.  [smb_vfs_getattr] and [smb_vfs_fsync] on an
    unknown file identifier return [-ENOENT] after the table lookup
    alone.  [smb_vfs_rmdir], [smb_vfs_unlink], [smb_vfs_link] and
    [smb_vfs_setxattr] by name return the error of [kern_path] as it is,
    and [smb_vfs_symlink] the error of [kern_path_create], with no
    other call.  When [smb_vfs_link] resolves the old name and fails on
    the new one it gives the old path back before returning. *)
Theorem unresolved_handles_and_names_are_reported
    K (s : xstate K) (server fid : Z) (name other attr : string)
    (fpath : path) (value : list Z) (size flags : Z) :
  let w := xworld K s in
  let lookup_fails (lookup_flags : Z) (helper : MX K Z Z) :=
    let err := fst (kern_path K w name lookup_flags) in
    let pth := snd (kern_path K w name lookup_flags) in
    err <> 0 ->
    xrun helper s
    = (err, xlogged s [XBase (EvKernPath name lookup_flags err pth)]) in
  let d := fst (kern_path_create K w other 0) in
  let newpath := snd (kern_path_create K w other 0) in
  (get_id_from_fidtable K w server fid = 0 ->
   xrun (smb_vfs_getattr K server fid) s
   = ((- ENOENT, None), xlogged s [XBase (EvGetId server fid)]) /\
   xrun (smb_vfs_fsync K server fid) s
   = (- ENOENT, xlogged s [XBase (EvGetId server fid)])) /\
  lookup_fails LOOKUP_DIRECTORY (smb_vfs_rmdir K name) /\
  lookup_fails 0 (smb_vfs_unlink K name) /\
  lookup_fails 0 (smb_vfs_setxattr K (Some name) fpath attr value size flags) /\
  lookup_fails LOOKUP_FOLLOW (smb_vfs_link K name other) /\
  (IS_ERR d = true ->
   xrun (smb_vfs_symlink K name other) s
   = (to_int d, xlogged s [EvKernPathCreate other 0 d newpath]) /\
   (fst (kern_path K w name LOOKUP_FOLLOW) = 0 ->
    let oldpath := snd (kern_path K w name LOOKUP_FOLLOW) in
    xrun (smb_vfs_link K name other) s
    = (to_int d,
       xlogged s [XBase (EvKernPath name LOOKUP_FOLLOW 0 oldpath);
                  EvKernPathCreate other 0 d newpath;
                  XBase (EvPathPut oldpath)]))).
Proof.
  intros w lookup_fails d newpath. subst lookup_fails d newpath. cbv beta.
  split; [|split; [|split; [|split; [|split]]]].
  - intros Hfp.
    unfold smb_vfs_getattr, smb_vfs_fsync. unfold_xmonad. xsimp. fold w.
    rewrite Hfp. split; reflexivity.
  - unfold smb_vfs_rmdir. unfold_xmonad. xsimp. fold w.
    destruct (kern_path K w name LOOKUP_DIRECTORY) as [err pth].
    cbn [fst snd]. intros Herr. apply Z.eqb_neq in Herr. rewrite Herr.
    reflexivity.
  - unfold smb_vfs_unlink. unfold_xmonad. xsimp. fold w.
    destruct (kern_path K w name 0) as [err pth].
    cbn [fst snd]. intros Herr. apply Z.eqb_neq in Herr. rewrite Herr.
    reflexivity.
  - unfold smb_vfs_setxattr. unfold_xmonad. xsimp. fold w.
    destruct (kern_path K w name 0) as [err pth].
    cbn [fst snd]. intros Herr. apply Z.eqb_neq in Herr. rewrite Herr.
    reflexivity.
  - unfold smb_vfs_link. unfold_xmonad. xsimp. fold w.
    destruct (kern_path K w name LOOKUP_FOLLOW) as [err pth].
    cbn [fst snd]. intros Herr. apply Z.eqb_neq in Herr. rewrite Herr.
    reflexivity.
  - intros Hd. split.
    + unfold smb_vfs_symlink. unfold_xmonad. xsimp. fold w.
      destruct (kern_path_create K w other 0) as [d newpath].
      cbn [fst snd] in *. rewrite Hd. reflexivity.
    + unfold smb_vfs_link. unfold_xmonad. xsimp. fold w.
      destruct (kern_path K w name LOOKUP_FOLLOW) as [err oldpath].
      cbn [fst snd]. intros ->. change (negb (0 =? 0)) with false. xsimp.
      change (Z.land LOOKUP_FOLLOW LOOKUP_REVAL) with 0. fold w.
      destruct (kern_path_create K w other 0) as [d newpath].
      cbn [fst snd] in *. rewrite Hd. xsimp. xtrace_norm. reflexivity.
Qed.

Lemma unresolved_handles_and_names_are_reported_witness :
  fst (fst (xrun (smb_vfs_getattr RefExt.refx 1 99) RefExt.x0)) = - ENOENT /\
  fst (xrun (smb_vfs_rmdir RefExt.refx "/share/none") RefExt.x0) = - ENOENT.
Proof.
  pose proof (unresolved_handles_and_names_are_reported RefExt.refx RefExt.x0
                1 99 "/share/none" "/share/a.txt" "user.tag"
                {| mnt := 1; dentry := RefKernel.a_txt |} [] 0 0) as H.
  cbv zeta in H. destruct H as (Hfid & Hrmdir & _).
  destruct Hfid as [Hgetattr _].
  - vm_compute. reflexivity.
  - rewrite Hgetattr, Hrmdir.
    + split; vm_compute; reflexivity.
    + vm_compute. discriminate.
Defined.
